(** * Bulk import pipeline of the school onboarding wizard

    A shallow embedding of [BulkImport.tsx] (file upload, column mapping,
    row validation, exclusion and commit) and of the attendance importer of
    [AttendanceStep.tsx], together with the properties the specification
    states about them.

    React state is modelled by explicit state passing: an event handler is a
    function from the state of the render it was created in to the state
    after the batched [set...] calls.  A handler reads the values its closure
    captured, so a value passed to a setter is not visible to the rest of the
    same handler. *)

From Stdlib Require Import Ascii String NArith.
From stdpp Require Import base option list strings gmap pretty.

Local Open Scope string_scope.

(** ** JavaScript strings, regular expressions and values *)

Module Js.

(** Strings are sequences of code units; the model covers code units below
    256, which is all that the literals of the source use. *)

Definition code (c : ascii) : N := N_of_ascii c.

Definition between (lo hi : N) (c : ascii) : bool :=
  ((lo <=? code c) && (code c <=? hi))%N.

(** [\d] *)
Definition isDigit (c : ascii) : bool := between 48 57 c.

(** [[0-9a-f]] under the [i] flag *)
Definition isHexDigit (c : ascii) : bool :=
  isDigit c || between 97 102 c || between 65 70 c.

(** [\s], and the characters [trim] strips: TAB, LF, VT, FF, CR, SP, NBSP. *)
Definition isSpace (c : ascii) : bool :=
  between 9 13 c || (code c =? 32)%N || (code c =? 160)%N.

Definition lowerChar (c : ascii) : ascii :=
  if between 65 90 c || (between 192 222 c && negb (code c =? 215)%N)
  then ascii_of_N (code c + 32) else c.

Fixpoint toLowerCase (s : string) : string :=
  match s with
  | EmptyString => EmptyString
  | String c s' => String (lowerChar c) (toLowerCase s')
  end.

Fixpoint trimStart (s : string) : string :=
  match s with
  | String c s' => if isSpace c then trimStart s' else s
  | EmptyString => EmptyString
  end.

Fixpoint rev_string (acc s : string) : string :=
  match s with
  | EmptyString => acc
  | String c s' => rev_string (String c acc) s'
  end.

Definition trimEnd (s : string) : string :=
  rev_string "" (trimStart (rev_string "" s)).

Definition trim (s : string) : string := trimEnd (trimStart s).

Fixpoint startsWith (s p : string) : bool :=
  match p, s with
  | EmptyString, _ => true
  | String a p', String b s' => bool_decide (a = b) && startsWith s' p'
  | String _ _, EmptyString => false
  end.

Definition endsWith (s p : string) : bool :=
  startsWith (rev_string "" s) (rev_string "" p).

(** [s.includes(p)] *)
Fixpoint includes (s p : string) : bool :=
  startsWith s p ||
  match s with
  | EmptyString => false
  | String _ s' => includes s' p
  end.

(** [parts.join(sep)] *)
Fixpoint join (sep : string) (parts : list string) : string :=
  match parts with
  | [] => ""
  | [p] => p
  | p :: rest => p ++ sep ++ join sep rest
  end.

(** The double quote of the messages, and the line feed. *)
Definition dq : string := String "034"%char "".
Definition newline : string := String "010"%char "".

(** [s.split(/[...]/)] for a character class [sep]. *)
Fixpoint splitClass (sep : ascii → bool) (cur s : string) : list string :=
  match s with
  | EmptyString => [rev_string "" cur]
  | String c s' =>
      if sep c then rev_string "" cur :: splitClass sep "" s'
      else splitClass sep (String c cur) s'
  end.

Fixpoint repeatChar (n : nat) (c : ascii) : string :=
  match n with
  | O => ""
  | S n' => String c (repeatChar n' c)
  end.

(** [s.padStart(n, c)] for a one-character filler. *)
Definition padStart (n : nat) (c : ascii) (s : string) : string :=
  repeatChar (n - String.length s) c ++ s.

(** *** Regular expressions, matched by derivatives *)

Inductive regex : Type :=
  | Void
  | Eps
  | Chr (p : ascii → bool)
  | Seq (r1 r2 : regex)
  | Alt (r1 r2 : regex)
  | Star (r : regex).

Fixpoint nullable (r : regex) : bool :=
  match r with
  | Void => false
  | Eps => true
  | Chr _ => false
  | Seq r1 r2 => nullable r1 && nullable r2
  | Alt r1 r2 => nullable r1 || nullable r2
  | Star _ => true
  end.

Fixpoint deriv (c : ascii) (r : regex) : regex :=
  match r with
  | Void => Void
  | Eps => Void
  | Chr p => if p c then Eps else Void
  | Seq r1 r2 =>
      if nullable r1 then Alt (Seq (deriv c r1) r2) (deriv c r2)
      else Seq (deriv c r1) r2
  | Alt r1 r2 => Alt (deriv c r1) (deriv c r2)
  | Star r' => Seq (deriv c r') (Star r')
  end.

(** A regex that can no longer match anything (a sound, incomplete test:
    it only prunes the search). *)
Fixpoint dead (r : regex) : bool :=
  match r with
  | Void => true
  | Eps => false
  | Chr _ => false
  | Seq r1 r2 => dead r1 || dead r2
  | Alt r1 r2 => dead r1 && dead r2
  | Star _ => false
  end.

(** [/^r$/.test(s)] *)
Fixpoint fullMatch (r : regex) (s : string) : bool :=
  match s with
  | EmptyString => nullable r
  | String c s' => fullMatch (deriv c r) s'
  end.

Definition lit (c : ascii) : regex := Chr (λ x, bool_decide (x = c)).
Global Arguments lit c%_char.
Definition plus (r : regex) : regex := Seq r (Star r).
Definition opt (r : regex) : regex := Alt r Eps.

(** [r{n}] *)
Fixpoint times (n : nat) (r : regex) : regex :=
  match n with
  | O => Eps
  | S n' => Seq r (times n' r)
  end.

(** The longest prefix of [s] that [r] matches, as the greedy quantifiers of
    a pattern without alternation find it. [seen] is the prefix read so far,
    reversed. *)
Fixpoint longestPrefix (r : regex) (seen s : string) : option string :=
  let here := if nullable r then Some (rev_string "" seen) else None in
  match s with
  | EmptyString => here
  | String c s' =>
      if dead (deriv c r) then here
      else match longestPrefix (deriv c r) (String c seen) s' with
           | Some m => Some m
           | None => here
           end
  end.

(** The text of the leftmost match of [r] in [s] ([s.match(r)[0]]). *)
Fixpoint search (r : regex) (s : string) : option string :=
  match longestPrefix r "" s with
  | Some m => Some m
  | None =>
      match s with
      | EmptyString => None
      | String _ s' => search r s'
      end
  end.

(** *** Arrays *)

(** [arr.push(x)] *)
Definition push {A} (l : list A) (x : A) : list A := l ++ [x].

(** [arr.filter((x, i) => keep i x)], with [i] counted from [start]. *)
Fixpoint filterFrom {A} (keep : nat → A → bool) (start : nat) (l : list A)
  : list A :=
  match l with
  | [] => []
  | x :: l' =>
      if keep start x then x :: filterFrom keep (S start) l'
      else filterFrom keep (S start) l'
  end.

Definition filteri {A} (keep : nat → A → bool) (l : list A) : list A :=
  filterFrom keep 0 l.

(** [arr.forEach((x, i) => ...)] threading the variables the callback
    assigns, with [i] counted from [start]. *)
Fixpoint forEachFrom {A St} (body : St → A → nat → St) (start : nat)
  (s : St) (l : list A) : St :=
  match l with
  | [] => s
  | x :: l' => forEachFrom body (S start) (body s x start) l'
  end.

Definition forEachi {A St} (body : St → A → nat → St) (s : St) (l : list A)
  : St :=
  forEachFrom body 0 s l.

(** [arr.findIndex(p)] over the indices from [start] on *)
Fixpoint findIndexFrom {A} (p : A → bool) (start : nat) (l : list A)
  : option nat :=
  match l with
  | [] => None
  | x :: l' => if p x then Some start else findIndexFrom p (S start) l'
  end.

(** *** Values *)

(** The values a parsed file cell, a form field or a template entry can
    hold.  [Num] is the runtime's number type. *)
Inductive Value (Num : Type) : Type :=
  | VUndefined
  | VNull
  | VBool (b : bool)
  | VNum (x : Num)
  | VStr (s : string).

Global Arguments VUndefined {Num}.
Global Arguments VNull {Num}.
Global Arguments VBool {Num} b.
Global Arguments VNum {Num} x.
Global Arguments VStr {Num} s.

(** What the embedding takes from the JavaScript runtime: IEEE numbers with
    their conversions from and to strings, the native [Date] parser and the
    text of the [TypeError] a failed method call raises. *)
Class Runtime (Num : Type) : Type := {
  (** the number an integer literal denotes *)
  numOfZ : Z → Num;
  numNaN : Num;
  (** [isNaN(x)] *)
  numIsNaN : Num → bool;
  (** [!!x]: false on [0], [-0] and [NaN] *)
  numTruthy : Num → bool;
  (** [String(x)] *)
  numToString : Num → string;
  (** [Number(s)] *)
  stringToNumber : string → Num;
  (** [x < y] *)
  numLtb : Num → Num → bool;
  (** [new Date(v)]: the date part of [toISOString()] when the time value
      is not [NaN] *)
  nativeDate : Value Num → option string;
  (** the message of the [TypeError] raised by [v.method(...)] when [v],
      rendered as a string, has no such method *)
  typeErrorMessage : string → string → string;
}.

Section Values.
Context {Num : Type} `{!Runtime Num}.

(** [!!v] *)
Definition truthy (v : Value Num) : bool :=
  match v with
  | VUndefined | VNull => false
  | VBool b => b
  | VNum x => numTruthy x
  | VStr s => negb (bool_decide (s = ""))
  end.

(** [String(v)], which is also the coercion a template literal and
    [RegExp.prototype.test] apply. *)
Definition toString (v : Value Num) : string :=
  match v with
  | VUndefined => "undefined"
  | VNull => "null"
  | VBool true => "true"
  | VBool false => "false"
  | VNum x => numToString x
  | VStr s => s
  end.

(** [Number(v)] *)
Definition toNumber (v : Value Num) : Num :=
  match v with
  | VUndefined => numNaN
  | VNull => numOfZ 0
  | VBool true => numOfZ 1
  | VBool false => numOfZ 0
  | VNum x => x
  | VStr s => stringToNumber s
  end.

(** [a || b] *)
Definition or (a b : Value Num) : Value Num := if truthy a then a else b.

(** [v !== null && v !== undefined] *)
Definition notNullish (v : Value Num) : bool :=
  match v with
  | VUndefined | VNull => false
  | _ => true
  end.

(** [obj[key]] on a plain object, for the keys the object has itself and
    for names it does not inherit. A name that a plain object inherits from
    [Object.prototype] ([constructor], [toString], ...) and does not have
    itself is outside the model: it would read as [undefined] here. *)
Definition prop (obj : gmap string (Value Num)) (key : string) : Value Num :=
  default VUndefined (obj !! key).

(** [v === s] for a string literal [s] *)
Definition strictEqStr (v : Value Num) (s : string) : bool :=
  match v with
  | VStr t => bool_decide (t = s)
  | _ => false
  end.

(** [arr[i]] *)
Definition at_ (arr : list (Value Num)) (i : nat) : Value Num :=
  default VUndefined (arr !! i).
End Values.

End Js.

(** ** The generic importer: [BulkImport.tsx] *)

Module BulkImport.
Import Js.

Section Component.
Context {Num : Type} `{!Runtime Num}.

(** A parsed source row: header name to cell. *)
Local Abbreviation Row := (gmap string (Value Num)).

Record ColumnMapping : Type := {
  csvColumn : string;
  dbColumn : string;
  similarity : Num;
  matched : bool;
  manual : bool;
}.

Inductive ErrorType : Type := required | format | mapping.

Global Instance ErrorType_eq_dec : EqDecision ErrorType.
Proof. solve_decision. Defined.

Record ValidationError : Type := {
  type : ErrorType;
  field : option string;
  row : option nat;
  message : string;
  value : option (Value Num);
}.

Record ErrorSection : Type := {
  sectionType : ErrorType;
  title : string;
  sectionErrors : list ValidationError;
  isOpen : bool;
}.

Record RowValidation : Type := {
  rowIndex : nat;
  errors : list ValidationError;
  excluded : bool;
}.

(** The component's [useState] cells. [stateErrors] is the cell the source
    calls [errors]. *)
Record State : Type := {
  stateErrors : list ValidationError;
  errorSections : list ErrorSection;
  columnMappings : list ColumnMapping;
  showMappings : bool;
  csvData : list Row;
  showPreview : bool;
  isDragging : bool;
  csvColumns : list string;
  rowValidations : list RowValidation;
  excludeAllInvalid : bool;
  originalRowValidations : list RowValidation;
}.

(** The state of the first render. *)
Definition initialState : State := {|
  stateErrors := [];
  errorSections := [];
  columnMappings := [];
  showMappings := false;
  csvData := [];
  showPreview := false;
  isDragging := false;
  csvColumns := [];
  rowValidations := [];
  excludeAllInvalid := false;
  originalRowValidations := [];
|}.

(** The setters: each replaces one cell of the pending state. *)
Definition setErrors (v : list ValidationError) (p : State) : State :=
  {| stateErrors := v; errorSections := errorSections p;
     columnMappings := columnMappings p; showMappings := showMappings p;
     csvData := csvData p; showPreview := showPreview p;
     isDragging := isDragging p; csvColumns := csvColumns p;
     rowValidations := rowValidations p;
     excludeAllInvalid := excludeAllInvalid p;
     originalRowValidations := originalRowValidations p |}.

Definition setErrorSections (v : list ErrorSection) (p : State) : State :=
  {| stateErrors := stateErrors p; errorSections := v;
     columnMappings := columnMappings p; showMappings := showMappings p;
     csvData := csvData p; showPreview := showPreview p;
     isDragging := isDragging p; csvColumns := csvColumns p;
     rowValidations := rowValidations p;
     excludeAllInvalid := excludeAllInvalid p;
     originalRowValidations := originalRowValidations p |}.

Definition setColumnMappings (v : list ColumnMapping) (p : State) : State :=
  {| stateErrors := stateErrors p; errorSections := errorSections p;
     columnMappings := v; showMappings := showMappings p;
     csvData := csvData p; showPreview := showPreview p;
     isDragging := isDragging p; csvColumns := csvColumns p;
     rowValidations := rowValidations p;
     excludeAllInvalid := excludeAllInvalid p;
     originalRowValidations := originalRowValidations p |}.

Definition setShowMappings (v : bool) (p : State) : State :=
  {| stateErrors := stateErrors p; errorSections := errorSections p;
     columnMappings := columnMappings p; showMappings := v;
     csvData := csvData p; showPreview := showPreview p;
     isDragging := isDragging p; csvColumns := csvColumns p;
     rowValidations := rowValidations p;
     excludeAllInvalid := excludeAllInvalid p;
     originalRowValidations := originalRowValidations p |}.

Definition setCsvData (v : list Row) (p : State) : State :=
  {| stateErrors := stateErrors p; errorSections := errorSections p;
     columnMappings := columnMappings p; showMappings := showMappings p;
     csvData := v; showPreview := showPreview p;
     isDragging := isDragging p; csvColumns := csvColumns p;
     rowValidations := rowValidations p;
     excludeAllInvalid := excludeAllInvalid p;
     originalRowValidations := originalRowValidations p |}.

Definition setShowPreview (v : bool) (p : State) : State :=
  {| stateErrors := stateErrors p; errorSections := errorSections p;
     columnMappings := columnMappings p; showMappings := showMappings p;
     csvData := csvData p; showPreview := v;
     isDragging := isDragging p; csvColumns := csvColumns p;
     rowValidations := rowValidations p;
     excludeAllInvalid := excludeAllInvalid p;
     originalRowValidations := originalRowValidations p |}.

Definition setCsvColumns (v : list string) (p : State) : State :=
  {| stateErrors := stateErrors p; errorSections := errorSections p;
     columnMappings := columnMappings p; showMappings := showMappings p;
     csvData := csvData p; showPreview := showPreview p;
     isDragging := isDragging p; csvColumns := v;
     rowValidations := rowValidations p;
     excludeAllInvalid := excludeAllInvalid p;
     originalRowValidations := originalRowValidations p |}.

Definition setRowValidations (v : list RowValidation) (p : State) : State :=
  {| stateErrors := stateErrors p; errorSections := errorSections p;
     columnMappings := columnMappings p; showMappings := showMappings p;
     csvData := csvData p; showPreview := showPreview p;
     isDragging := isDragging p; csvColumns := csvColumns p;
     rowValidations := v;
     excludeAllInvalid := excludeAllInvalid p;
     originalRowValidations := originalRowValidations p |}.

Definition setExcludeAllInvalid (v : bool) (p : State) : State :=
  {| stateErrors := stateErrors p; errorSections := errorSections p;
     columnMappings := columnMappings p; showMappings := showMappings p;
     csvData := csvData p; showPreview := showPreview p;
     isDragging := isDragging p; csvColumns := csvColumns p;
     rowValidations := rowValidations p;
     excludeAllInvalid := v;
     originalRowValidations := originalRowValidations p |}.

Definition setOriginalRowValidations (v : list RowValidation) (p : State)
  : State :=
  {| stateErrors := stateErrors p; errorSections := errorSections p;
     columnMappings := columnMappings p; showMappings := showMappings p;
     csvData := csvData p; showPreview := showPreview p;
     isDragging := isDragging p; csvColumns := csvColumns p;
     rowValidations := rowValidations p;
     excludeAllInvalid := excludeAllInvalid p;
     originalRowValidations := v |}.


(** [/^[^\s@]+@[^\s@]+\.[^\s@]+$/] *)
Definition emailRegex : regex :=
  let part := plus (Chr (λ c, negb (isSpace c || bool_decide (c = "@"%char)))) in
  Seq part (Seq (lit "@") (Seq part (Seq (lit ".") part))).

(** [/^\d{4}-\d{2}-\d{2}$/] *)
Definition dateRegex : regex :=
  Seq (times 4 (Chr isDigit))
    (Seq (lit "-") (Seq (times 2 (Chr isDigit))
      (Seq (lit "-") (times 2 (Chr isDigit))))).

(** [/^[0-9a-f]{8}-[0-9a-f]{4}-[0-9a-f]{4}-[0-9a-f]{4}-[0-9a-f]{12}$/i] *)
Definition uuidRegex : regex :=
  let hex n := times n (Chr isHexDigit) in
  Seq (hex 8) (Seq (lit "-") (Seq (hex 4) (Seq (lit "-") (Seq (hex 4)
    (Seq (lit "-") (Seq (hex 4) (Seq (lit "-") (hex 12)))))))).

(** The props of the component and the tables it imports from
    [./bulk-import/constants] and [../../utils/columnMatcher], which are not
    part of the sources at hand: they are parameters of the embedding. *)
Context (requiredFields : list string).
Context (template : gmap string (Value Num)).
Context (AVAILABLE_COLUMNS : gmap string (list string)).
Context (COLUMN_TYPES : gmap string string).
Context (findBestColumnMatches : list string → list string → list ColumnMapping).

Definition hasOwnProperty (obj : gmap string (Value Num)) (key : string) : bool :=
  bool_decide (is_Some (obj !! key)).

Definition getCurrentStep : string :=
  if hasOwnProperty template "guardian1_name" then "students"
  else if hasOwnProperty template "qualification1" then "teachers"
  else if hasOwnProperty template "admin_user_type" then "admins"
  else if hasOwnProperty template "classroom_name" then "classrooms"
  else "students".

Definition currentStep : string := getCurrentStep.

(** [AVAILABLE_COLUMNS[currentStep] || []] *)
Definition availableColumns : list string :=
  default [] (AVAILABLE_COLUMNS !! currentStep).

(** [errors.push(error); rowErrors.push(error)] *)
Definition pushBoth (acc : list ValidationError * list ValidationError)
  (error : ValidationError) : list ValidationError * list ValidationError :=
  (push acc.1 error, push acc.2 error).

(** The body of [columnMappings.forEach] in [validateData], for the row
    [row] at position [index]; [acc] holds [errors] and [rowErrors]. *)
Definition validateMapping (row : Row) (index : nat)
  (acc : list ValidationError * list ValidationError) (mapping : ColumnMapping)
  : list ValidationError * list ValidationError :=
  if negb (matched mapping) then acc else
  let value := prop row (csvColumn mapping) in
  let field := dbColumn mapping in
  let acc :=
    if bool_decide (field ∈ requiredFields)
       && (negb (truthy value) || bool_decide (trim (toString value) = ""))
    then pushBoth acc
      {| type := required; field := Some field; row := Some (index + 1);
         value := None;
         message := "Missing required value for " ++ dq ++ field ++ dq
                    ++ " in row " ++ pretty (index + 1) |}
    else acc in
  let acc :=
    if includes (toLowerCase field) "email" && truthy value
       && negb (fullMatch emailRegex (toString value))
    then pushBoth acc
      {| type := format; field := Some field; row := Some (index + 1);
         value := Some value;
         message := "Invalid email format in row " ++ pretty (index + 1)
                    ++ ": " ++ dq ++ toString value ++ dq |}
    else acc in
  let acc :=
    if includes field "date" && truthy value
       && negb (fullMatch dateRegex (toString value))
    then pushBoth acc
      {| type := format; field := Some field; row := Some (index + 1);
         value := Some value;
         message := "Invalid date format in row " ++ pretty (index + 1)
                    ++ " for " ++ dq ++ field ++ dq
                    ++ ". Expected YYYY-MM-DD, got " ++ dq ++ toString value
                    ++ dq |}
    else acc in
  let columnType := COLUMN_TYPES !! field in
  let acc :=
    if (bool_decide (columnType = Some "numeric")
        || bool_decide (columnType = Some "integer"))
       && truthy value && numIsNaN (toNumber value)
    then pushBoth acc
      {| type := format; field := Some field; row := Some (index + 1);
         value := Some value;
         message := "Invalid number format in row " ++ pretty (index + 1)
                    ++ " for " ++ dq ++ field ++ dq ++ ": " ++ dq
                    ++ toString value ++ dq |}
    else acc in
  if bool_decide (columnType = Some "uuid") && truthy value
     && negb (fullMatch uuidRegex (toString value))
  then pushBoth acc
    {| type := format; field := Some field; row := Some (index + 1);
       value := Some value;
       message := "Invalid UUID format in row " ++ pretty (index + 1)
                  ++ " for " ++ dq ++ field ++ dq ++ ": " ++ dq
                  ++ toString value ++ dq |}
  else acc.

(** The body of [data.forEach] in [validateData]; [acc] holds [errors] and
    [rowValidations]. *)
Definition validateRow (columnMappings : list ColumnMapping)
  (acc : list ValidationError * list RowValidation) (row : Row) (index : nat)
  : list ValidationError * list RowValidation :=
  let '(errors, rowErrors) :=
    foldl (validateMapping row index) (acc.1, []) columnMappings in
  (errors,
   push acc.2 {| rowIndex := index; errors := rowErrors; excluded := false |}).

(** [validateData(data)]. The function reads [columnMappings] from the
    render it was created in: it is the first argument here. *)
Definition validateData (columnMappings : list ColumnMapping) (data : list Row)
  : list ValidationError * list RowValidation :=
  forEachi (validateRow columnMappings) ([], []) data.

Definition typeOrder : list ErrorType := [mapping; required; format].

Definition typeTitles (ty : ErrorType) : string :=
  match ty with
  | mapping => "Column Mapping Errors"
  | required => "Required Field Errors"
  | format => "Format Validation Errors"
  end.

(** [updateErrorSections(errors)]: one open section per error type that
    occurs, in [typeOrder]. *)
Definition updateErrorSections (errors : list ValidationError) (p : State)
  : State :=
  let errorsByType ty := filter (λ e, type e = ty) errors in
  let sections :=
    foldl (λ sections ty,
      if bool_decide (0 < length (errorsByType ty))
      then push sections {| sectionType := ty; title := typeTitles ty;
                            sectionErrors := errorsByType ty; isOpen := true |}
      else sections) [] typeOrder in
  setErrorSections sections p.

(** What [Papa.parse] reports for a file: the [complete] callback with the
    data rows and [Object.keys] of the first one (a finite map does not
    record the order of the keys), or the [error] callback. *)
Inductive PapaOutcome : Type :=
  | PapaComplete (data : list Row) (firstRowKeys : list string)
  | PapaError (errorMessage : string).

(** What reading a spreadsheet gives: the rows of the first sheet, an
    exception inside [reader.onload], or [reader.onerror]. *)
Inductive XlsxOutcome : Type :=
  | XlsxRows (jsonData : list Row) (firstRowKeys : list string)
  | XlsxThrows (errorMessage : string)
  | ReaderError.

Record File : Type := {
  name : string;
  papa : PapaOutcome;
  xlsx : XlsxOutcome;
}.

(** [setErrors(newErrors); updateErrorSections(newErrors)] for a single
    error of type ['format']. *)
Definition reportFormatError (msg : string) (p : State) : State :=
  let newErrors :=
    [{| type := format; field := None; row := None; message := msg;
        value := None |}] in
  updateErrorSections newErrors (setErrors newErrors p).

(** The common tail of the two parsers' success paths. [st] is the state
    the handler's closure captured, [p] the pending state. *)
Definition loadRows (st : State) (data : list Row) (columns : list string)
  (p : State) : State :=
  let p := setCsvColumns columns p in
  let mappings := findBestColumnMatches columns availableColumns in
  let p := setColumnMappings mappings p in
  let p := setCsvData data p in
  let '(validationErrors, rowValidations) :=
    validateData (columnMappings st) data in
  let p := setErrors validationErrors p in
  let p := setRowValidations rowValidations p in
  let p := setOriginalRowValidations rowValidations p in
  let p := updateErrorSections validationErrors p in
  setShowMappings true p.

(** [handleFileUpload(event)], with the parser's callback run as part of
    the same step. [file] is the first file the event carries, if any. *)
Definition handleFileUpload (file : option File) (st : State) : State :=
  match file with
  | None => st
  | Some file =>
      let p := setErrors [] st in
      let p := setErrorSections [] p in
      let p := setShowMappings false p in
      let p := setShowPreview false p in
      let p := setExcludeAllInvalid false p in
      if endsWith (name file) ".csv" then
        match papa file with
        | PapaComplete data firstRowKeys =>
            if bool_decide (length data = 0)
            then reportFormatError "CSV file is empty" p
            else loadRows st data firstRowKeys p
        | PapaError errorMessage =>
            reportFormatError ("Error parsing CSV: " ++ errorMessage) p
        end
      else if endsWith (name file) ".xlsx" || endsWith (name file) ".xls" then
        match xlsx file with
        | XlsxRows jsonData firstRowKeys =>
            if bool_decide (length jsonData = 0)
            then reportFormatError "Excel file is empty" p
            else loadRows st jsonData firstRowKeys p
        | XlsxThrows errorMessage =>
            reportFormatError ("Error parsing Excel file: " ++ errorMessage) p
        | ReaderError => reportFormatError "Error reading file" p
        end
      else
        reportFormatError
          "Invalid file type. Please upload a CSV or Excel file." p
  end.

Definition handleAddMapping (st : State) : State :=
  let newMapping :=
    {| csvColumn := default "" (csvColumns st !! 0);
       dbColumn := default "" (availableColumns !! 0);
       similarity := numOfZ 1; matched := true; manual := true |} in
  setColumnMappings (columnMappings st ++ [newMapping]) st.

Definition handleSaveMapping (index : nat) (csvColumn' dbColumn' : string)
  (st : State) : State :=
  if negb (bool_decide (dbColumn' ∈ availableColumns)) then
    setErrors
      [{| type := mapping; field := None; row := None;
          message := "Invalid column mapping"; value := None |}] st
  else
    let updatedMappings :=
      imap (λ i mapping,
        if bool_decide (i = index)
        then {| csvColumn := csvColumn'; dbColumn := dbColumn';
                similarity := numOfZ 1; matched := true; manual := true |}
        else mapping) (columnMappings st) in
    let p := setColumnMappings updatedMappings st in
    (* Re-validate data with new mappings *)
    let '(validationErrors, newRowValidations) :=
      validateData (columnMappings st) (csvData st) in
    let p := setErrors validationErrors p in
    let p := setRowValidations newRowValidations p in
    let p := setOriginalRowValidations newRowValidations p in
    updateErrorSections validationErrors p.

Definition validateRequiredColumns (mappings : list ColumnMapping)
  : list ValidationError :=
  let missingRequired :=
    filter (λ field,
      ¬ Exists (λ m, dbColumn m = field ∧ matched m = true) mappings)
      requiredFields in
  if bool_decide (0 < length missingRequired)
  then [{| type := mapping; field := None; row := None;
           message := "Missing required columns: " ++ join ", " missingRequired;
           value := None |}]
  else [].

Definition handleDeleteMapping (index : nat) (st : State) : State :=
  setColumnMappings
    (filteri (λ i _, negb (bool_decide (i = index))) (columnMappings st)) st.

Definition handleShowPreview (st : State) : State :=
  let validationErrors := validateRequiredColumns (columnMappings st) in
  if bool_decide (0 < length validationErrors)
  then updateErrorSections validationErrors (setErrors validationErrors st)
  else setShowPreview true st.

Definition toggleErrorSection (index : nat) (st : State) : State :=
  setErrorSections
    (imap (λ i section,
      if bool_decide (i = index)
      then {| sectionType := sectionType section; title := title section;
              sectionErrors := sectionErrors section;
              isOpen := negb (isOpen section) |}
      else section) (errorSections st)) st.

Definition toggleRowExclusion (rowIndex' : nat) (st : State) : State :=
  setRowValidations
    (map (λ row,
      if bool_decide (rowIndex row = rowIndex')
      then {| rowIndex := rowIndex row; errors := errors row;
              excluded := negb (excluded row) |}
      else row) (rowValidations st)) st.

Definition toggleExcludeAllInvalid (st : State) : State :=
  let newValue := negb (excludeAllInvalid st) in
  let p := setExcludeAllInvalid newValue st in
  if newValue then
    (* Save current state before applying "exclude all invalid" *)
    let p := setOriginalRowValidations (rowValidations st) p in
    (* Mark all invalid rows as excluded *)
    setRowValidations
      (map (λ row,
        {| rowIndex := rowIndex row; errors := errors row;
           excluded := if bool_decide (0 < length (errors row)) then true
                       else excluded row |}) (rowValidations p)) p
  else
    (* Restore original exclusion state *)
    setRowValidations (originalRowValidations st) p.

(** The record [handleImport] builds from one row: the body of its [map]
    callback. *)
Definition transformRow (columnMappings : list ColumnMapping) (row : Row)
  : gmap string (Value Num) :=
  foldl (λ newRow mapping,
    if matched mapping
    then <[dbColumn mapping := prop row (csvColumn mapping)]> newRow
    else newRow) ∅ columnMappings.

(** The predicate of [handleImport]'s [filter]: [rowValidations[index]] may
    be missing, in which case the optional chaining keeps the row. *)
Definition keepRow (st : State) (index : nat) : bool :=
  let rowValidation := rowValidations st !! index in
  negb (from_option excluded false rowValidation
        || (excludeAllInvalid st
            && from_option (λ rv, bool_decide (0 < length (errors rv))) false
                 rowValidation)).

(** [handleImport()]: the argument it passes to [onImport]. *)
Definition handleImport (st : State) : list (gmap string (Value Num)) :=
  let transformedData :=
    map (transformRow (columnMappings st))
      (filteri (λ index _, keepRow st index) (csvData st)) in
  transformedData.

(** [onClearErrors] of the error panel. *)
Definition clearErrors (st : State) : State :=
  setErrorSections [] (setErrors [] st).
End Component.

End BulkImport.

(** ** The attendance importer: [AttendanceStep.tsx] *)

Module Student.
Record t : Type := {
  student_id : string;
  school_student_id : option string;
  first_name : string;
  last_name : string;
}.
End Student.

Module AttendanceStep.
Import Js.

Section Component.
Context {Num : Type} `{!Runtime Num}.

Record ExtraData : Type := {
  daily_attendance_rate : option Num;
  mp1_attendance_rate : option Num;
  mp2_attendance_rate : option Num;
  mp3_attendance_rate : option Num;
  mp4_attendance_rate : option Num;
}.

Record AttendanceRecord : Type := {
  student_id : string;
  school_id : string;
  record_date : string;
  total_days_present : Num;
  total_days_possible : Num;
  fy_absences_total : Num;
  fy_absences_excused : Num;
  fy_absences_unexcused : Num;
  fy_tardies_total : Num;
  attendance_year : option string;
  extra_data : option ExtraData;
}.

(** An element of the array [handleBulkImport] receives: an array of cells
    (a sheet read row by row) or a plain object (a record built by
    [BulkImport]). *)
Inductive RawRow : Type :=
  | RowArray (cells : list (Value Num))
  | RowObject (props : gmap string (Value Num)).

(** [row[i]] *)
Definition cell (row : RawRow) (i : nat) : Value Num :=
  match row with
  | RowArray cells => at_ cells i
  | RowObject props => prop props (pretty i)
  end.

(** [row.length > n] *)
Definition lengthAbove (row : RawRow) (n : nat) : bool :=
  match row with
  | RowArray cells => bool_decide (n < length cells)
  | RowObject props => numLtb (numOfZ (Z.of_nat n)) (toNumber (prop props "length"))
  end.

(** The alias table of the standard path. *)
Record AliasEntry : Type := {
  dbColumn : string;
  csvColumn : list string;
}.

Definition AVAILABLE_COLUMNS_attendance : list AliasEntry := [
  {| dbColumn := "school_student_id";
     csvColumn := ["school student id"; "id"; "student id"; "studentid"] |};
  {| dbColumn := "record_date";
     csvColumn := ["record date"; "result date"; "date"] |};
  {| dbColumn := "total_days_present";
     csvColumn := ["total days present"; "days present"] |};
  {| dbColumn := "total_days_possible";
     csvColumn := ["total days possible"; "days possible"] |};
  {| dbColumn := "fy_absences_total";
     csvColumn := ["fy absences (total days)"; "total absences"] |};
  {| dbColumn := "fy_absences_excused";
     csvColumn := ["fy absences (excused days)"; "excused absences"] |};
  {| dbColumn := "fy_absences_unexcused";
     csvColumn := ["fy absences (unexcused days)"; "unexcused absences"] |};
  {| dbColumn := "fy_tardies_total";
     csvColumn := ["fy tardies (total days)"; "total tardies"] |};
  {| dbColumn := "daily_attendance_rate";
     csvColumn := ["daily attendance rate"] |};
  {| dbColumn := "mp1_attendance_rate";
     csvColumn := ["mp1 (daily attendance rate)"; "mp1 attendance rate"] |};
  {| dbColumn := "mp2_attendance_rate";
     csvColumn := ["mp2 (daily attendance rate)"; "mp2 attendance rate"] |};
  {| dbColumn := "mp3_attendance_rate";
     csvColumn := ["mp3 (daily attendance rate)"; "mp3 attendance rate"] |};
  {| dbColumn := "mp4_attendance_rate";
     csvColumn := ["mp4 (daily attendance rate)"; "mp4 attendance rate"] |}
].

(** A header matched to a canonical column. *)
Record ColumnMatch : Type := {
  matchDbColumn : string;
  matchCsvColumn : string;
}.

(** [findBestColumnMatches(csvHeaders, availableColumns)]. A header that is
    not a string has no [toLowerCase]: the call throws, and the result is
    the message of the exception. *)
Fixpoint findBestColumnMatches (csvHeaders : list (Value Num))
  (availableColumns : list AliasEntry) (matches : list ColumnMatch)
  : string + list ColumnMatch :=
  match csvHeaders with
  | [] => inr matches
  | VStr csvHeader :: rest =>
      let normalizedCsvHeader := trim (toLowerCase csvHeader) in
      let matches :=
        match List.find (λ ac, bool_decide (normalizedCsvHeader ∈ csvColumn ac))
                availableColumns with
        | Some ac => push matches {| matchDbColumn := dbColumn ac;
                                     matchCsvColumn := csvHeader |}
        | None => matches
        end in
      findBestColumnMatches rest availableColumns matches
  | v :: _ => inl (typeErrorMessage (toString v) "toLowerCase")
  end.

(** The props [AttendanceStep] passes to [BulkImport]. A numeric literal of
    the source is the number its text reads as. *)
Definition bulkImportRequiredFields : list string := [
  "school_student_id"; "record_date"; "total_days_present";
  "total_days_possible"; "fy_absences_total"; "fy_absences_excused";
  "fy_absences_unexcused"; "fy_tardies_total"
].

Definition bulkImportTemplate : gmap string (Value Num) :=
  list_to_map [
    ("school_student_id", VStr "S123");
    ("record_date", VStr "2024-12-31");
    ("total_days_present", VNum (numOfZ 180));
    ("total_days_possible", VNum (numOfZ 185));
    ("fy_absences_total", VNum (numOfZ 5));
    ("fy_absences_excused", VNum (numOfZ 3));
    ("fy_absences_unexcused", VNum (numOfZ 2));
    ("fy_tardies_total", VNum (numOfZ 8));
    ("attendance_year", VStr "2024-2025");
    ("daily_attendance_rate", VNum (stringToNumber "97.3"));
    ("mp1_attendance_rate", VNum (stringToNumber "95.0"));
    ("mp2_attendance_rate", VNum (stringToNumber "98.5"));
    ("mp3_attendance_rate", VNum (stringToNumber "96.8"));
    ("mp4_attendance_rate", VNum (stringToNumber "99.2"))
  ].

(** The props and hooks of the component: the students of the earlier
    step, the school, and the year the form's [watch] returns. *)
Context (students : list Student.t).
Context (schoolId : option string).
Context (watchedAttendanceYear : option string).

(** The state the importer touches: the cached list, the error banner, and
    the lists passed to the parent's [onUpdate]. The hook [useFormCache] is
    not part of the sources at hand; its [data] and [setData] are taken to
    be a state cell and its setter. *)
Record State : Type := {
  cachedData : list AttendanceRecord;
  error : option string;
  onUpdateCalls : list (list AttendanceRecord);
}.

(** [/(\d{4}-\d{2,4})/] *)
Definition yearRegex : regex :=
  Seq (times 4 (Chr isDigit))
    (Seq (lit "-") (Seq (times 2 (Chr isDigit))
      (Seq (opt (Chr isDigit)) (opt (Chr isDigit))))).

(** The attendance year of cell B2, or the form's. *)
Definition attendanceYearFromFile (raw : list RawRow) : option string :=
  match raw !! 1 with
  | Some row1 =>
      if bool_decide (1 < length raw) && truthy (cell row1 1) then
        match search yearRegex (toString (cell row1 1)) with
        | Some yearMatch => Some yearMatch
        | None => watchedAttendanceYear
        end
      else watchedAttendanceYear
  | None => watchedAttendanceYear
  end.

(** The [try] block that normalises a date; [None] is its [catch]. *)
Definition parseDate (resultDate : Value Num) : option string :=
  match nativeDate resultDate with
  | Some isoDate => Some isoDate
  | None =>
      let dateParts :=
        splitClass (λ c, bool_decide (c = "/"%char) || bool_decide (c = "-"%char))
          "" (toString resultDate) in
      match dateParts with
      | [p0; p1; p2] =>
          if bool_decide (String.length p0 = 4)
          then Some (p0 ++ "-" ++ padStart 2 "0" p1 ++ "-" ++ padStart 2 "0" p2)
          else Some (p2 ++ "-" ++ padStart 2 "0" p0 ++ "-" ++ padStart 2 "0" p1)
      | _ => None
      end
  end.

(** [if (v !== null && v !== undefined) extraData.k = Number(v)] *)
Definition rate (v : Value Num) : option Num :=
  if notNullish v then Some (toNumber v) else None.

(** [Object.keys(extraData).length > 0 ? extraData : undefined] *)
Definition extraOrUndefined (extraData : ExtraData) : option ExtraData :=
  match extraData with
  | {| daily_attendance_rate := None; mp1_attendance_rate := None;
       mp2_attendance_rate := None; mp3_attendance_rate := None;
       mp4_attendance_rate := None |} => None
  | _ => Some extraData
  end.

(** [importErrors.push(`Row ${i + 1}: ...`); continue] *)
Definition rowError (acc : list AttendanceRecord * list string) (i : nat)
  (what : string) : list AttendanceRecord * list string :=
  (acc.1, push acc.2 ("Row " ++ pretty (i + 1) ++ ": " ++ what)).

(** The part of a loop body both formats share, from the check of the
    required values on. *)
Definition buildRecord (acc : list AttendanceRecord * list string) (i : nat)
  (student : Student.t) (year : option string)
  (resultDate totalDaysPresent totalDaysPossible fyAbsencesTotal
   fyAbsencesExcused fyAbsencesUnexcused fyTardiesTotal
   dailyAttendanceRate mp1AttendanceRate mp2AttendanceRate mp3AttendanceRate
   mp4AttendanceRate : Value Num)
  : list AttendanceRecord * list string :=
  if negb (truthy resultDate) || negb (truthy totalDaysPresent)
     || negb (truthy totalDaysPossible) || negb (truthy fyAbsencesTotal)
     || negb (truthy fyAbsencesExcused) || negb (truthy fyAbsencesUnexcused)
     || negb (truthy fyTardiesTotal)
  then rowError acc i "Missing required attendance data"
  else
    let extraData :=
      {| daily_attendance_rate := rate dailyAttendanceRate;
         mp1_attendance_rate := rate mp1AttendanceRate;
         mp2_attendance_rate := rate mp2AttendanceRate;
         mp3_attendance_rate := rate mp3AttendanceRate;
         mp4_attendance_rate := rate mp4AttendanceRate |} in
    match parseDate resultDate with
    | None => rowError acc i ("Invalid date format " ++ toString resultDate)
    | Some recordDate =>
        (push acc.1
           {| student_id := Student.student_id student;
              school_id := default "" schoolId;
              record_date := recordDate;
              total_days_present := toNumber totalDaysPresent;
              total_days_possible := toNumber totalDaysPossible;
              fy_absences_total := toNumber fyAbsencesTotal;
              fy_absences_excused := toNumber fyAbsencesExcused;
              fy_absences_unexcused := toNumber fyAbsencesUnexcused;
              fy_tardies_total := toNumber fyTardiesTotal;
              attendance_year := year;
              extra_data := extraOrUndefined extraData |},
         acc.2)
    end.

(** [students.find(s => s.school_student_id === String(studentId))] *)
Definition findStudent (studentId : Value Num) : option Student.t :=
  List.find (λ s, bool_decide (Student.school_student_id s
                               = Some (toString studentId))) students.

(** The body of the loop of [processLinkItFormat]; [acc] holds [processed]
    and [importErrors]. *)
Definition linkItRow (year : option string)
  (acc : list AttendanceRecord * list string) (row : RawRow) (i : nat)
  : list AttendanceRecord * list string :=
  match row with
  | RowObject _ => acc
  | RowArray row =>
      if negb (truthy (at_ row 0)) then acc else
      (* Get student ID from column C (index 2) *)
      let studentId := at_ row 2 in
      if negb (truthy studentId) then rowError acc i "Missing student ID" else
      match findStudent studentId with
      | None =>
          rowError acc i
            ("Student with ID " ++ toString studentId ++ " not found")
      | Some student =>
          buildRecord acc i student year
            (at_ row 19) (at_ row 22) (at_ row 23) (at_ row 24) (at_ row 25)
            (at_ row 26) (at_ row 27)
            (at_ row 21) (at_ row 32) (at_ row 43) (at_ row 54) (at_ row 65)
      end
  end.

(** The end of both formats: reject the whole batch when a row failed,
    append it otherwise. *)
Definition commit (result : list AttendanceRecord * list string) (st : State)
  : State :=
  let '(processed, importErrors) := result in
  if bool_decide (0 < length importErrors) then
    {| cachedData := cachedData st;
       error := Some (join newline (take 10 importErrors));
       onUpdateCalls := onUpdateCalls st |}
  else
    let updated := (cachedData st ++ processed)%list in
    {| cachedData := updated; error := None;
       onUpdateCalls := push (onUpdateCalls st) updated |}.

Definition setError (msg : string) (st : State) : State :=
  {| cachedData := cachedData st; error := Some msg;
     onUpdateCalls := onUpdateCalls st |}.

(** The rows the loop of [processLinkItFormat] visits give these records
    and errors. *)
Definition linkItRows (raw : list RawRow)
  : list AttendanceRecord * list string :=
  forEachFrom (linkItRow (attendanceYearFromFile raw)) 8 ([], []) (drop 8 raw).

Definition processLinkItFormat (raw : list RawRow) (st : State) : State :=
  commit (linkItRows raw) st.

(** [raw[i][j]] for [i] within the array *)
Definition rawCell (raw : list RawRow) (i j : nat) : Value Num :=
  match raw !! i with
  | Some row => cell row j
  | None => VUndefined
  end.

(** The header row of the standard path: the first of the first ten rows
    whose first cell is ["#"], or else the first that looks like the
    header of an attendance report. *)
Definition headerRowIndex (raw : list RawRow) : option nat :=
  match findIndexFrom (λ row, strictEqStr (cell row 0) "#") 0 (take 10 raw) with
  | Some i => Some i
  | None =>
      findIndexFrom (λ row,
        lengthAbove row 20
        && includes (toLowerCase (toString (cell row 2))) "id"
        && includes (toLowerCase (toString (cell row 19))) "result date")
        0 (take 10 raw)
  end.

(** [columnMap], filled by [headers.forEach]. Every header is a string
    here: [findBestColumnMatches] has thrown otherwise. *)
Definition columnMapOf (headers : list (Value Num)) : gmap string nat :=
  forEachi (λ columnMap header index,
    match header with
    | VStr header =>
        if truthy (VStr header)
        then <[toLowerCase (trim header) := index]> columnMap
        else columnMap
    | _ => columnMap
    end) ∅ headers.

(** [getValue(row, columnName)]. The names looked up are the literals of
    the loop and the lower-cased matched headers, none of which is a
    property of [Object.prototype]: a finite map answers as [columnMap]
    does. *)
Definition getValue (columnMap : gmap string nat)
  (columnMatches : list ColumnMatch) (row : list (Value Num))
  (columnName : string) : Value Num :=
  let normalizedColumnName := toLowerCase columnName in
  match columnMap !! normalizedColumnName with
  | Some index => at_ row index
  | None =>
      match List.find (λ m, bool_decide (matchDbColumn m = columnName))
              columnMatches with
      | Some bestMatch =>
          match columnMap !! toLowerCase (matchCsvColumn bestMatch) with
          | Some index => at_ row index
          | None => VNull
          end
      | None => VNull
      end
  end.

(** The body of the loop of [processStandardFormat]. *)
Definition standardRow (columnMap : gmap string nat)
  (columnMatches : list ColumnMatch) (year : option string)
  (acc : list AttendanceRecord * list string) (row : RawRow) (i : nat)
  : list AttendanceRecord * list string :=
  match row with
  | RowObject _ => acc
  | RowArray row =>
      if negb (truthy (at_ row 0)) then acc else
      let get := getValue columnMap columnMatches row in
      let studentId :=
        or (or (or (get "school_student_id") (get "ID")) (get "Student ID"))
           (get "StudentID") in
      if negb (truthy studentId) then rowError acc i "Missing student ID" else
      match findStudent studentId with
      | None =>
          rowError acc i
            ("Student with ID " ++ toString studentId ++ " not found")
      | Some student =>
          buildRecord acc i student year
            (or (or (get "record_date") (get "Result Date")) (get "Date"))
            (or (or (get "total_days_present") (get "Total Days Present"))
                (get "Days Present"))
            (or (or (get "total_days_possible") (get "Total Days Possible"))
                (get "Days Possible"))
            (or (or (get "fy_absences_total") (get "FY Absences (Total Days)"))
                (get "Total Absences"))
            (or (or (get "fy_absences_excused")
                    (get "FY Absences (Excused Days)"))
                (get "Excused Absences"))
            (or (or (get "fy_absences_unexcused")
                    (get "FY Absences (Unexcused Days)"))
                (get "Unexcused Absences"))
            (or (or (get "fy_tardies_total") (get "FY Tardies (Total Days)"))
                (get "Total Tardies"))
            (or (get "daily_attendance_rate") (get "Daily Attendance Rate"))
            (or (get "mp1_attendance_rate") (get "MP1 (Daily Attendance Rate)"))
            (or (get "mp2_attendance_rate") (get "MP2 (Daily Attendance Rate)"))
            (or (get "mp3_attendance_rate") (get "MP3 (Daily Attendance Rate)"))
            (or (get "mp4_attendance_rate") (get "MP4 (Daily Attendance Rate)"))
      end
  end.

(** How far [processStandardFormat] gets before its loop: it returns early
    with an error banner, throws, or reaches the loop with the index of the
    header row, the column map and the matches. *)
Inductive Prepared : Type :=
  | EarlyReturn (banner : string)
  | Throws (errorMessage : string)
  | Ready (headerRow : nat) (columnMap : gmap string nat)
      (columnMatches : list ColumnMatch).

Definition prepareStandard (raw : list RawRow) : Prepared :=
  match headerRowIndex raw with
  | None =>
      EarlyReturn ("Could not locate header row (looking for column " ++ dq
                   ++ "#" ++ dq ++ " or attendance format)")
  | Some headerRow =>
      match raw !! headerRow with
      | Some (RowArray headers) =>
          if bool_decide (length headers = 0)
          then EarlyReturn "Could not locate header row."
          else
            match findBestColumnMatches headers AVAILABLE_COLUMNS_attendance []
            with
            | inl errorMessage => Throws errorMessage
            | inr columnMatches =>
                Ready headerRow (columnMapOf headers) columnMatches
            end
      | Some (RowObject headers) =>
          if negb (truthy (prop headers "length"))
          then EarlyReturn "Could not locate header row."
          else Throws (typeErrorMessage "[object Object]" "forEach")
      | None => EarlyReturn "Could not locate header row."
      end
  end.

(** The records and errors of the loop of [processStandardFormat], when it
    is reached. *)
Definition standardRows (raw : list RawRow)
  : option (list AttendanceRecord * list string) :=
  match prepareStandard raw with
  | Ready headerRow columnMap columnMatches =>
      Some (forEachFrom
              (standardRow columnMap columnMatches (attendanceYearFromFile raw))
              (headerRow + 1) ([], []) (drop (headerRow + 1) raw))
  | _ => None
  end.

(** [processStandardFormat(raw)]: the new state, or the message of the
    exception it throws. *)
Definition processStandardFormat (raw : list RawRow) (st : State)
  : string + State :=
  match prepareStandard raw with
  | EarlyReturn banner => inr (setError banner st)
  | Throws errorMessage => inl errorMessage
  | Ready headerRow columnMap columnMatches =>
      inr (commit
             (forEachFrom
                (standardRow columnMap columnMatches
                   (attendanceYearFromFile raw))
                (headerRow + 1) ([], []) (drop (headerRow + 1) raw)) st)
  end.

Definition isLinkItFormat (raw : list RawRow) : bool :=
  bool_decide (7 < length raw)
  && strictEqStr (rawCell raw 0 0) "Export Date"
  && strictEqStr (rawCell raw 2 0) "District"
  && strictEqStr (rawCell raw 7 0) "#".

Definition handleBulkImport (raw : list RawRow) (st : State) : State :=
  if isLinkItFormat raw then
    (* Process as LinkIt! attendance report format *)
    processLinkItFormat raw st
  else
    (* Process using standard column mapping *)
    match processStandardFormat raw st with
    | inr st' => st'
    | inl errorMessage => setError ("Import failed: " ++ errorMessage) st
    end.
End Component.

End AttendanceStep.

(** ** The mapping editor: [bulk-import/ColumnMapper.tsx] *)

Module ColumnMapper.
Import Js.

Section Component.
Context {Num : Type} `{!Runtime Num}.

(** The props [BulkImport] is rendered with, and the tables it imports. *)
Context (requiredFields : list string).
Context (template : gmap string (Value Num)).
Context (AVAILABLE_COLUMNS : gmap string (list string)).
Context (COLUMN_TYPES : gmap string string).

(** The editor's own [useState] cells. *)
Record Editor : Type := {
  editingMapping : option nat;
  editCsvColumn : string;
  editDbColumn : string;
  showMappings : bool;
  hoveredColumn : option string;
}.

Definition initialEditor : Editor :=
  {| editingMapping := None; editCsvColumn := ""; editDbColumn := "";
     showMappings := true; hoveredColumn := None |}.

(** The editor mounted in [BulkImport]: the parent's state, from which the
    props [columnMappings], [csvColumns] and [availableColumns] are taken and
    on which the callbacks act, and the editor's. *)
Record Page : Type := {
  parent : @BulkImport.State Num;
  editor : Editor;
}.

(** [BulkImport] renders the editor when [showMappings &&
    columnMappings.length > 0]. *)
Definition rendered (st : @BulkImport.State Num) : bool :=
  BulkImport.showMappings st
  && bool_decide (0 < length (BulkImport.columnMappings st)).

(** [setEditingMapping(null); setEditCsvColumn(''); setEditDbColumn('')] *)
Definition closeEditor (ed : Editor) : Editor :=
  {| editingMapping := None; editCsvColumn := ""; editDbColumn := "";
     showMappings := showMappings ed; hoveredColumn := hoveredColumn ed |}.

(** [handleEditMapping] of [BulkImport], the prop [onEditMapping]: it does
    nothing. *)
Definition onEditMapping (index : nat) (st : @BulkImport.State Num)
  : @BulkImport.State Num := st.

(** [handleEditMapping(index)]. Reading [columnMappings[index].csvColumn]
    past the end throws after [setEditingMapping(index)] was called: the
    left result is the page the [TypeError] leaves behind. *)
Definition handleEditMapping (index : nat) (page : Page) : Page + Page :=
  let ed := editor page in
  match BulkImport.columnMappings (parent page) !! index with
  | None =>
      inl {| parent := parent page;
             editor := {| editingMapping := Some index;
                          editCsvColumn := editCsvColumn ed;
                          editDbColumn := editDbColumn ed;
                          showMappings := showMappings ed;
                          hoveredColumn := hoveredColumn ed |} |}
  | Some mapping =>
      inr {| parent := onEditMapping index (parent page);
             editor := {| editingMapping := Some index;
                          editCsvColumn := BulkImport.csvColumn mapping;
                          editDbColumn := BulkImport.dbColumn mapping;
                          showMappings := showMappings ed;
                          hoveredColumn := hoveredColumn ed |} |}
  end.

(** The two [select]s of the row being edited. *)
Definition setEditCsvColumn (v : string) (page : Page) : Page :=
  let ed := editor page in
  {| parent := parent page;
     editor := {| editingMapping := editingMapping ed; editCsvColumn := v;
                  editDbColumn := editDbColumn ed;
                  showMappings := showMappings ed;
                  hoveredColumn := hoveredColumn ed |} |}.

Definition setEditDbColumn (v : string) (page : Page) : Page :=
  let ed := editor page in
  {| parent := parent page;
     editor := {| editingMapping := editingMapping ed;
                  editCsvColumn := editCsvColumn ed; editDbColumn := v;
                  showMappings := showMappings ed;
                  hoveredColumn := hoveredColumn ed |} |}.

(** [handleSaveMapping(index)] *)
Definition handleSaveMapping (index : nat) (page : Page) : Page :=
  let ed := editor page in
  if negb (bool_decide
             (editDbColumn ed
              ∈ BulkImport.availableColumns template AVAILABLE_COLUMNS))
  then page
  else
    {| parent :=
         BulkImport.handleSaveMapping requiredFields template
           AVAILABLE_COLUMNS COLUMN_TYPES index (editCsvColumn ed)
           (editDbColumn ed) (parent page);
       editor := closeEditor ed |}.

(** The cancel button of the row being edited. *)
Definition cancelEdit (page : Page) : Page :=
  {| parent := parent page; editor := closeEditor (editor page) |}.

(** The delete button of a row: [onDeleteMapping(index)]. *)
Definition deleteMapping (index : nat) (page : Page) : Page :=
  {| parent := BulkImport.handleDeleteMapping index (parent page);
     editor := editor page |}.

(** The button "Add Mapping": [onAddMapping()]. *)
Definition addMapping (page : Page) : Page :=
  {| parent := BulkImport.handleAddMapping template AVAILABLE_COLUMNS
                 (parent page);
     editor := editor page |}.

(** The chevron: [setShowMappings(!showMappings)]. *)
Definition toggleShowMappings (page : Page) : Page :=
  let ed := editor page in
  {| parent := parent page;
     editor := {| editingMapping := editingMapping ed;
                  editCsvColumn := editCsvColumn ed;
                  editDbColumn := editDbColumn ed;
                  showMappings := negb (showMappings ed);
                  hoveredColumn := hoveredColumn ed |} |}.

(** The button "Preview Data": [onShowPreview()]. *)
Definition showPreview (page : Page) : Page :=
  {| parent := BulkImport.handleShowPreview requiredFields (parent page);
     editor := editor page |}.
End Component.

End ColumnMapper.

(** ** The attendance form and list: [AttendanceStep.tsx] *)

Module AttendanceForm.
Import Js AttendanceStep.

Section Component.
Context {Num : Type} `{!Runtime Num}.

Local Abbreviation State := (@State Num).

Context (students : list Student.t).
Context (schoolId : option string).

(** The values of the form, as the interface [AttendanceFormData] declares
    them. *)
Record AttendanceFormData : Type := {
  form_school_student_id : string;
  form_record_date : string;
  form_total_days_present : Num;
  form_total_days_possible : Num;
  form_fy_absences_total : Num;
  form_fy_absences_excused : Num;
  form_fy_absences_unexcused : Num;
  form_fy_tardies_total : Num;
  form_attendance_year : option string;
  form_daily_attendance_rate : option Num;
  form_mp1_attendance_rate : option Num;
  form_mp2_attendance_rate : option Num;
  form_mp3_attendance_rate : option Num;
  form_mp4_attendance_rate : option Num;
}.

(** The argument of the form's [reset]: the date of the day, the year that
    was submitted, and zeros. *)
Record FormDefaults : Type := {
  default_record_date : string;
  default_attendance_year : option string;
  default_total_days_present : Num;
  default_total_days_possible : Num;
  default_fy_absences_total : Num;
  default_fy_absences_excused : Num;
  default_fy_absences_unexcused : Num;
  default_fy_tardies_total : Num;
}.

(** [field.replace(/_/g, ' ')] *)
Fixpoint underscoresToSpaces (s : string) : string :=
  match s with
  | EmptyString => EmptyString
  | String c s' =>
      String (if bool_decide (c = "_"%char) then " "%char else c)
        (underscoresToSpaces s')
  end.

(** [numericFields], each with its value in the form. *)
Definition numericFields (formData : AttendanceFormData)
  : list (string * Num) := [
  ("total_days_present", form_total_days_present formData);
  ("total_days_possible", form_total_days_possible formData);
  ("fy_absences_total", form_fy_absences_total formData);
  ("fy_absences_excused", form_fy_absences_excused formData);
  ("fy_absences_unexcused", form_fy_absences_unexcused formData);
  ("fy_tardies_total", form_fy_tardies_total formData)
].

(** [rateFields], each with its value in the form. *)
Definition rateFields (formData : AttendanceFormData)
  : list (string * option Num) := [
  ("daily_attendance_rate", form_daily_attendance_rate formData);
  ("mp1_attendance_rate", form_mp1_attendance_rate formData);
  ("mp2_attendance_rate", form_mp2_attendance_rate formData);
  ("mp3_attendance_rate", form_mp3_attendance_rate formData);
  ("mp4_attendance_rate", form_mp4_attendance_rate formData)
].

(** [value < 0] *)
Definition negative (value : Num) : bool := numLtb value (numOfZ 0).

(** [value !== undefined && (value < 0 || value > 100)] *)
Definition outOfRange (value : option Num) : bool :=
  match value with
  | None => false
  | Some value => numLtb value (numOfZ 0) || numLtb (numOfZ 100) value
  end.

(** [onSubmit(formData)]: the new state and, when the record was added, the
    values the form is reset to. [today] is the date part of [new
    Date().toISOString()]. *)
Definition onSubmit (today : string) (formData : AttendanceFormData)
  (st : State) : State * option FormDefaults :=
  match List.find (λ s, bool_decide (Student.school_student_id s
                         = Some (form_school_student_id formData))) students
  with
  | None =>
      (setError "Student not found with the provided School Student ID" st,
       None)
  | Some student =>
      if existsb (λ record,
           bool_decide (student_id record = Student.student_id student)
           && bool_decide (record_date record = form_record_date formData))
           (cachedData st)
      then
        (setError
           "An attendance record for this student and date already exists" st,
         None)
      else
        match List.find (λ fv, negative fv.2) (numericFields formData) with
        | Some (field, _) =>
            (setError (underscoresToSpaces field ++ " cannot be negative") st,
             None)
        | None =>
            match List.find (λ fv, outOfRange fv.2) (rateFields formData) with
            | Some (field, _) =>
                (setError (underscoresToSpaces field
                           ++ " must be between 0 and 100") st,
                 None)
            | None =>
                let extraData :=
                  {| daily_attendance_rate :=
                       form_daily_attendance_rate formData;
                     mp1_attendance_rate := form_mp1_attendance_rate formData;
                     mp2_attendance_rate := form_mp2_attendance_rate formData;
                     mp3_attendance_rate := form_mp3_attendance_rate formData;
                     mp4_attendance_rate := form_mp4_attendance_rate formData
                  |} in
                let newAttendanceRecord :=
                  {| student_id := Student.student_id student;
                     school_id := default "" schoolId;
                     record_date := form_record_date formData;
                     total_days_present := form_total_days_present formData;
                     total_days_possible := form_total_days_possible formData;
                     fy_absences_total := form_fy_absences_total formData;
                     fy_absences_excused := form_fy_absences_excused formData;
                     fy_absences_unexcused :=
                       form_fy_absences_unexcused formData;
                     fy_tardies_total := form_fy_tardies_total formData;
                     attendance_year := form_attendance_year formData;
                     extra_data := extraOrUndefined extraData |} in
                let updatedData :=
                  (cachedData st ++ [newAttendanceRecord])%list in
                ({| cachedData := updatedData; error := None;
                    onUpdateCalls := push (onUpdateCalls st) updatedData |},
                 Some {| default_record_date := today;
                         default_attendance_year :=
                           form_attendance_year formData;
                         default_total_days_present := numOfZ 0;
                         default_total_days_possible := numOfZ 0;
                         default_fy_absences_total := numOfZ 0;
                         default_fy_absences_excused := numOfZ 0;
                         default_fy_absences_unexcused := numOfZ 0;
                         default_fy_tardies_total := numOfZ 0 |})
            end
        end
  end.

(** [removeAttendanceRecord(index)]: [splice(index, 1)] on a copy, which
    removes nothing past the end. *)
Definition removeAttendanceRecord (index : nat) (st : State) : State :=
  let newRecords := delete index (cachedData st) in
  {| cachedData := newRecords; error := error st;
     onUpdateCalls := push (onUpdateCalls st) newRecords |}.

Definition getStudentName (studentId : string) : string :=
  match List.find (λ s, bool_decide (Student.student_id s = studentId))
          students with
  | Some student =>
      Student.first_name student ++ " " ++ Student.last_name student
  | None => "Unknown Student"
  end.

(** [student?.school_student_id || 'N/A'] *)
Definition getStudentSchoolId (studentId : string) : string :=
  match List.find (λ s, bool_decide (Student.student_id s = studentId))
          students with
  | Some student =>
      match Student.school_student_id student with
      | Some id => if bool_decide (id = "") then "N/A" else id
      | None => "N/A"
      end
  | None => "N/A"
  end.
End Component.

End AttendanceForm.

(** ** The wizard page: [SchoolOnboarding.tsx] *)

Module SchoolOnboarding.
Import Js.

Section Page.
Context {Num : Type} `{!Runtime Num}.

Local Abbreviation Obj := (gmap string (Value Num)).
Local Abbreviation AttendanceRecord := (@AttendanceStep.AttendanceRecord Num).

(** The step ids, ['district'] to ['review']. *)
Inductive OnboardingStep : Type :=
  | StepDistrict | StepSchool | StepAdmins | StepTeachers | StepStudents
  | StepClassrooms | StepEnrollment | StepAttendance | StepAssessments
  | StepReview.

Global Instance OnboardingStep_eq_dec : EqDecision OnboardingStep.
Proof. solve_decision. Defined.

(** [steps], without the icons. *)
Definition steps : list (OnboardingStep * string) := [
  (StepDistrict, "District");
  (StepSchool, "School");
  (StepAdmins, "School Admins");
  (StepTeachers, "Teachers");
  (StepStudents, "Students");
  (StepClassrooms, "Classrooms");
  (StepEnrollment, "Enrollment");
  (StepAttendance, "Attendance");
  (StepAssessments, "Assessments");
  (StepReview, "Review")
].

(** The collected entities. The district, the school and the entities of
    the steps whose sources are not at hand are plain objects; attendance
    records are those of [AttendanceStep]. *)
Record OnboardingData : Type := {
  district : Obj;
  school : Obj;
  admins : list Obj;
  teachers : list Obj;
  students : list Obj;
  classrooms : list Obj;
  enrollments : list Obj;
  attendanceRecords : list AttendanceRecord;
  assessmentRecords : list Obj;
  individualizedNeeds : list Obj;
}.

Definition emptyData : OnboardingData :=
  {| district := ∅; school := ∅; admins := []; teachers := [];
     students := []; classrooms := []; enrollments := [];
     attendanceRecords := []; assessmentRecords := [];
     individualizedNeeds := [] |}.

Record State : Type := {
  currentStep : OnboardingStep;
  isLoading : bool;
  error : option string;
  onboardingData : OnboardingData;
}.

Definition initialState : State :=
  {| currentStep := StepDistrict; isLoading := false; error := None;
     onboardingData := emptyData |}.

(** [steps.findIndex(step => step.id === currentStep)], [-1] when there is
    none. *)
Definition currentStepIndex (st : State) : Z :=
  match findIndexFrom (λ step, bool_decide (step.1 = currentStep st)) 0 steps
  with
  | Some i => Z.of_nat i
  | None => (-1)%Z
  end.

(** [arr[i]] for a number [i] that may be negative *)
Definition atZ {A} (arr : list A) (i : Z) : option A :=
  if (i <? 0)%Z then None else arr !! Z.to_nat i.

Definition setCurrentStep (step : OnboardingStep) (st : State) : State :=
  {| currentStep := step; isLoading := isLoading st; error := error st;
     onboardingData := onboardingData st |}.

Definition handleNext (st : State) : State :=
  match atZ steps (currentStepIndex st + 1) with
  | Some nextStep => setCurrentStep nextStep.1 st
  | None => st
  end.

Definition handleBack (st : State) : State :=
  match atZ steps (currentStepIndex st - 1) with
  | Some prevStep => setCurrentStep prevStep.1 st
  | None => st
  end.

(** [setOnboardingData(update)] with an updater function *)
Definition setOnboardingData (update : OnboardingData → OnboardingData)
  (st : State) : State :=
  {| currentStep := currentStep st; isLoading := isLoading st;
     error := error st; onboardingData := update (onboardingData st) |}.

(** The [onUpdate] callbacks of [renderStepContent], one for each case of
    its switch that mounts a step with one: [data =>
    setOnboardingData(prev => ({ ...prev, <field>: data }))]. *)
Definition updateDistrict (data : Obj) (st : State)
  : State :=
  setOnboardingData (λ prev,
    {| district := data; school := school prev; admins := admins prev;
       teachers := teachers prev; students := students prev;
       classrooms := classrooms prev; enrollments := enrollments prev;
       attendanceRecords := attendanceRecords prev;
       assessmentRecords := assessmentRecords prev;
       individualizedNeeds := individualizedNeeds prev |}) st.

Definition updateSchool (data : Obj) (st : State)
  : State :=
  setOnboardingData (λ prev,
    {| district := district prev; school := data; admins := admins prev;
       teachers := teachers prev; students := students prev;
       classrooms := classrooms prev; enrollments := enrollments prev;
       attendanceRecords := attendanceRecords prev;
       assessmentRecords := assessmentRecords prev;
       individualizedNeeds := individualizedNeeds prev |}) st.

Definition updateAdmins (data : list Obj) (st : State)
  : State :=
  setOnboardingData (λ prev,
    {| district := district prev; school := school prev; admins := data;
       teachers := teachers prev; students := students prev;
       classrooms := classrooms prev; enrollments := enrollments prev;
       attendanceRecords := attendanceRecords prev;
       assessmentRecords := assessmentRecords prev;
       individualizedNeeds := individualizedNeeds prev |}) st.

Definition updateTeachers (data : list Obj) (st : State)
  : State :=
  setOnboardingData (λ prev,
    {| district := district prev; school := school prev;
       admins := admins prev; teachers := data; students := students prev;
       classrooms := classrooms prev; enrollments := enrollments prev;
       attendanceRecords := attendanceRecords prev;
       assessmentRecords := assessmentRecords prev;
       individualizedNeeds := individualizedNeeds prev |}) st.

Definition updateStudents (data : list Obj) (st : State)
  : State :=
  setOnboardingData (λ prev,
    {| district := district prev; school := school prev;
       admins := admins prev; teachers := teachers prev; students := data;
       classrooms := classrooms prev; enrollments := enrollments prev;
       attendanceRecords := attendanceRecords prev;
       assessmentRecords := assessmentRecords prev;
       individualizedNeeds := individualizedNeeds prev |}) st.

Definition updateClassrooms (data : list Obj) (st : State)
  : State :=
  setOnboardingData (λ prev,
    {| district := district prev; school := school prev;
       admins := admins prev; teachers := teachers prev;
       students := students prev; classrooms := data;
       enrollments := enrollments prev;
       attendanceRecords := attendanceRecords prev;
       assessmentRecords := assessmentRecords prev;
       individualizedNeeds := individualizedNeeds prev |}) st.

Definition updateEnrollments (data : list Obj) (st : State)
  : State :=
  setOnboardingData (λ prev,
    {| district := district prev; school := school prev;
       admins := admins prev; teachers := teachers prev;
       students := students prev; classrooms := classrooms prev;
       enrollments := data; attendanceRecords := attendanceRecords prev;
       assessmentRecords := assessmentRecords prev;
       individualizedNeeds := individualizedNeeds prev |}) st.

Definition updateAttendanceRecords (data : list AttendanceRecord) (st : State)
  : State :=
  setOnboardingData (λ prev,
    {| district := district prev; school := school prev;
       admins := admins prev; teachers := teachers prev;
       students := students prev; classrooms := classrooms prev;
       enrollments := enrollments prev; attendanceRecords := data;
       assessmentRecords := assessmentRecords prev;
       individualizedNeeds := individualizedNeeds prev |}) st.

Definition updateAssessmentRecords (data : list Obj) (st : State)
  : State :=
  setOnboardingData (λ prev,
    {| district := district prev; school := school prev;
       admins := admins prev; teachers := teachers prev;
       students := students prev; classrooms := classrooms prev;
       enrollments := enrollments prev;
       attendanceRecords := attendanceRecords prev;
       assessmentRecords := data;
       individualizedNeeds := individualizedNeeds prev |}) st.

Definition updateIndividualizedNeeds (data : list Obj) (st : State)
  : State :=
  setOnboardingData (λ prev,
    {| district := district prev; school := school prev;
       admins := admins prev; teachers := teachers prev;
       students := students prev; classrooms := classrooms prev;
       enrollments := enrollments prev;
       attendanceRecords := attendanceRecords prev;
       assessmentRecords := assessmentRecords prev;
       individualizedNeeds := data |}) st.

(** What is inserted: an object, or an attendance record as it is. *)
Inductive Payload : Type :=
  | InsertObject (o : Obj)
  | InsertAttendance (r : AttendanceRecord).

(** [supabase.from(table).insert(payload)], with [.select(column).single()]
    when a column is asked back. *)
Record Request : Type := {
  table : string;
  payload : Payload;
  selected : option string;
}.

(** The answer [{ data, error }]: an error with its message, or the row
    asked back (the empty object when none was). *)
Inductive Response : Type :=
  | Failed (message : string)
  | Returned (data : Obj).

(** The backend: its answer to a request, given the requests it has
    answered before. *)
Definition Backend : Type := list Request → Request → Response.

(** A [for ... of] loop of inserts: each is awaited, and the first error is
    thrown. [trace] holds the requests sent so far; the result is the trace
    and the message thrown, if any. *)
Fixpoint insertEach (backend : Backend) (trace : list Request)
  (requests : list Request) : list Request * option string :=
  match requests with
  | [] => (trace, None)
  | request :: rest =>
      match backend trace request with
      | Failed message => (push trace request, Some message)
      | Returned _ => insertEach backend (push trace request) rest
      end
  end.

Definition insertInto (table' : string) (o : Obj) : Request :=
  {| table := table'; payload := InsertObject o; selected := None |}.

(** The inserts that follow the school's, for the id it was given, in the
    order of the loops. *)
Definition entityRequests (data : OnboardingData) (schoolId : Value Num)
  : list Request :=
  ((λ admin, insertInto "admin_users" (<["school_id" := schoolId]> admin))
     <$> admins data)
  ++ (insertInto "teachers" <$> teachers data)
  ++ ((λ student, insertInto "students" (<["school_id" := schoolId]> student))
        <$> students data)
  ++ ((λ classroom,
         insertInto "classrooms" (<["school_id" := schoolId]> classroom))
        <$> classrooms data)
  ++ (insertInto "classroom_enrollments" <$> enrollments data)
  ++ ((λ attendanceRecord,
         {| table := "attendance_records";
            payload := InsertAttendance attendanceRecord;
            selected := None |}) <$> attendanceRecords data)
  ++ (insertInto "assessment_external_processed" <$> assessmentRecords data)
  ++ (insertInto "individualized_needs" <$> individualizedNeeds data).

(** What [handleFinalSubmit] leaves: the state, the requests sent, and
    whether the form was reset. *)
Record Submitted : Type := {
  after : State;
  sent : list Request;
  formReset : bool;
}.

(** The [catch] and [finally] of [handleFinalSubmit]. *)
Definition submitFailed (st : State) (trace : list Request) (message : string)
  : Submitted :=
  {| after := {| currentStep := currentStep st; isLoading := false;
                 error := Some message;
                 onboardingData := onboardingData st |};
     sent := trace; formReset := false |}.

(** [handleFinalSubmit()], run to its end before any other event. *)
Definition handleFinalSubmit (backend : Backend) (st : State) : Submitted :=
  let data := onboardingData st in
  (* Create district if new *)
  let districtRequest :=
    {| table := "districts"; payload := InsertObject (district data);
       selected := Some "district_id" |} in
  let created :=
    if negb (truthy (prop (district data) "district_id")) then
      match backend [] districtRequest with
      | Failed message => inl ([districtRequest], message)
      | Returned districtData =>
          inr ([districtRequest], prop districtData "district_id")
      end
    else inr ([], prop (district data) "district_id") in
  match created with
  | inl (trace, message) => submitFailed st trace message
  | inr (trace, districtId) =>
      (* Create school *)
      let schoolRequest :=
        {| table := "schools";
           payload :=
             InsertObject (<["district_id" := districtId]> (school data));
           selected := Some "school_id" |} in
      match backend trace schoolRequest with
      | Failed message => submitFailed st (push trace schoolRequest) message
      | Returned schoolData =>
          let schoolId := prop schoolData "school_id" in
          match insertEach backend (push trace schoolRequest)
                  (entityRequests data schoolId) with
          | (trace, Some message) => submitFailed st trace message
          | (trace, None) =>
              (* Success! Reset form and show success message *)
              {| after := {| currentStep := StepDistrict; isLoading := false;
                             error := None; onboardingData := emptyData |};
                 sent := trace; formReset := true |}
          end
      end
  end.
(** The value of a step id: the string literal of the type
    [OnboardingStep]. *)
Definition stepId (step : OnboardingStep) : string :=
  match step with
  | StepDistrict => "district"
  | StepSchool => "school"
  | StepAdmins => "admins"
  | StepTeachers => "teachers"
  | StepStudents => "students"
  | StepClassrooms => "classrooms"
  | StepEnrollment => "enrollment"
  | StepAttendance => "attendance"
  | StepAssessments => "assessments"
  | StepReview => "review"
  end.

(** The step components, one for each case of the switch of
    [renderStepContent]. *)
Inductive StepComponent : Type :=
  | DistrictComponent | SchoolComponent | AdminsComponent
  | TeachersComponent | StudentsComponent | ClassroomsComponent
  | EnrollmentComponent | AttendanceComponent | AssessmentComponent
  | IndividualizedNeedsComponent | ReviewComponent.

Global Instance StepComponent_eq_dec : EqDecision StepComponent.
Proof. solve_decision. Defined.

(** [renderStepContent()]: the component that the switch over the value of
    [currentStep] mounts, its cases in their order; [None] is the
    [default]. *)
Definition renderStepContent (st : State) : option StepComponent :=
  let id := stepId (currentStep st) in
  if bool_decide (id = "district") then Some DistrictComponent
  else if bool_decide (id = "school") then Some SchoolComponent
  else if bool_decide (id = "admins") then Some AdminsComponent
  else if bool_decide (id = "teachers") then Some TeachersComponent
  else if bool_decide (id = "students") then Some StudentsComponent
  else if bool_decide (id = "classrooms") then Some ClassroomsComponent
  else if bool_decide (id = "enrollment") then Some EnrollmentComponent
  else if bool_decide (id = "attendance") then Some AttendanceComponent
  else if bool_decide (id = "assessments") then Some AssessmentComponent
  else if bool_decide (id = "individualized_needs")
       then Some IndividualizedNeedsComponent
  else if bool_decide (id = "review") then Some ReviewComponent
  else None.

(** What can happen on the page: the two navigation buttons, the final
    submission against a backend (run to its end before the next event),
    and the call of the [onUpdate] of a step component. *)
Inductive Event : Type :=
  | Next
  | Back
  | Submit (backend : Backend)
  | DistrictUpdate (data : Obj)
  | SchoolUpdate (data : Obj)
  | AdminsUpdate (data : list Obj)
  | TeachersUpdate (data : list Obj)
  | StudentsUpdate (data : list Obj)
  | ClassroomsUpdate (data : list Obj)
  | EnrollmentUpdate (data : list Obj)
  | AttendanceUpdate (data : list AttendanceRecord)
  | AssessmentUpdate (data : list Obj)
  | IndividualizedNeedsUpdate (data : list Obj).

(** The handler of an event. *)
Definition dispatch (event : Event) (st : State) : State :=
  match event with
  | Next => handleNext st
  | Back => handleBack st
  | Submit backend => after (handleFinalSubmit backend st)
  | DistrictUpdate data => updateDistrict data st
  | SchoolUpdate data => updateSchool data st
  | AdminsUpdate data => updateAdmins data st
  | TeachersUpdate data => updateTeachers data st
  | StudentsUpdate data => updateStudents data st
  | ClassroomsUpdate data => updateClassrooms data st
  | EnrollmentUpdate data => updateEnrollments data st
  | AttendanceUpdate data => updateAttendanceRecords data st
  | AssessmentUpdate data => updateAssessmentRecords data st
  | IndividualizedNeedsUpdate data => updateIndividualizedNeeds data st
  end.

(** The component whose [onUpdate] prop an update event calls. *)
Definition sender (event : Event) : option StepComponent :=
  match event with
  | Next | Back | Submit _ => None
  | DistrictUpdate _ => Some DistrictComponent
  | SchoolUpdate _ => Some SchoolComponent
  | AdminsUpdate _ => Some AdminsComponent
  | TeachersUpdate _ => Some TeachersComponent
  | StudentsUpdate _ => Some StudentsComponent
  | ClassroomsUpdate _ => Some ClassroomsComponent
  | EnrollmentUpdate _ => Some EnrollmentComponent
  | AttendanceUpdate _ => Some AttendanceComponent
  | AssessmentUpdate _ => Some AssessmentComponent
  | IndividualizedNeedsUpdate _ => Some IndividualizedNeedsComponent
  end.

(** A session of the page: its state, and the step components it has
    mounted so far. *)
Record Session : Type := {
  page : State;
  mounted : list StepComponent;
}.

(** A render of the page mounts the component of the current step. *)
Definition mount (st : State) (seen : list StepComponent)
  : list StepComponent :=
  match renderStepContent st with
  | Some component => component :: seen
  | None => seen
  end.

Definition firstRender : Session :=
  {| page := initialState; mounted := mount initialState [] |}.

(** An event of the session. The buttons can be pressed at any time. An
    [onUpdate] prop is handed to its step component only, so it is called
    only by a component that has been mounted, now or earlier; the event
    of a component that never was is not possible and leaves the session
    as it is. *)
Definition handle (session : Session) (event : Event) : Session :=
  let possible :=
    match sender event with
    | Some component => bool_decide (component ∈ mounted session)
    | None => true
    end in
  if possible then
    let st := dispatch event (page session) in
    {| page := st; mounted := mount st (mounted session) |}
  else session.

(** The session after a sequence of events *)
Definition run (events : list Event) (session : Session) : Session :=
  foldl handle session events.
End Page.

End SchoolOnboarding.

(** * Properties *)

Local Open Scope nat_scope.

(** ** Loops over arrays *)

Module ArrayFacts.
Import Js.

Section Loops.
Context {A : Type}.

(** A filter that looks at the index only keeps the elements at the kept
    indices, in order. *)
Lemma filterFrom_indices (keep : nat → bool) (start : nat) (l : list A) :
  Forall2 (λ i x, start ≤ i ∧ l !! (i - start) = Some x)
    (filter (λ i, keep i = true) (seq start (length l)))
    (filterFrom (λ i _, keep i) start l).
Proof.
  revert start. induction l as [|x l IH]; intros start; simpl.
  { constructor. }
  assert (Forall2 (λ i y, start ≤ i ∧ (x :: l) !! (i - start) = Some y)
            (filter (λ i, keep i = true) (seq (S start) (length l)))
            (filterFrom (λ i _, keep i) (S start) l)) as Htail.
  { eapply Forall2_impl; [apply IH|]. intros i y [Hle Hi]. split; [lia|].
    replace (i - start) with (S (i - S start)) by lia. exact Hi. }
  rewrite filter_cons. destruct (keep start) eqn:Hk.
  - rewrite decide_True by done. constructor; [|exact Htail].
    split; [lia|]. by rewrite Nat.sub_diag.
  - rewrite decide_False by (by intros ?). exact Htail.
Qed.

Lemma filterFrom_all (keep : nat → bool) (start : nat) (l : list A) :
  (∀ i, start ≤ i → keep i = true) → filterFrom (λ i _, keep i) start l = l.
Proof.
  revert start. induction l as [|x l IH]; intros start Hall; simpl; [done|].
  rewrite Hall by lia. f_equal. apply IH. intros i Hi. apply Hall. lia.
Qed.

(** [arr.filter((_, i) => i !== index)] removes the element at [index]. *)
Lemma filterFrom_delete (start k : nat) (l : list A) :
  filterFrom (λ i _, negb (bool_decide (i = start + k))) start l = delete k l.
Proof.
  revert start k. induction l as [|x l IH]; intros start k; simpl; [done|].
  destruct k as [|k].
  - rewrite bool_decide_eq_true_2 by lia. simpl.
    apply (filterFrom_all (λ i, negb (bool_decide (i = start + 0)))).
    intros i Hi. rewrite bool_decide_eq_false_2 by lia. done.
  - rewrite bool_decide_eq_false_2 by lia. simpl. f_equal.
    replace (start + S k) with (S start + k) by lia. apply IH.
Qed.

Lemma filteri_delete (index : nat) (l : list A) :
  filteri (λ i _, negb (bool_decide (i = index))) l = delete index l.
Proof. apply (filterFrom_delete 0 index). Qed.
End Loops.

End ArrayFacts.

(** ** The generic importer *)

Module RegexFacts.
Import Js.

Lemma dead_nullable (r : regex) : dead r = true → nullable r = false.
Proof.
  induction r; simpl; try done.
  - intros [H|H]%orb_prop; [rewrite IHr1|rewrite IHr2, andb_false_r]; done.
  - intros [H1 H2]%andb_prop. by rewrite IHr1, IHr2.
Qed.

Lemma dead_deriv (c : ascii) (r : regex) :
  dead r = true → dead (deriv c r) = true.
Proof.
  induction r; simpl; try done.
  - intros [H|H]%orb_prop.
    + rewrite (dead_nullable r1 H). simpl. by rewrite IHr1.
    + destruct (nullable r1); simpl; rewrite ?H, ?IHr2, ?orb_true_r; done.
  - intros [H1 H2]%andb_prop. by rewrite IHr1, IHr2.
Qed.

(** A dead regex matches no string. *)
Lemma fullMatch_dead (r : regex) (s : string) :
  dead r = true → fullMatch r s = false.
Proof.
  revert r. induction s as [|c s IH]; intros r Hdead; simpl.
  - by apply dead_nullable.
  - by apply IH, dead_deriv.
Qed.

(** A string of exactly as many characters as [shape] has classes, each
    character in the class at its position. *)
Fixpoint hasShape (shape : list (ascii → bool)) (s : string) : bool :=
  match shape, s with
  | [], EmptyString => true
  | p :: shape', String c s' => p c && hasShape shape' s'
  | _, _ => false
  end.

Definition isHyphen (c : ascii) : bool := bool_decide (c = "-"%char).

(** Four digits, a hyphen, two digits, a hyphen, two digits. *)
Definition dateShape : list (ascii → bool) :=
  [isDigit; isDigit; isDigit; isDigit; isHyphen; isDigit; isDigit; isHyphen;
   isDigit; isDigit].

Definition isDateShape (s : string) : bool := hasShape dateShape s.

Ltac next_char s :=
  destruct s as [|?c s]; [reflexivity|]; simpl;
  match goal with
  | |- context [isDigit ?c] =>
      destruct (isDigit c); simpl; [|by apply fullMatch_dead]
  | |- context [bool_decide (?c = "-"%char)] =>
      destruct (bool_decide (c = "-"%char)); simpl; [|by apply fullMatch_dead]
  end.

(** [/^\d{4}-\d{2}-\d{2}$/] accepts exactly the strings of that shape. *)
Lemma fullMatch_dateRegex (s : string) :
  fullMatch BulkImport.dateRegex s = isDateShape s.
Proof.
  unfold isDateShape, dateShape, BulkImport.dateRegex, isHyphen, lit. simpl.
  do 10 next_char s.
  destruct s as [|last s]; [reflexivity|]. simpl. by apply fullMatch_dead.
Qed.

End RegexFacts.

Module BulkImportFacts.
Import Js BulkImport RegexFacts.

Section Component.
Context {Num : Type} `{!Runtime Num}.

Local Abbreviation Row := (gmap string (Value Num)).
Local Abbreviation ColumnMapping := (@ColumnMapping Num).
Local Abbreviation ValidationError := (@ValidationError Num).
Local Abbreviation RowValidation := (@RowValidation Num).
Local Abbreviation State := (@State Num).

Context (requiredFields : list string).
Context (template : Row).
Context (AVAILABLE_COLUMNS : gmap string (list string)).
Context (COLUMN_TYPES : gmap string string).
Context (findBestColumnMatches : list string → list string → list ColumnMapping).

Local Abbreviation validateMapping := (validateMapping requiredFields COLUMN_TYPES).
Local Abbreviation validateRow := (validateRow requiredFields COLUMN_TYPES).
Local Abbreviation validateData := (validateData requiredFields COLUMN_TYPES).
Local Abbreviation availableColumns := (availableColumns template AVAILABLE_COLUMNS).
Local Abbreviation loadRows :=
  (loadRows requiredFields template AVAILABLE_COLUMNS COLUMN_TYPES
     findBestColumnMatches).
Local Abbreviation handleFileUpload :=
  (handleFileUpload requiredFields template AVAILABLE_COLUMNS COLUMN_TYPES
     findBestColumnMatches).
Local Abbreviation handleSaveMapping :=
  (handleSaveMapping requiredFields template AVAILABLE_COLUMNS COLUMN_TYPES).

(** The errors one mapping adds for one row do not depend on what was
    collected before. *)
Lemma validateMapping_acc (row : Row) (index : nat)
  (errors rowErrors : list ValidationError) (mapping : ColumnMapping) :
  validateMapping row index (errors, rowErrors) mapping =
  ((errors ++ (validateMapping row index ([], []) mapping).2)%list,
   (rowErrors ++ (validateMapping row index ([], []) mapping).2)%list).
Proof.
  unfold BulkImport.validateMapping, pushBoth, push.
  destruct (matched mapping); simpl; [|by rewrite !app_nil_r].
  repeat match goal with
         | |- context [if ?b then _ else _] => destruct b; simpl
         end;
    rewrite ?app_nil_r, <- ?app_assoc; reflexivity.
Qed.

(** The errors of the row at [index]: what its pass over the mappings
    pushes to [rowErrors]. *)
Definition rowErrorsOf (columnMappings : list ColumnMapping)
  (row : Row) (index : nat) : list ValidationError :=
  (foldl (validateMapping row index) ([], []) columnMappings).2.

Lemma foldl_validateMapping (columnMappings : list ColumnMapping)
  (row : Row) (index : nat)
  (errors rowErrors : list ValidationError) :
  foldl (validateMapping row index) (errors, rowErrors) columnMappings =
  ((errors ++ rowErrorsOf columnMappings row index)%list,
   (rowErrors ++ rowErrorsOf columnMappings row index)%list).
Proof.
  unfold rowErrorsOf.
  revert errors rowErrors.
  induction columnMappings as [|m ms IH]; intros errors rowErrors; simpl.
  { by rewrite !app_nil_r. }
  rewrite (validateMapping_acc _ _ errors rowErrors), IH.
  rewrite (validateMapping_acc _ _ [] []). simpl.
  rewrite (IH (validateMapping row index ([], []) m).2). simpl.
  by rewrite !app_assoc.
Qed.

Lemma validateRow_eq (columnMappings : list ColumnMapping)
  (acc : list ValidationError * list RowValidation)
  (row : Row) (index : nat) :
  validateRow columnMappings acc row index =
  ((acc.1 ++ rowErrorsOf columnMappings row index)%list,
   (acc.2 ++ [{| rowIndex := index;
                 errors := rowErrorsOf columnMappings row index;
                 excluded := false |}])%list).
Proof.
  unfold BulkImport.validateRow. rewrite foldl_validateMapping. done.
Qed.

Lemma forEachFrom_validateRow (columnMappings : list ColumnMapping)
  (start : nat) (acc : list ValidationError * list RowValidation)
  (data : list (Row)) :
  (forEachFrom (validateRow columnMappings) start acc data).2 =
  (acc.2 ++ imap (λ i row,
       {| rowIndex := start + i;
          errors := rowErrorsOf columnMappings row (start + i);
          excluded := false |}) data)%list.
Proof.
  revert start acc. induction data as [|row data IH]; intros start acc; simpl.
  { by rewrite app_nil_r. }
  rewrite IH, validateRow_eq. simpl. rewrite <- app_assoc. simpl.
  rewrite Nat.add_0_r. do 2 f_equal.
  apply imap_ext. intros i x _. simpl. by rewrite Nat.add_succ_r.
Qed.

(** What the setters and [updateErrorSections] leave alone. *)
Lemma updateErrorSections_fields (errors : list ValidationError) (p : State) :
  stateErrors (updateErrorSections errors p) = stateErrors p
  ∧ columnMappings (updateErrorSections errors p) = columnMappings p
  ∧ csvData (updateErrorSections errors p) = csvData p
  ∧ rowValidations (updateErrorSections errors p) = rowValidations p
  ∧ originalRowValidations (updateErrorSections errors p)
    = originalRowValidations p
  ∧ excludeAllInvalid (updateErrorSections errors p) = excludeAllInvalid p.
Proof. done. Qed.

(** The cells a successful parse fills. The rows are validated under the
    mappings of the render that started the upload. *)
Lemma loadRows_fields (st p : State) (data : list (Row))
  (columns : list string) :
  csvData (loadRows st data columns p) = data
  ∧ csvColumns (loadRows st data columns p) = columns
  ∧ columnMappings (loadRows st data columns p)
    = findBestColumnMatches columns availableColumns
  ∧ stateErrors (loadRows st data columns p)
    = (validateData (columnMappings st) data).1
  ∧ rowValidations (loadRows st data columns p)
    = (validateData (columnMappings st) data).2
  ∧ originalRowValidations (loadRows st data columns p)
    = (validateData (columnMappings st) data).2.
Proof.
  unfold BulkImport.loadRows.
  destruct (validateData (columnMappings st) data) as [errs rvs]. done.
Qed.

(** An accepted edit replaces the mapping at [index] and validates the rows
    again, under the mappings of the render the handler belongs to. *)
Lemma handleSaveMapping_accepted (index : nat) (csvColumn' dbColumn' : string)
  (st : State) :
  dbColumn' ∈ availableColumns →
  columnMappings (handleSaveMapping index csvColumn' dbColumn' st)
  = imap (λ i mapping,
      if bool_decide (i = index)
      then {| csvColumn := csvColumn'; dbColumn := dbColumn';
              similarity := numOfZ 1; matched := true; manual := true |}
      else mapping) (columnMappings st)
  ∧ csvData (handleSaveMapping index csvColumn' dbColumn' st) = csvData st
  ∧ stateErrors (handleSaveMapping index csvColumn' dbColumn' st)
    = (validateData (columnMappings st) (csvData st)).1
  ∧ rowValidations (handleSaveMapping index csvColumn' dbColumn' st)
    = (validateData (columnMappings st) (csvData st)).2
  ∧ originalRowValidations (handleSaveMapping index csvColumn' dbColumn' st)
    = (validateData (columnMappings st) (csvData st)).2.
Proof.
  intros Hin. unfold BulkImport.handleSaveMapping.
  rewrite bool_decide_eq_true_2 by done. simpl.
  destruct (validateData (columnMappings st) (csvData st)) as [errs rvs].
  done.
Qed.

(** A rejected edit only replaces the error list. *)
Lemma handleSaveMapping_rejected (index : nat) (csvColumn' dbColumn' : string)
  (st : State) :
  dbColumn' ∉ availableColumns →
  handleSaveMapping index csvColumn' dbColumn' st
  = setErrors [{| type := mapping; field := None; row := None;
                  message := "Invalid column mapping"; value := None |}] st.
Proof.
  intros Hin. unfold BulkImport.handleSaveMapping.
  by rewrite bool_decide_eq_false_2.
Qed.

(** The positions [handleImport] keeps. *)
Definition includedIndices (st : State) : list nat :=
  filter (λ i, keepRow st i = true) (seq 0 (length (csvData st))).

Lemma handleImport_rows (st : State) :
  ∃ rows,
    Forall2 (λ i row, csvData st !! i = Some row) (includedIndices st) rows
    ∧ handleImport st = transformRow (columnMappings st) <$> rows.
Proof.
  exists (filteri (λ index _, keepRow st index) (csvData st)). split; [|done].
  eapply Forall2_impl;
    [apply (ArrayFacts.filterFrom_indices (keepRow st) 0 (csvData st))|].
  intros i row [_ Hi]. by rewrite Nat.sub_0_r in Hi.
Qed.

(** C1. The records [handleImport] passes on are those of the rows at the
    included positions, in order; a position whose row validation is
    excluded is not included, and with the bulk toggle on neither is a
    position whose row validation has one or more errors. *)
Theorem handleImport_skips_excluded_rows (st : State) :
  ∃ rows,
    Forall2 (λ i row, csvData st !! i = Some row) (includedIndices st) rows
    ∧ handleImport st = transformRow (columnMappings st) <$> rows
    ∧ ∀ i rv, rowValidations st !! i = Some rv →
        (excluded rv = true → i ∉ includedIndices st)
        ∧ (excludeAllInvalid st = true → 0 < length (errors rv) →
           i ∉ includedIndices st).
Proof.
  destruct (handleImport_rows st) as (rows & Hrows & Heq).
  exists rows. split_and!; [done..|].
  intros i rv Hrv. unfold includedIndices.
  split; [intros Hex | intros Hall Herr];
    rewrite list_elem_of_filter; intros [Hkeep _];
    unfold keepRow in Hkeep; rewrite Hrv in Hkeep; simpl in Hkeep.
  - by rewrite Hex in Hkeep.
  - rewrite Hall, bool_decide_eq_true_2 in Hkeep by done.
    by destruct (excluded rv).
Qed.

(** A record holds, under a key, the cell of the last matched mapping that
    targets the key. *)
Lemma transformRow_lookup (columnMappings : list ColumnMapping) (row : Row)
  (key : string) :
  transformRow columnMappings row !! key =
  (λ m, prop row (csvColumn m))
    <$> last (filter (λ m, matched m = true ∧ dbColumn m = key) columnMappings).
Proof.
  unfold transformRow.
  assert (∀ acc : Row,
    foldl (λ newRow mapping,
      if matched mapping
      then <[dbColumn mapping := prop row (csvColumn mapping)]> newRow
      else newRow) acc columnMappings !! key =
    match last (filter (λ m, matched m = true ∧ dbColumn m = key)
                  columnMappings) with
    | Some m => Some (prop row (csvColumn m))
    | None => acc !! key
    end) as Hgen.
  { induction columnMappings as [|m ms IH]; intros acc; simpl; [done|].
    rewrite IH, filter_cons. case_decide as Hm.
    - destruct Hm as [Hmatched Hkey]. rewrite Hmatched.
      destruct (filter _ ms) as [|m' l] eqn:Hf; simpl.
      + by rewrite <- Hkey, lookup_insert_eq.
      + rewrite last_cons. by destruct (last l).
    - destruct (last (filter _ ms)); [done|].
      destruct (matched m) eqn:Hmatched; [|done].
      rewrite lookup_insert_ne; [done|]. intros Hkey. by apply Hm. }
  rewrite Hgen, lookup_empty. by destruct (last _).
Qed.

Lemma transformRow_snoc (columnMappings : list ColumnMapping)
  (mapping : ColumnMapping) (row : Row) :
  transformRow (columnMappings ++ [mapping]) row =
  if matched mapping
  then <[dbColumn mapping := prop row (csvColumn mapping)]>
         (transformRow columnMappings row)
  else transformRow columnMappings row.
Proof. unfold transformRow. by rewrite foldl_app. Qed.

(** C2. Every record [handleImport] passes on is built from a parsed row by
    going through the mappings in order: no mapping gives the empty record,
    and one more mapping at the end writes [record[dbColumn] =
    row[csvColumn]] when it is matched and nothing otherwise. So the cell
    found under a key is that of the last matched mapping targeting it, and
    a later mapping overwrites an earlier one. The row
    [{"Student ID": "S1", "Date": "2024-01-05"}] mapped to
    [school_student_id] and [record_date] gives
    [{school_student_id: "S1", record_date: "2024-01-05"}]. *)
Theorem handleImport_builds_records_in_mapping_order :
  (∀ (st : State) k record, handleImport st !! k = Some record →
     ∃ row, row ∈ csvData st
            ∧ record = transformRow (columnMappings st) row)
  ∧ (∀ row : Row, transformRow [] row = ∅)
  ∧ (∀ columnMappings mapping (row : Row),
       transformRow (columnMappings ++ [mapping]) row =
       if matched mapping
       then <[dbColumn mapping := prop row (csvColumn mapping)]>
              (transformRow columnMappings row)
       else transformRow columnMappings row)
  ∧ (∀ columnMappings (row : Row) key,
       transformRow columnMappings row !! key =
       (λ m, prop row (csvColumn m))
         <$> last (filter (λ m, matched m = true ∧ dbColumn m = key)
                     columnMappings))
  ∧ (∀ earlier later between (row : Row),
       matched later = true → dbColumn later = dbColumn earlier →
       transformRow (earlier :: between ++ [later]) row !! dbColumn earlier
       = Some (prop row (csvColumn later)))
  ∧ handleImport
      {| stateErrors := []; errorSections := [];
         columnMappings :=
           [{| csvColumn := "Student ID"; dbColumn := "school_student_id";
               similarity := numOfZ 1; matched := true; manual := false |};
            {| csvColumn := "Date"; dbColumn := "record_date";
               similarity := numOfZ 1; matched := true; manual := false |}];
         showMappings := true;
         csvData := [{["Student ID" := VStr "S1"; "Date" := VStr "2024-01-05"]}];
         showPreview := true; isDragging := false;
         csvColumns := ["Student ID"; "Date"];
         rowValidations :=
           [{| rowIndex := 0; errors := []; excluded := false |}];
         excludeAllInvalid := false;
         originalRowValidations :=
           [{| rowIndex := 0; errors := []; excluded := false |}] |}
    = [{["school_student_id" := VStr "S1";
         "record_date" := VStr "2024-01-05"]}].
Proof.
  split_and!.
  - intros st k record Hk.
    destruct (handleImport_rows st) as (rows & Hrows & Heq).
    rewrite Heq, list_lookup_fmap in Hk.
    destruct (rows !! k) as [row|] eqn:Hrow; simplify_eq/=.
    exists row. split; [|done].
    destruct (Forall2_lookup_r _ _ _ _ _ Hrows Hrow) as (i & _ & Hi).
    apply list_elem_of_lookup. by exists i.
  - done.
  - apply transformRow_snoc.
  - apply transformRow_lookup.
  - intros earlier later between row Hmatched Hkey.
    rewrite app_comm_cons, transformRow_snoc, Hmatched, <- Hkey.
    apply lookup_insert_eq.
  - vm_compute. reflexivity.
Qed.

(** C3. With the bulk toggle off, [toggleExcludeAllInvalid] turns it on,
    saves the row validations, and marks as excluded every row that has one
    or more errors, leaving the flag of a row without errors, and the index
    and errors of every row, as they were. Running it again, with or without
    a per-row toggle in between, turns the toggle off and gives back the
    row validations of before. *)
Theorem toggleExcludeAllInvalid_twice_restores (st : State) :
  excludeAllInvalid st = false →
  let on := toggleExcludeAllInvalid st in
  excludeAllInvalid on = true
  ∧ originalRowValidations on = rowValidations st
  ∧ length (rowValidations on) = length (rowValidations st)
  ∧ (∀ i rv, rowValidations st !! i = Some rv →
       ∃ rv', rowValidations on !! i = Some rv'
              ∧ rowIndex rv' = rowIndex rv
              ∧ errors rv' = errors rv
              ∧ (0 < length (errors rv) → excluded rv' = true)
              ∧ (errors rv = [] → excluded rv' = excluded rv))
  ∧ rowValidations (toggleExcludeAllInvalid on) = rowValidations st
  ∧ excludeAllInvalid (toggleExcludeAllInvalid on) = false
  ∧ (∀ rowIndex',
       rowValidations (toggleExcludeAllInvalid (toggleRowExclusion rowIndex' on))
       = rowValidations st).
Proof.
  intros Hoff on. subst on. unfold toggleExcludeAllInvalid at 1 2 3 4.
  rewrite Hoff. simpl. split_and!; try done.
  - by rewrite length_map.
  - intros i rv Hrv. rewrite list_lookup_fmap, Hrv. simpl.
    eexists. split; [done|]. simpl. split_and!; try done.
    + intros Herr. by rewrite bool_decide_eq_true_2.
    + intros ->. done.
  - unfold toggleExcludeAllInvalid. rewrite Hoff. done.
  - unfold toggleExcludeAllInvalid. rewrite Hoff. done.
  - intros rowIndex'. unfold toggleExcludeAllInvalid. rewrite Hoff. done.
Qed.

(** C8. [handleDeleteMapping] removes the mapping at [index] (none when the
    index is past the end) and changes no other cell of the state: the row
    validations and the errors stay those computed under the mappings of
    before. *)
Theorem handleDeleteMapping_only_removes_mapping (index : nat) (st : State) :
  handleDeleteMapping index st
  = setColumnMappings (delete index (columnMappings st)) st
  ∧ columnMappings (handleDeleteMapping index st)
    = delete index (columnMappings st)
  ∧ rowValidations (handleDeleteMapping index st) = rowValidations st
  ∧ originalRowValidations (handleDeleteMapping index st)
    = originalRowValidations st
  ∧ stateErrors (handleDeleteMapping index st) = stateErrors st
  ∧ errorSections (handleDeleteMapping index st) = errorSections st
  ∧ csvData (handleDeleteMapping index st) = csvData st
  ∧ (∀ mapping, columnMappings st !! index = Some mapping →
       length (columnMappings (handleDeleteMapping index st)) + 1
       = length (columnMappings st)
       ∧ ∀ j, columnMappings (handleDeleteMapping index st) !! j
              = if decide (j < index) then columnMappings st !! j
                else columnMappings st !! (S j)).
Proof.
  unfold handleDeleteMapping. rewrite ArrayFacts.filteri_delete.
  split_and!; try done.
  intros mapping Hm. simpl. split.
  - rewrite length_delete by eauto. apply lookup_lt_Some in Hm. lia.
  - intros j. case_decide.
    + by apply list_lookup_delete_lt.
    + apply list_lookup_delete_ge. lia.
Qed.

(** C10. [validateData] returns one row validation per input row, in input
    order: the validation at position [i] carries [rowIndex = i], the errors
    of the row at position [i], and [excluded = false]; so the list is as
    long as the data, and the positions [handleImport] looks up are those
    of the rows. *)
Theorem validateData_one_validation_per_row
  (columnMappings : list ColumnMapping)
  (data : list (Row)) :
  let rowValidations := (validateData columnMappings data).2 in
  length rowValidations = length data
  ∧ (∀ i row, data !! i = Some row →
       rowValidations !! i =
         Some {| rowIndex := i;
                 errors := rowErrorsOf columnMappings row i;
                 excluded := false |})
  ∧ rowIndex <$> rowValidations = seq 0 (length data)
  ∧ Forall (λ rv, excluded rv = false) rowValidations
  ∧ (∀ st p columns,
       length (BulkImport.rowValidations (loadRows st data columns p))
       = length (csvData (loadRows st data columns p)))
  ∧ (∀ index csvColumn' dbColumn' st,
       dbColumn' ∈ availableColumns →
       length (BulkImport.rowValidations
                 (handleSaveMapping index csvColumn' dbColumn' st))
       = length (csvData (handleSaveMapping index csvColumn' dbColumn' st))).
Proof.
  intros rowValidations. subst rowValidations.
  assert (∀ cm d, length (validateData cm d).2 = length d) as Hlen.
  { intros cm d. unfold BulkImport.validateData, forEachi.
    rewrite forEachFrom_validateRow. simpl. by rewrite length_imap. }
  assert ((validateData columnMappings data).2 =
          imap (λ i row, {| rowIndex := i;
                            errors := rowErrorsOf columnMappings row i;
                            excluded := false |}) data) as Heq.
  { unfold BulkImport.validateData, forEachi.
    rewrite forEachFrom_validateRow. done. }
  simpl. rewrite Heq. split_and!.
  - by rewrite length_imap.
  - intros i row Hi. by rewrite list_lookup_imap, Hi.
  - apply list_eq. intros i.
    rewrite list_lookup_fmap, list_lookup_imap.
    destruct (data !! i) as [row|] eqn:Hi; simpl.
    + symmetry. apply lookup_seq. split; [done|]. by eapply lookup_lt_Some.
    + symmetry. apply lookup_ge_None. rewrite length_seq.
      by apply lookup_ge_None.
  - apply Forall_forall. intros rv Hin.
    apply list_elem_of_lookup in Hin as [i Hi].
    rewrite list_lookup_imap in Hi.
    destruct (data !! i); simplify_eq/=. done.
  - intros st p columns.
    destruct (loadRows_fields st p data columns) as (-> & _ & _ & _ & -> & _).
    apply Hlen.
  - intros index c d st Hin.
    destruct (handleSaveMapping_accepted index c d st Hin)
      as (_ & -> & _ & -> & _).
    apply Hlen.
Qed.


Local Abbreviation getCurrentStep := (@getCurrentStep Num).

(** C9. The record type is read off the keys of the template:
    [guardian1_name] gives ['students'], else [qualification1] gives
    ['teachers'], else [admin_user_type] gives ['admins'], else
    [classroom_name] gives ['classrooms'], and a template with none of them
    gives ['students']. The attendance template has none of the four keys,
    so the attendance importer maps onto the columns of ['students']. *)
Theorem getCurrentStep_by_template_keys :
  (is_Some (template !! "guardian1_name") →
     getCurrentStep template = "students")
  ∧ (template !! "guardian1_name" = None →
     is_Some (template !! "qualification1") →
     getCurrentStep template = "teachers")
  ∧ (template !! "guardian1_name" = None →
     template !! "qualification1" = None →
     is_Some (template !! "admin_user_type") →
     getCurrentStep template = "admins")
  ∧ (template !! "guardian1_name" = None →
     template !! "qualification1" = None →
     template !! "admin_user_type" = None →
     is_Some (template !! "classroom_name") →
     getCurrentStep template = "classrooms")
  ∧ (template !! "guardian1_name" = None →
     template !! "qualification1" = None →
     template !! "admin_user_type" = None →
     template !! "classroom_name" = None →
     getCurrentStep template = "students")
  ∧ AttendanceStep.bulkImportTemplate !! "guardian1_name" = None
  ∧ AttendanceStep.bulkImportTemplate !! "qualification1" = None
  ∧ AttendanceStep.bulkImportTemplate !! "admin_user_type" = None
  ∧ AttendanceStep.bulkImportTemplate !! "classroom_name" = None
  ∧ getCurrentStep AttendanceStep.bulkImportTemplate = "students"
  ∧ BulkImport.availableColumns AttendanceStep.bulkImportTemplate
      AVAILABLE_COLUMNS
    = default [] (AVAILABLE_COLUMNS !! "students").
Proof.
  assert (∀ key, template !! key = None →
            hasOwnProperty template key = false) as Hnone.
  { intros key Hkey. unfold hasOwnProperty. rewrite Hkey.
    apply bool_decide_eq_false_2. by intros [? ?]. }
  assert (∀ key, is_Some (template !! key) →
            hasOwnProperty template key = true) as Hsome.
  { intros key Hkey. unfold hasOwnProperty. by apply bool_decide_eq_true_2. }
  assert (@BulkImport.getCurrentStep Num AttendanceStep.bulkImportTemplate
          = "students") as Hattendance.
  { vm_compute. reflexivity. }
  unfold BulkImport.getCurrentStep.
  split_and!.
  - intros H1. by rewrite (Hsome _ H1).
  - intros H1 H2. by rewrite (Hnone _ H1), (Hsome _ H2).
  - intros H1 H2 H3. by rewrite (Hnone _ H1), (Hnone _ H2), (Hsome _ H3).
  - intros H1 H2 H3 H4.
    by rewrite (Hnone _ H1), (Hnone _ H2), (Hnone _ H3), (Hsome _ H4).
  - intros H1 H2 H3 H4.
    by rewrite (Hnone _ H1), (Hnone _ H2), (Hnone _ H3), (Hnone _ H4).
  - vm_compute. reflexivity.
  - vm_compute. reflexivity.
  - vm_compute. reflexivity.
  - vm_compute. reflexivity.
  - exact Hattendance.
  - unfold BulkImport.availableColumns, currentStep.
    fold (@BulkImport.getCurrentStep Num AttendanceStep.bulkImportTemplate).
    by rewrite Hattendance.
Qed.

(** The one issue an upload with no data rows reports. *)
Definition emptyCsvError : ValidationError :=
  {| type := format; field := None; row := None;
     message := "CSV file is empty"; value := None |}.

(** C7, as the code has it. An upload of a [.csv] file without data rows
    clears the errors, hides the mappings and the preview, turns the bulk
    toggle off, and reports exactly one issue, of type ['format'] with the
    message "CSV file is empty", in one open section. It produces no
    mappings, columns, rows or row validations: these cells, and the saved
    row validations, stay what they were before the upload. *)
Theorem handleFileUpload_empty_csv (file : File) (st : State)
  (firstRowKeys : list string) :
  endsWith (name file) ".csv" = true →
  papa file = PapaComplete [] firstRowKeys →
  handleFileUpload (Some file) st =
  {| stateErrors := [emptyCsvError];
     errorSections :=
       [{| sectionType := format; title := "Format Validation Errors";
           sectionErrors := [emptyCsvError]; isOpen := true |}];
     columnMappings := columnMappings st;
     showMappings := false;
     csvData := csvData st;
     showPreview := false;
     isDragging := isDragging st;
     csvColumns := csvColumns st;
     rowValidations := rowValidations st;
     excludeAllInvalid := false;
     originalRowValidations := originalRowValidations st |}.
Proof.
  intros Hname Hpapa. unfold BulkImport.handleFileUpload.
  rewrite Hname, Hpapa. reflexivity.
Qed.

(** The errors the checks of a date column push. *)
Definition missingValueError (field' : string) (index : nat)
  : ValidationError :=
  {| type := required; field := Some field'; row := Some (index + 1);
     value := None;
     message := "Missing required value for " ++ dq ++ field' ++ dq
                ++ " in row " ++ pretty (index + 1) |}.

Definition dateFormatError (field' : string) (index : nat)
  (value' : Value Num) : ValidationError :=
  {| type := format; field := Some field'; row := Some (index + 1);
     value := Some value';
     message := "Invalid date format in row " ++ pretty (index + 1)
                ++ " for " ++ dq ++ field' ++ dq
                ++ ". Expected YYYY-MM-DD, got " ++ dq ++ toString value'
                ++ dq |}.

(** C6, as the code has it. The date check looks at the shape of the value
    only. The pattern of the check accepts exactly the texts made of four
    digits, a hyphen, two digits, a hyphen and two digits. For a matched
    mapping onto [record_date], a column that is not typed as a number or a
    UUID, and whatever the cell holds: a value that is present (truthy)
    gets the error of type ['format'] exactly when its text is not of that
    shape, after the error for a missing required value if the field is
    required and the value blank; a value that is absent gets no format
    error. So ["2024-13-40"], which has the shape, is not flagged, and
    ["2024-1-5"], which has not, is. *)
Theorem date_check_is_shape_only (csvColumn' : string) (similarity' : Num)
  (manual' : bool) (row : Row) (index : nat)
  (acc : list ValidationError * list ValidationError) :
  COLUMN_TYPES !! "record_date" ≠ Some "numeric" →
  COLUMN_TYPES !! "record_date" ≠ Some "integer" →
  COLUMN_TYPES !! "record_date" ≠ Some "uuid" →
  let mapping :=
    {| csvColumn := csvColumn'; dbColumn := "record_date";
       similarity := similarity'; matched := true; manual := manual' |} in
  (∀ s, fullMatch dateRegex s = isDateShape s)
  ∧ (let value' := prop row csvColumn' in
     let checked :=
       if bool_decide ("record_date" ∈ requiredFields)
          && (negb (truthy value')
              || bool_decide (trim (toString value') = ""))
       then pushBoth acc (missingValueError "record_date" index)
       else acc in
     validateMapping row index acc mapping
     = if truthy value' && negb (isDateShape (toString value'))
       then pushBoth checked (dateFormatError "record_date" index value')
       else checked)
  ∧ (prop row csvColumn' = VStr "2024-13-40" →
     validateMapping row index acc mapping = acc
     ∧ validateData [mapping] [row]
       = ([], [{| rowIndex := 0; errors := []; excluded := false |}]))
  ∧ (prop row csvColumn' = VStr "2024-1-5" →
     validateMapping row index acc mapping =
     pushBoth acc
       {| type := format; field := Some "record_date";
          row := Some (index + 1); value := Some (VStr "2024-1-5");
          message := "Invalid date format in row " ++ pretty (index + 1)
                     ++ " for " ++ dq ++ "record_date" ++ dq
                     ++ ". Expected YYYY-MM-DD, got " ++ dq ++ "2024-1-5"
                     ++ dq |}).
Proof.
  intros Hnumeric Hinteger Huuid mapping.
  assert (∀ i a, prop row csvColumn' = VStr "2024-13-40" →
            validateMapping row i a mapping = a) as Hok.
  { intros i a Hcell. unfold BulkImport.validateMapping. simpl.
    rewrite Hcell.
    rewrite !(bool_decide_eq_false_2 (COLUMN_TYPES !! "record_date" = _))
      by done.
    destruct (bool_decide ("record_date" ∈ requiredFields)); reflexivity. }
  split_and!.
  - apply fullMatch_dateRegex.
  - unfold BulkImport.validateMapping. simpl.
    rewrite !(bool_decide_eq_false_2 (COLUMN_TYPES !! "record_date" = _))
      by done.
    rewrite fullMatch_dateRegex. simpl.
    unfold missingValueError, dateFormatError.
    destruct (bool_decide ("record_date" ∈ requiredFields)
              && (negb (truthy (prop row csvColumn'))
                  || bool_decide (trim (toString (prop row csvColumn')) = "")));
      destruct (truthy (prop row csvColumn')); simpl;
      destruct (isDateShape (toString (prop row csvColumn'))); reflexivity.
  - intros Hcell. split; [by apply Hok|].
    unfold BulkImport.validateData, forEachi. simpl.
    unfold BulkImport.validateRow. simpl. by rewrite Hok.
  - intros Hcell. unfold BulkImport.validateMapping. simpl.
    rewrite Hcell.
    rewrite !(bool_decide_eq_false_2 (COLUMN_TYPES !! "record_date" = _))
      by done.
    destruct (bool_decide ("record_date" ∈ requiredFields)); reflexivity.
Qed.
End Component.

End BulkImportFacts.

(** ** The attendance importer *)

Module AttendanceFacts.
Import Js AttendanceStep.

Section Component.
Context {Num : Type} `{!Runtime Num}.

Local Abbreviation AttendanceRecord := (@AttendanceRecord Num).
Local Abbreviation RawRow := (@RawRow Num).
Local Abbreviation State := (@State Num).
Local Abbreviation Acc := (list AttendanceRecord * list string)%type.

Context (students : list Student.t).
Context (schoolId : option string).
Context (watchedAttendanceYear : option string).

Local Abbreviation linkItRow := (linkItRow students schoolId).
Local Abbreviation standardRow := (standardRow students schoolId).
Local Abbreviation handleBulkImport :=
  (handleBulkImport students schoolId watchedAttendanceYear).
Local Abbreviation year := (attendanceYearFromFile watchedAttendanceYear).

(** A loop body that only pushes: what it adds for a row does not depend on
    what was collected before. *)
Definition pushes (body : Acc → RawRow → nat → Acc) : Prop :=
  ∀ acc row i,
    body acc row i = ((acc.1 ++ (body ([], []) row i).1)%list,
                      (acc.2 ++ (body ([], []) row i).2)%list).

(** The four ways a row fails. *)
Definition failure (what : string) : Prop :=
  what = "Missing student ID"
  ∨ (∃ studentId, what = "Student with ID " ++ studentId ++ " not found")
  ∨ what = "Missing required attendance data"
  ∨ (∃ resultDate, what = "Invalid date format " ++ resultDate).

(** A loop body that reports a failed row by one message naming the row,
    and pushes no record for it. *)
Definition namesRow (body : Acc → RawRow → nat → Acc) : Prop :=
  ∀ row i e, e ∈ (body ([], []) row i).2 →
    (body ([], []) row i).1 = []
    ∧ (body ([], []) row i).2 = [e]
    ∧ ∃ what, failure what ∧ e = "Row " ++ pretty (i + 1) ++ ": " ++ what.

Lemma buildRecord_pushes (acc : Acc) i student yr
  (a b c d e f g h k l m n : Value Num) :
  buildRecord schoolId acc i student yr a b c d e f g h k l m n =
  ((acc.1 ++ (buildRecord schoolId ([], []) i student yr
                a b c d e f g h k l m n).1)%list,
   (acc.2 ++ (buildRecord schoolId ([], []) i student yr
                a b c d e f g h k l m n).2)%list).
Proof.
  destruct acc as [processed importErrors].
  unfold buildRecord, rowError, push. simpl.
  destruct (_ || _); simpl; [by rewrite app_nil_r|].
  destruct (parseDate a); simpl; by rewrite app_nil_r.
Qed.

Lemma buildRecord_namesRow i student yr
  (a b c d e f g h k l m n : Value Num) (msg : string) :
  msg ∈ (buildRecord schoolId ([], []) i student yr
           a b c d e f g h k l m n).2 →
  (buildRecord schoolId ([], []) i student yr a b c d e f g h k l m n).1 = []
  ∧ (buildRecord schoolId ([], []) i student yr a b c d e f g h k l m n).2
    = [msg]
  ∧ ∃ what, failure what ∧ msg = "Row " ++ pretty (i + 1) ++ ": " ++ what.
Proof.
  unfold buildRecord, rowError, push, failure. simpl.
  destruct (_ || _); simpl.
  { intros ->%list_elem_of_singleton. naive_solver. }
  destruct (parseDate a); simpl.
  - by intros ?%elem_of_nil.
  - intros ->%list_elem_of_singleton. naive_solver.
Qed.

Lemma linkItRow_pushes yr : pushes (linkItRow yr).
Proof.
  intros [processed importErrors] [row|props] i; simpl;
    [|by rewrite !app_nil_r].
  destruct (truthy (at_ row 0)); simpl; [|by rewrite !app_nil_r].
  destruct (truthy (at_ row 2)); simpl; [|by rewrite !app_nil_r].
  destruct (findStudent students (at_ row 2)); simpl;
    [|by rewrite !app_nil_r].
  apply (buildRecord_pushes (processed, importErrors)).
Qed.

Lemma linkItRow_namesRow yr : namesRow (linkItRow yr).
Proof.
  intros [row|props] i e; simpl; [|by intros ?%elem_of_nil].
  destruct (truthy (at_ row 0)); simpl; [|by intros ?%elem_of_nil].
  destruct (truthy (at_ row 2)); simpl.
  2:{ intros ->%list_elem_of_singleton. unfold failure. naive_solver. }
  destruct (findStudent students (at_ row 2)); simpl.
  2:{ intros ->%list_elem_of_singleton. unfold failure. naive_solver. }
  apply buildRecord_namesRow.
Qed.

Lemma standardRow_pushes columnMap columnMatches yr :
  pushes (standardRow columnMap columnMatches yr).
Proof.
  intros [processed importErrors] [row|props] i; simpl;
    [|by rewrite !app_nil_r].
  destruct (truthy (at_ row 0)); simpl; [|by rewrite !app_nil_r].
  destruct (truthy (or _ _)); simpl; [|by rewrite !app_nil_r].
  destruct (findStudent students _); simpl; [|by rewrite !app_nil_r].
  apply (buildRecord_pushes (processed, importErrors)).
Qed.

Lemma standardRow_namesRow columnMap columnMatches yr :
  namesRow (standardRow columnMap columnMatches yr).
Proof.
  intros [row|props] i e; simpl; [|by intros ?%elem_of_nil].
  destruct (truthy (at_ row 0)); simpl; [|by intros ?%elem_of_nil].
  destruct (truthy (or _ _)); simpl.
  2:{ intros ->%list_elem_of_singleton. unfold failure. naive_solver. }
  destruct (findStudent students _); simpl.
  2:{ intros ->%list_elem_of_singleton. unfold failure. naive_solver. }
  apply buildRecord_namesRow.
Qed.

Lemma forEachFrom_pushes (body : Acc → RawRow → nat → Acc) :
  pushes body →
  ∀ start acc rows,
    forEachFrom body start acc rows =
    ((acc.1 ++ concat (imap (λ k row, (body ([], []) row (start + k)).1)
                         rows))%list,
     (acc.2 ++ concat (imap (λ k row, (body ([], []) row (start + k)).2)
                         rows))%list).
Proof.
  intros Hbody start acc rows. revert start acc.
  induction rows as [|row rows IH]; intros start acc; simpl.
  { rewrite !app_nil_r. by destruct acc. }
  rewrite IH, Hbody. simpl. rewrite Nat.add_0_r, <- !app_assoc.
  do 4 f_equal; apply imap_ext; intros k x _; simpl;
    by rewrite Nat.add_succ_r.
Qed.

(** The loop [handleBulkImport] runs on [raw], if it gets that far: its
    first index and its body. *)
Definition loopOf (raw : list RawRow)
  : option (nat * (Acc → RawRow → nat → Acc)) :=
  if isLinkItFormat raw then Some (8, linkItRow (year raw))
  else match prepareStandard raw with
       | Ready headerRow columnMap columnMatches =>
           Some (headerRow + 1, standardRow columnMap columnMatches (year raw))
       | _ => None
       end.

(** What processing the row at index [i] pushes: a record, an error, or
    nothing (also for a row the loop does not visit). *)
Definition rowResult (raw : list RawRow) (i : nat) : Acc :=
  match loopOf raw, raw !! i with
  | Some (start, body), Some row =>
      if bool_decide (start ≤ i) then body ([], []) row i else ([], [])
  | _, _ => ([], [])
  end.

(** The errors of all rows, in row order. *)
Definition importErrors (raw : list RawRow) : list string :=
  concat (imap (λ i _, (rowResult raw i).2) raw).

Lemma loopOf_body (raw : list RawRow) start body :
  loopOf raw = Some (start, body) → pushes body ∧ namesRow body.
Proof.
  unfold loopOf. destruct (isLinkItFormat raw).
  { intros [= <- <-]. split; [apply linkItRow_pushes|apply linkItRow_namesRow]. }
  destruct (prepareStandard raw); intros [= <- <-].
  split; [apply standardRow_pushes|apply standardRow_namesRow].
Qed.

Lemma handleBulkImport_loop (raw : list RawRow) (st : State) start body :
  loopOf raw = Some (start, body) →
  handleBulkImport raw st
  = commit (forEachFrom body start ([], []) (drop start raw)) st.
Proof.
  unfold loopOf, AttendanceStep.handleBulkImport, processLinkItFormat,
    linkItRows, processStandardFormat.
  destruct (isLinkItFormat raw); [by intros [= <- <-]|].
  destruct (prepareStandard raw); by intros [= <- <-].
Qed.

Lemma elem_of_concat {X} (x : X) (ls : list (list X)) :
  x ∈ concat ls ↔ ∃ l, l ∈ ls ∧ x ∈ l.
Proof.
  rewrite list_elem_of_In, in_concat.
  split; intros (l & Hl & Hx); exists l;
    by rewrite ?list_elem_of_In in *.
Qed.

Lemma concat_nil_all {X} (ls : list (list X)) :
  Forall (λ l, l = []) ls → concat ls = [].
Proof. induction 1 as [|l ls -> _ IH]; simpl; done. Qed.

Lemma loop_importErrors (raw : list RawRow) start body :
  loopOf raw = Some (start, body) →
  (forEachFrom body start ([], []) (drop start raw)).2 = importErrors raw.
Proof.
  intros Hloop. destruct (loopOf_body _ _ _ Hloop) as [Hpushes _].
  rewrite forEachFrom_pushes by done. simpl.
  unfold importErrors.
  trans (concat (imap (λ i (_ : RawRow), (rowResult raw i).2)
                   (take start raw ++ drop start raw)));
    [|by rewrite take_drop].
  rewrite imap_app, concat_app.
  rewrite (concat_nil_all (imap _ (take start raw))). 
  2:{ apply Forall_forall. intros l [i [x [-> Hi]]]%elem_of_lookup_imap.
      unfold rowResult. rewrite Hloop.
      apply lookup_lt_Some in Hi. rewrite length_take in Hi.
      destruct (raw !! i); [|done].
      by rewrite bool_decide_eq_false_2 by lia. }
  simpl. f_equal. apply imap_ext. intros k row Hk. simpl.
  rewrite lookup_drop in Hk.
  assert (start ≤ length raw) as Hle.
  { apply lookup_lt_Some in Hk. lia. }
  rewrite length_take, Nat.min_l by done.
  unfold rowResult. rewrite Hloop, Hk.
  by rewrite bool_decide_eq_true_2 by lia.
Qed.

Lemma importErrors_elem (raw : list RawRow) (e : string) :
  e ∈ importErrors raw ↔ ∃ i, i < length raw ∧ e ∈ (rowResult raw i).2.
Proof.
  unfold importErrors. rewrite elem_of_concat. split.
  - intros (l & [i [x [-> Hi]]]%elem_of_lookup_imap & He).
    exists i. split; [by eapply lookup_lt_Some|done].
  - intros (i & Hi & He). exists (rowResult raw i).2. split; [|done].
    apply elem_of_lookup_imap.
    destruct (lookup_lt_is_Some_2 raw i Hi) as [x Hx]. eauto.
Qed.

Lemma rowResult_namesRow (raw : list RawRow) (i : nat) (e : string) :
  e ∈ (rowResult raw i).2 →
  (rowResult raw i).1 = [] ∧ (rowResult raw i).2 = [e]
  ∧ ∃ what, failure what ∧ e = "Row " ++ pretty (i + 1) ++ ": " ++ what.
Proof.
  unfold rowResult.
  destruct (loopOf raw) as [[start body]|] eqn:Hloop;
    [|by intros ?%elem_of_nil].
  destruct (raw !! i) as [row|]; [|by intros ?%elem_of_nil].
  case_bool_decide; [|by intros ?%elem_of_nil].
  destruct (loopOf_body _ _ _ Hloop) as [_ Hnames]. apply Hnames.
Qed.

(** What the loop of either format reads from a row before it builds a
    record: the student id and the seven required values. *)
Record Reading : Type := {
  readStudentId : Value Num;
  readResultDate : Value Num;
  readTotalDaysPresent : Value Num;
  readTotalDaysPossible : Value Num;
  readFyAbsencesTotal : Value Num;
  readFyAbsencesExcused : Value Num;
  readFyAbsencesUnexcused : Value Num;
  readFyTardiesTotal : Value Num;
}.

(** The fixed layout: column C, column T and columns W to AB. *)
Definition readLinkIt (cells : list (Value Num)) : Reading :=
  {| readStudentId := at_ cells 2;
     readResultDate := at_ cells 19;
     readTotalDaysPresent := at_ cells 22;
     readTotalDaysPossible := at_ cells 23;
     readFyAbsencesTotal := at_ cells 24;
     readFyAbsencesExcused := at_ cells 25;
     readFyAbsencesUnexcused := at_ cells 26;
     readFyTardiesTotal := at_ cells 27 |}.

(** The standard path: the cells under the matched headers, each value
    looked up under its names in turn. *)
Definition readStandard (columnMap : gmap string nat)
  (columnMatches : list ColumnMatch) (cells : list (Value Num)) : Reading :=
  let get := getValue columnMap columnMatches cells in
  {| readStudentId :=
       or (or (or (get "school_student_id") (get "ID")) (get "Student ID"))
          (get "StudentID");
     readResultDate :=
       or (or (get "record_date") (get "Result Date")) (get "Date");
     readTotalDaysPresent :=
       or (or (get "total_days_present") (get "Total Days Present"))
          (get "Days Present");
     readTotalDaysPossible :=
       or (or (get "total_days_possible") (get "Total Days Possible"))
          (get "Days Possible");
     readFyAbsencesTotal :=
       or (or (get "fy_absences_total") (get "FY Absences (Total Days)"))
          (get "Total Absences");
     readFyAbsencesExcused :=
       or (or (get "fy_absences_excused") (get "FY Absences (Excused Days)"))
          (get "Excused Absences");
     readFyAbsencesUnexcused :=
       or (or (get "fy_absences_unexcused")
              (get "FY Absences (Unexcused Days)"))
          (get "Unexcused Absences");
     readFyTardiesTotal :=
       or (or (get "fy_tardies_total") (get "FY Tardies (Total Days)"))
          (get "Total Tardies") |}.

(** Why a row with this reading fails, if it does: no student id; no
    student of the students step with that id; one of the seven required
    values missing; or a date that cannot be parsed. *)
Definition failureOf (reading : Reading) : option string :=
  if negb (truthy (readStudentId reading)) then Some "Missing student ID"
  else
    match findStudent students (readStudentId reading) with
    | None =>
        Some ("Student with ID " ++ toString (readStudentId reading)
              ++ " not found")
    | Some _ =>
        if negb (truthy (readResultDate reading))
           || negb (truthy (readTotalDaysPresent reading))
           || negb (truthy (readTotalDaysPossible reading))
           || negb (truthy (readFyAbsencesTotal reading))
           || negb (truthy (readFyAbsencesExcused reading))
           || negb (truthy (readFyAbsencesUnexcused reading))
           || negb (truthy (readFyTardiesTotal reading))
        then Some "Missing required attendance data"
        else
          match parseDate (readResultDate reading) with
          | None =>
              Some ("Invalid date format "
                    ++ toString (readResultDate reading))
          | Some _ => None
          end
    end.

(** The reading of the row at index [i], when the import processes it: the
    row is an array whose first cell is not empty, and it comes after the
    heading of the fixed layout, or after the header row of a sheet whose
    header was found and matched. *)
Definition readingAt (raw : list RawRow) (i : nat) : option Reading :=
  match raw !! i with
  | Some (RowArray cells) =>
      if negb (truthy (at_ cells 0)) then None
      else if isLinkItFormat raw then
        if bool_decide (8 ≤ i) then Some (readLinkIt cells) else None
      else
        match prepareStandard raw with
        | Ready headerRow columnMap columnMatches =>
            if bool_decide (headerRow + 1 ≤ i)
            then Some (readStandard columnMap columnMatches cells)
            else None
        | _ => None
        end
  | _ => None
  end.

Lemma append_inj_r (p a b : string) : p ++ a = p ++ b → a = b.
Proof.
  induction p as [|c p IH]; [intros H; exact H|].
  change (String c (p ++ a) = String c (p ++ b) → a = b).
  intros [= H]. by apply IH.
Qed.

(** The errors of a row are those of its reading. *)
Lemma rowResult_reading (raw : list RawRow) (i : nat) :
  (rowResult raw i).2
  = match readingAt raw i with
    | Some reading =>
        match failureOf reading with
        | Some what => ["Row " ++ pretty (i + 1) ++ ": " ++ what]
        | None => []
        end
    | None => []
    end.
Proof.
  unfold rowResult, loopOf, readingAt.
  destruct (raw !! i) as [[cells|props]|].
  - destruct (isLinkItFormat raw).
    + destruct (truthy (at_ cells 0)) eqn:Hfirst; simpl;
        case_bool_decide; simpl; rewrite ?Hfirst; simpl; try done.
      unfold failureOf, readLinkIt. simpl.
      destruct (truthy (at_ cells 2)); simpl; [|done].
      destruct (findStudent students (at_ cells 2)); simpl; [|done].
      unfold buildRecord.
      destruct (_ || _); simpl; [done|].
      by destruct (parseDate (at_ cells 19)).
    + destruct (prepareStandard raw) as [| |headerRow columnMap columnMatches];
        try by destruct (truthy (at_ cells 0)).
      destruct (truthy (at_ cells 0)) eqn:Hfirst; simpl;
        case_bool_decide; simpl; rewrite ?Hfirst; simpl; try done.
      unfold failureOf, readStandard. simpl.
      destruct (truthy (or _ _)); simpl; [|done].
      destruct (findStudent students _); simpl; [|done].
      unfold buildRecord.
      destruct (_ || _); simpl; [done|].
      by destruct (parseDate _).
  - destruct (isLinkItFormat raw); [by case_bool_decide|].
    destruct (prepareStandard raw); try done. by case_bool_decide.
  - destruct (isLinkItFormat raw); [done|].
    by destruct (prepareStandard raw).
Qed.

Lemma readingAt_lt (raw : list RawRow) (i : nat) (reading : Reading) :
  readingAt raw i = Some reading → i < length raw.
Proof.
  unfold readingAt. destruct (raw !! i) eqn:Hrow; [|done].
  intros _. by eapply lookup_lt_Some.
Qed.

(** C4. A row that the import of either format processes fails when its
    reading has no student id, an id no student has, a required value
    missing, or a date that cannot be parsed. When the row at some index
    fails, it gives one error, [Row n: ...] with [n] its index plus one,
    and no record, and [handleBulkImport] appends nothing: the cached list
    is the one of before and [onUpdate] is not called. The banner shows the
    first errors, ten at most, in row order. Every error comes from one
    processed row whose reading fails in one of the four ways, which gave
    no record, and names that row. *)
Theorem handleBulkImport_rejects_whole_batch (raw : list RawRow) (st : State)
  (i : nat) (reading : Reading) (what : string) :
  readingAt raw i = Some reading →
  failureOf reading = Some what →
  let msg := "Row " ++ pretty (i + 1) ++ ": " ++ what in
  rowResult raw i = ([], [msg])
  ∧ failure what
  ∧ msg ∈ importErrors raw
  ∧ cachedData (handleBulkImport raw st) = cachedData st
  ∧ onUpdateCalls (handleBulkImport raw st) = onUpdateCalls st
  ∧ error (handleBulkImport raw st)
    = Some (join newline (take 10 (importErrors raw)))
  ∧ 0 < length (take 10 (importErrors raw)) ≤ 10
  ∧ Forall (λ e, ∃ j reading' what',
              j < length raw
              ∧ readingAt raw j = Some reading'
              ∧ failureOf reading' = Some what'
              ∧ rowResult raw j = ([], [e])
              ∧ failure what'
              ∧ e = "Row " ++ pretty (j + 1) ++ ": " ++ what')
      (importErrors raw).
Proof.
  intros Hreading Hfails msg.
  assert (∀ j e, e ∈ (rowResult raw j).2 →
            ∃ reading' what',
              readingAt raw j = Some reading'
              ∧ failureOf reading' = Some what'
              ∧ rowResult raw j = ([], [e])
              ∧ failure what'
              ∧ e = "Row " ++ pretty (j + 1) ++ ": " ++ what') as Hcause.
  { intros j e He.
    destruct (rowResult_namesRow raw j e He) as (H1 & H2 & what' & Hw & ->).
    pose proof (rowResult_reading raw j) as Hj. rewrite H2 in Hj.
    destruct (readingAt raw j) as [reading'|]; [|done].
    destruct (failureOf reading') as [what''|] eqn:Hwhat''; [|done].
    injection Hj as Hj.
    do 3 apply append_inj_r in Hj. subst what''.
    exists reading', what'. split_and!; [done|done| |done|done].
    destruct (rowResult raw j) as [records errors'].
    simpl in *. by subst. }
  assert (msg ∈ (rowResult raw i).2) as Hmsg.
  { rewrite rowResult_reading, Hreading, Hfails. apply list_elem_of_here. }
  assert (i < length raw) as Hi by by eapply readingAt_lt.
  assert (msg ∈ importErrors raw) as Hin.
  { apply importErrors_elem. eauto. }
  assert (0 < length (importErrors raw)) as Hlen.
  { destruct (importErrors raw); [by apply elem_of_nil in Hin|simpl; lia]. }
  destruct (rowResult_namesRow raw i msg Hmsg)
    as (Hnone & Hone & what' & Hw & Heq).
  destruct (loopOf raw) as [[start body]|] eqn:Hloop.
  2:{ unfold rowResult in Hmsg. rewrite Hloop in Hmsg.
      by apply elem_of_nil in Hmsg. }
  rewrite (handleBulkImport_loop raw st start body Hloop).
  pose proof (loop_importErrors raw start body Hloop) as Herrors.
  destruct (forEachFrom body start ([], []) (drop start raw))
    as [processed errors]. simpl in Herrors. subst errors.
  unfold commit. rewrite bool_decide_eq_true_2 by done. simpl.
  split_and!; try done.
  - destruct (rowResult raw i) as [records errors']. simpl in *. by subst.
  - unfold msg in Heq. do 3 apply append_inj_r in Heq. by subst.
  - rewrite length_take. lia.
  - rewrite length_take. lia.
  - apply Forall_forall. intros e [j [Hj He]]%importErrors_elem.
    destruct (Hcause j e He) as (reading' & what'' & ? & ? & ? & ? & ?).
    exists j, reading', what''. by split_and!.
Qed.
End Component.

End AttendanceFacts.

(** ** Runs of the model *)

Module Examples.
Import Js BulkImport.

(** A small runtime to run the model on: the numbers are the integers and
    [NaN], [Number] reads decimal digits, and [Date] accepts the dates
    already written YYYY-MM-DD. The runs below use strings only. *)
Definition digitsToZ (s : string) : option Z :=
  if bool_decide (s = "") then None
  else foldl (λ acc c,
         z ← acc;
         if isDigit c then Some (10 * z + Z.of_N (code c) - 48)%Z else None)
       (Some 0%Z) (list_ascii_of_string s).

#[local] Instance integerRuntime : Runtime (option Z) := {|
  numOfZ z := Some z;
  numNaN := None;
  numIsNaN x := bool_decide (x = None);
  numTruthy x := match x with Some z => negb (z =? 0)%Z | None => false end;
  numToString x := match x with Some z => pretty z | None => "NaN" end;
  stringToNumber s :=
    if bool_decide (trim s = "") then Some 0%Z else digitsToZ (trim s);
  numLtb x y :=
    match x, y with Some a, Some b => (a <? b)%Z | _, _ => false end;
  nativeDate v :=
    match v with
    | VStr s => if fullMatch dateRegex s then Some s else None
    | _ => None
    end;
  typeErrorMessage receiver method :=
    receiver ++ "." ++ method ++ " is not a function";
|}.

Local Abbreviation Num := (option Z).
Local Abbreviation Row := (gmap string (Value Num)).

(** The props of a students import: a template with the key
    [guardian1_name], by which [getCurrentStep] knows the step. *)
Definition requiredFields : list string :=
  ["school_student_id"; "first_name"; "last_name"].

Definition template : Row :=
  {[ "school_student_id" := VStr "S123"; "first_name" := VStr "Ada";
     "last_name" := VStr "Byron"; "guardian1_name" := VStr "Anne";
     "guardian1_email" := VStr "anne@example.org" ]}.

(** Modelled from the spec: [AVAILABLE_COLUMNS] and [COLUMN_TYPES] of
    [./bulk-import/constants] are not part of the sources at hand. The
    sample holds the student fields the specification names, and types
    the date fields as dates. *)
Definition AVAILABLE_COLUMNS : gmap string (list string) :=
  {[ "students" := ["school_student_id"; "first_name"; "last_name";
                    "guardian1_name"; "guardian1_email"; "date_of_birth"] ]}.

Definition COLUMN_TYPES : gmap string string :=
  {[ "school_student_id" := "text"; "first_name" := "text";
     "last_name" := "text"; "guardian1_name" := "text";
     "guardian1_email" := "text"; "date_of_birth" := "date";
     "record_date" := "date" ]}.

Definition mappingOf (csvColumn' dbColumn' : string) (manual' : bool)
  : @ColumnMapping Num :=
  {| csvColumn := csvColumn'; dbColumn := dbColumn'; similarity := Some 1%Z;
     matched := true; manual := manual' |}.

(** The state after the upload of a one-row file with the headers [ID] and
    [Contact], matched to [school_student_id] and [guardian1_name]. *)
Definition loaded : @State Num :=
  {| stateErrors := []; errorSections := [];
     columnMappings := [mappingOf "ID" "school_student_id" false;
                        mappingOf "Contact" "guardian1_name" false];
     showMappings := true;
     csvData := [{[ "ID" := VStr "S1"; "Contact" := VStr "not-an-email" ]}];
     showPreview := false; isDragging := false;
     csvColumns := ["ID"; "Contact"];
     rowValidations := [{| rowIndex := 0; errors := []; excluded := false |}];
     excludeAllInvalid := false;
     originalRowValidations :=
       [{| rowIndex := 0; errors := []; excluded := false |}] |}.

(** C5, where the code departs from it. The mapping of [Contact] is edited
    to the allowed target [guardian1_email]. The mapping is replaced, but
    the rows are validated under the mappings of before the edit: the row
    validation has no error and the error list is empty, while the row,
    validated under the mappings the state now holds, has an invalid email
    address. *)
Theorem handleSaveMapping_validates_under_old_mappings :
  let st' :=
    handleSaveMapping requiredFields template AVAILABLE_COLUMNS COLUMN_TYPES
      1 "Contact" "guardian1_email" loaded in
  columnMappings st' = [mappingOf "ID" "school_student_id" false;
                        mappingOf "Contact" "guardian1_email" true]
  ∧ rowValidations st'
    = [{| rowIndex := 0; errors := []; excluded := false |}]
  ∧ stateErrors st' = []
  ∧ validateData requiredFields COLUMN_TYPES (columnMappings st') (csvData st')
    = (let error :=
         {| type := format; field := Some "guardian1_email"; row := Some 1;
            value := Some (VStr "not-an-email");
            message := "Invalid email format in row 1: " ++ dq
                       ++ "not-an-email" ++ dq |} in
       ([error],
        [{| rowIndex := 0; errors := [error]; excluded := false |}])).
Proof. vm_compute. repeat split. Qed.

(** C6 as stated does not hold: a row whose [record_date] is
    ["2024-13-40"] is validated without any issue. *)
Lemma date_2024_13_40_is_not_flagged :
  validateData AttendanceStep.bulkImportRequiredFields COLUMN_TYPES
    [mappingOf "Date" "record_date" false]
    [{[ "Student ID" := VStr "S1"; "Date" := VStr "2024-13-40" ]}]
  = ([], [{| rowIndex := 0; errors := []; excluded := false |}]).
Proof. vm_compute. reflexivity. Qed.

Lemma date_check_is_shape_only_witness :
  validateMapping AttendanceStep.bulkImportRequiredFields COLUMN_TYPES
    ({[ "Student ID" := VStr "S1"; "Date" := VStr "2024-13-40" ]} : Row) 0
    ([], []) (mappingOf "Date" "record_date" false)
  = ([], [])
  ∧ (validateMapping AttendanceStep.bulkImportRequiredFields COLUMN_TYPES
       ({[ "Student ID" := VStr "S1"; "Date" := VStr "05/01/2024" ]} : Row) 0
       ([], []) (mappingOf "Date" "record_date" false)).2
    = [BulkImportFacts.dateFormatError "record_date" 0 (VStr "05/01/2024")].
Proof.
  split.
  - apply (BulkImportFacts.date_check_is_shape_only
             AttendanceStep.bulkImportRequiredFields COLUMN_TYPES
             "Date" (Some 1%Z) false).
    + vm_compute. discriminate.
    + vm_compute. discriminate.
    + vm_compute. discriminate.
    + vm_compute. reflexivity.
  - destruct (BulkImportFacts.date_check_is_shape_only
                AttendanceStep.bulkImportRequiredFields COLUMN_TYPES
                "Date" (Some 1%Z) false
                ({[ "Student ID" := VStr "S1";
                    "Date" := VStr "05/01/2024" ]} : Row) 0 ([], []))
      as (_ & Hchecked & _).
    + vm_compute. discriminate.
    + vm_compute. discriminate.
    + vm_compute. discriminate.
    + unfold mappingOf. rewrite Hchecked. vm_compute. reflexivity.
Defined.

(** A [.csv] file without data rows. *)
Definition emptyCsv : @File Num :=
  {| name := "students.csv"; papa := PapaComplete [] [];
     xlsx := ReaderError |}.

(** C7 as stated does not hold: after the upload of an empty file the
    mappings, columns, rows and row validations of the upload before are
    still in the state. *)
Lemma empty_upload_keeps_previous_rows :
  let st' :=
    handleFileUpload requiredFields template AVAILABLE_COLUMNS COLUMN_TYPES
      (λ _ _, []) (Some emptyCsv) loaded in
  columnMappings st' = [mappingOf "ID" "school_student_id" false;
                        mappingOf "Contact" "guardian1_name" false]
  ∧ csvColumns st' = ["ID"; "Contact"]
  ∧ csvData st' = [{[ "ID" := VStr "S1"; "Contact" := VStr "not-an-email" ]}]
  ∧ rowValidations st'
    = [{| rowIndex := 0; errors := []; excluded := false |}].
Proof. vm_compute. repeat split. Qed.

Lemma handleFileUpload_empty_csv_witness :
  stateErrors
    (handleFileUpload requiredFields template AVAILABLE_COLUMNS COLUMN_TYPES
       (λ _ _, []) (Some emptyCsv) loaded)
  = [BulkImportFacts.emptyCsvError].
Proof.
  rewrite (BulkImportFacts.handleFileUpload_empty_csv requiredFields template
             AVAILABLE_COLUMNS COLUMN_TYPES (λ _ _, []) emptyCsv loaded []).
  - reflexivity.
  - vm_compute. reflexivity.
  - reflexivity.
Defined.

(** Two rows, the second with an error and excluded by hand. *)
Definition reviewed : @State Num :=
  {| stateErrors := []; errorSections := [];
     columnMappings := [mappingOf "ID" "school_student_id" false];
     showMappings := true;
     csvData := [{[ "ID" := VStr "S1" ]}; {[ "ID" := VStr "" ]}];
     showPreview := true; isDragging := false;
     csvColumns := ["ID"];
     rowValidations :=
       [{| rowIndex := 0; errors := []; excluded := true |};
        {| rowIndex := 1;
           errors := [{| type := required; field := Some "school_student_id";
                         row := Some 2; value := None;
                         message := "Missing required value" |}];
           excluded := false |}];
     excludeAllInvalid := false;
     originalRowValidations := [] |}.

Lemma toggleExcludeAllInvalid_twice_restores_witness :
  rowValidations (toggleExcludeAllInvalid (toggleExcludeAllInvalid reviewed))
  = rowValidations reviewed
  ∧ excluded <$> rowValidations (toggleExcludeAllInvalid reviewed)
    = [true; true].
Proof.
  split.
  - apply (BulkImportFacts.toggleExcludeAllInvalid_twice_restores reviewed).
    reflexivity.
  - reflexivity.
Defined.

(** A sheet in the fixed layout: eight rows of heading, a complete row for
    the student [S1], and a row for the same student whose cell W (total
    days present) is empty. *)
Definition heading (label : string) : @AttendanceStep.RawRow Num :=
  AttendanceStep.RowArray [VStr label; VStr "2024-2025"].

Definition sheetRow (number studentId totalDaysPresent : Value Num)
  : @AttendanceStep.RawRow Num :=
  AttendanceStep.RowArray
    ([number; VStr "Ada Byron"; studentId] ++ replicate 16 VNull
     ++ [VStr "2024-01-05"; VNull; VStr "97"; totalDaysPresent; VStr "180";
         VStr "10"; VStr "6"; VStr "4"; VStr "3"])%list.

Definition sheet : list (@AttendanceStep.RawRow Num) :=
  [heading "Export Date"; heading "School Year"; heading "District";
   heading "School"; heading "Grade"; heading "Term"; heading "Report";
   AttendanceStep.RowArray [VStr "#"; VStr "Name"; VStr "ID"];
   sheetRow (VStr "1") (VStr "S1") (VStr "170");
   sheetRow (VStr "2") (VStr "S1") VNull].

Definition students : list Student.t :=
  [{| Student.student_id := "7f9c2a";
      Student.school_student_id := Some "S1";
      Student.first_name := "Ada"; Student.last_name := "Byron" |}].

Definition attendance : @AttendanceStep.State Num :=
  {| AttendanceStep.cachedData := []; AttendanceStep.error := None;
     AttendanceStep.onUpdateCalls := [] |}.

(** A sheet with a header row: a complete row for the student [S1], and a
    row without a student id. *)
Definition standardSheet : list (@AttendanceStep.RawRow Num) :=
  [AttendanceStep.RowArray
     [VStr "#"; VStr "Student ID"; VStr "Date"; VStr "Days Present";
      VStr "Days Possible"; VStr "Total Absences"; VStr "Excused Absences";
      VStr "Unexcused Absences"; VStr "Total Tardies"];
   AttendanceStep.RowArray
     [VStr "1"; VStr "S1"; VStr "2024-01-05"; VStr "170"; VStr "180";
      VStr "10"; VStr "6"; VStr "4"; VStr "3"];
   AttendanceStep.RowArray
     [VStr "2"; VStr ""; VStr "2024-01-06"; VStr "171"; VStr "180";
      VStr "9"; VStr "6"; VStr "3"; VStr "3"]].

Lemma handleBulkImport_rejects_whole_batch_witness :
  (AttendanceStep.cachedData
     (AttendanceStep.handleBulkImport students (Some "school-1")
        (Some "2024-2025") sheet attendance)
   = []
   ∧ AttendanceStep.error
       (AttendanceStep.handleBulkImport students (Some "school-1")
          (Some "2024-2025") sheet attendance)
     = Some "Row 10: Missing required attendance data"
   ∧ (AttendanceFacts.rowResult students (Some "school-1") (Some "2024-2025")
        sheet 8).2 = [])
  ∧ (AttendanceStep.cachedData
       (AttendanceStep.handleBulkImport students (Some "school-1")
          (Some "2024-2025") standardSheet attendance)
     = []
     ∧ AttendanceStep.error
         (AttendanceStep.handleBulkImport students (Some "school-1")
            (Some "2024-2025") standardSheet attendance)
       = Some "Row 3: Missing student ID"
     ∧ (AttendanceFacts.rowResult students (Some "school-1")
          (Some "2024-2025") standardSheet 1).2 = []).
Proof.
  split.
  - edestruct (AttendanceFacts.handleBulkImport_rejects_whole_batch
                 students (Some "school-1") (Some "2024-2025") sheet
                 attendance 9)
      as (_ & _ & _ & Hcached & _ & Herror & _).
    + vm_compute. reflexivity.
    + vm_compute. reflexivity.
    + split_and!.
      * exact Hcached.
      * rewrite Herror. vm_compute. reflexivity.
      * vm_compute. reflexivity.
  - edestruct (AttendanceFacts.handleBulkImport_rejects_whole_batch
                 students (Some "school-1") (Some "2024-2025") standardSheet
                 attendance 2)
      as (_ & _ & _ & Hcached & _ & Herror & _).
    + vm_compute. reflexivity.
    + vm_compute. reflexivity.
    + split_and!.
      * exact Hcached.
      * rewrite Herror. vm_compute. reflexivity.
      * vm_compute. reflexivity.
Defined.
End Examples.

(** ** More on the generic importer *)

Module BulkImportMore.
Import Js BulkImport BulkImportFacts.

Section Component.
Context {Num : Type} `{!Runtime Num}.

Local Abbreviation Row := (gmap string (Value Num)).
Local Abbreviation ColumnMapping := (@ColumnMapping Num).
Local Abbreviation ValidationError := (@ValidationError Num).
Local Abbreviation RowValidation := (@RowValidation Num).
Local Abbreviation ErrorSection := (@ErrorSection Num).
Local Abbreviation State := (@State Num).

Context (requiredFields : list string).
Context (template : Row).
Context (AVAILABLE_COLUMNS : gmap string (list string)).
Context (COLUMN_TYPES : gmap string string).
Context (findBestColumnMatches : list string → list string → list ColumnMapping).

Local Abbreviation validateMapping := (validateMapping requiredFields COLUMN_TYPES).
Local Abbreviation validateRow := (validateRow requiredFields COLUMN_TYPES).
Local Abbreviation validateData := (validateData requiredFields COLUMN_TYPES).
Local Abbreviation rowErrorsOf := (rowErrorsOf requiredFields COLUMN_TYPES).
Local Abbreviation availableColumns := (availableColumns template AVAILABLE_COLUMNS).
Local Abbreviation loadRows :=
  (loadRows requiredFields template AVAILABLE_COLUMNS COLUMN_TYPES
     findBestColumnMatches).
Local Abbreviation handleFileUpload :=
  (handleFileUpload requiredFields template AVAILABLE_COLUMNS COLUMN_TYPES
     findBestColumnMatches).
Local Abbreviation handleSaveMapping :=
  (handleSaveMapping requiredFields template AVAILABLE_COLUMNS COLUMN_TYPES).
Local Abbreviation handleAddMapping :=
  (handleAddMapping template AVAILABLE_COLUMNS).
Local Abbreviation validateRequiredColumns :=
  (validateRequiredColumns requiredFields).
Local Abbreviation handleShowPreview := (handleShowPreview requiredFields).

(** [validateData] as two maps over the rows. *)
Lemma validateData_imap (columnMappings : list ColumnMapping)
  (data : list Row) :
  validateData columnMappings data =
  (concat (imap (λ i row, rowErrorsOf columnMappings row i) data),
   imap (λ i row, {| rowIndex := i;
                     errors := rowErrorsOf columnMappings row i;
                     excluded := false |}) data).
Proof.
  unfold BulkImport.validateData, forEachi.
  assert (∀ start acc,
    forEachFrom (validateRow columnMappings) start acc data =
    ((acc.1 ++ concat (imap (λ i row, rowErrorsOf columnMappings row
                                        (start + i)) data))%list,
     (acc.2 ++ imap (λ i row,
         {| rowIndex := start + i;
            errors := rowErrorsOf columnMappings row (start + i);
            excluded := false |}) data)%list)) as Hgen.
  { induction data as [|row data IH]; intros start acc; simpl.
    { rewrite !app_nil_r. by destruct acc. }
    rewrite IH, validateRow_eq. simpl. rewrite <- !app_assoc. simpl.
    rewrite Nat.add_0_r. f_equal.
    - do 3 f_equal. apply imap_ext. intros i x _. simpl.
      by rewrite Nat.add_succ_r.
    - do 2 f_equal. apply imap_ext. intros i x _. simpl.
      by rewrite Nat.add_succ_r. }
  rewrite Hgen. done.
Qed.

(** X1. The flat error list [validateData] returns is the concatenation of
    the errors of the row validations, in row order. *)
Theorem validateData_errors_are_row_errors
  (columnMappings : list ColumnMapping) (data : list Row) :
  (validateData columnMappings data).1 =
  concat (errors <$> (validateData columnMappings data).2).
Proof.
  rewrite validateData_imap. simpl. f_equal.
  rewrite fmap_imap. done.
Qed.

Lemma rowErrorsOf_cons (mapping : ColumnMapping)
  (columnMappings : list ColumnMapping) (row : Row) (index : nat) :
  rowErrorsOf (mapping :: columnMappings) row index =
  ((validateMapping row index ([], []) mapping).2
   ++ rowErrorsOf columnMappings row index)%list.
Proof.
  unfold BulkImportFacts.rowErrorsOf at 1. simpl.
  rewrite (validateMapping_acc _ _ _ _ [] []). simpl.
  rewrite foldl_validateMapping. done.
Qed.

Lemma rowErrorsOf_elem (columnMappings : list ColumnMapping) (row : Row)
  (index : nat) (e : ValidationError) :
  e ∈ rowErrorsOf columnMappings row index ↔
  ∃ mapping, mapping ∈ columnMappings
             ∧ e ∈ (validateMapping row index ([], []) mapping).2.
Proof.
  induction columnMappings as [|m ms IH].
  { split; [by intros ?%elem_of_nil|by intros (? & ?%elem_of_nil & _)]. }
  rewrite rowErrorsOf_cons, elem_of_app, IH. split.
  - intros [He|(m' & Hm' & He)]; [exists m|exists m'];
      (split; [|done]); [left|by right].
  - intros (m' & [->|Hm']%elem_of_cons & He); [by left|right; eauto].
Qed.

(** What the errors of one mapping look like. *)
Lemma validateMapping_error (row : Row) (index : nat) (mapping : ColumnMapping)
  (e : ValidationError) :
  e ∈ (validateMapping row index ([], []) mapping).2 →
  matched mapping = true
  ∧ BulkImport.row e = Some (index + 1)
  ∧ field e = Some (dbColumn mapping)
  ∧ ((type e = required ∧ value e = None
      ∧ dbColumn mapping ∈ requiredFields)
     ∨ (type e = format
        ∧ value e = Some (prop row (csvColumn mapping))
        ∧ truthy (prop row (csvColumn mapping)) = true)).
Proof.
  unfold BulkImport.validateMapping, pushBoth, push.
  destruct (matched mapping); simpl; [|by intros ?%elem_of_nil].
  repeat match goal with
         | |- context [if ?b then _ else _] => destruct b eqn:?; simpl
         end;
    rewrite ?elem_of_cons, ?elem_of_nil; intros He;
    repeat match goal with
           | H : _ ∨ _ |- _ => destruct H as [H|H]
           | H : False |- _ => destruct H
           | H : _ && _ = true |- _ => apply andb_prop in H as [? ?]
           | H : bool_decide _ = true |- _ => apply bool_decide_eq_true_1 in H
           end; subst e; simpl; split_and!; eauto.
Qed.

(** X2. Every error of a row validation belongs to its row and to a matched
    mapping: at position [i] it carries the row number [i + 1] and the
    target field of a matched mapping; it is either of type ['required'],
    without a value and on a required field, or of type ['format'], with
    the non-empty cell of that mapping as its value. [validateData] gives no
    error of type ['mapping']. *)
Theorem validateData_errors_name_row_and_field
  (columnMappings : list ColumnMapping) (data : list Row) (i : nat)
  (rv : RowValidation) (e : ValidationError) :
  (validateData columnMappings data).2 !! i = Some rv →
  e ∈ errors rv →
  ∃ row m,
    data !! i = Some row
    ∧ m ∈ columnMappings
    ∧ matched m = true
    ∧ BulkImport.row e = Some (i + 1)
    ∧ field e = Some (dbColumn m)
    ∧ type e ≠ mapping
    ∧ ((type e = required ∧ value e = None ∧ dbColumn m ∈ requiredFields)
       ∨ (type e = format
          ∧ value e = Some (prop row (csvColumn m))
          ∧ truthy (prop row (csvColumn m)) = true)).
Proof.
  rewrite validateData_imap. simpl. rewrite list_lookup_imap.
  destruct (data !! i) as [row|] eqn:Hrow; [|done].
  intros [= <-]. simpl.
  intros (m & Hm & He)%rowErrorsOf_elem.
  destruct (validateMapping_error _ _ _ _ He) as (Hmatched & Hr & Hf & Hkind).
  exists row, m. split_and!; try done.
  destruct Hkind as [(-> & _)|(-> & _)]; done.
Qed.

(** X3. A mapping with [matched = false] plays no part: validation and the
    records built for the import are those of the matched mappings alone. *)
Theorem unmatched_mappings_are_ignored (columnMappings : list ColumnMapping) :
  (∀ data : list Row,
     validateData columnMappings data
     = validateData (filter (λ m, matched m = true) columnMappings) data)
  ∧ (∀ row : Row,
       transformRow columnMappings row
       = transformRow (filter (λ m, matched m = true) columnMappings) row).
Proof.
  split.
  - intros data. rewrite !validateData_imap.
    assert (∀ row i,
      rowErrorsOf columnMappings row i
      = rowErrorsOf (filter (λ m, matched m = true) columnMappings) row i)
      as Heq.
    { intros row i. induction columnMappings as [|m ms IH]; [done|].
      rewrite filter_cons. case_decide as Hm.
      - rewrite !rowErrorsOf_cons. by rewrite IH.
      - rewrite rowErrorsOf_cons, IH.
        unfold BulkImport.validateMapping.
        destruct (matched m); [done|]. done. }
    f_equal; [f_equal|]; apply imap_ext; intros i row _; simpl;
      by rewrite Heq.
  - intros row. unfold transformRow.
    generalize (∅ : Row).
    induction columnMappings as [|m ms IH]; intros acc; [done|].
    rewrite filter_cons. simpl. case_decide as Hm.
    + simpl. rewrite Hm. apply IH.
    + destruct (matched m); [done|]. apply IH.
Qed.

(** The error of type ['format'] an upload reports. *)
Definition uploadError (msg : string) : ValidationError :=
  {| type := format; field := None; row := None; message := msg;
     value := None |}.

(** The rows, with the keys of the first, that the parser chosen by the
    name of the file delivered, if it delivered any. *)
Definition parserRows (file : @File Num) : option (list Row * list string) :=
  if endsWith (name file) ".csv" then
    match papa file with
    | PapaComplete data firstRowKeys => Some (data, firstRowKeys)
    | PapaError _ => None
    end
  else if endsWith (name file) ".xlsx" || endsWith (name file) ".xls" then
    match xlsx file with
    | XlsxRows jsonData firstRowKeys => Some (jsonData, firstRowKeys)
    | _ => None
    end
  else None.

(** Why an upload loads nothing, if it does: the message for a name that
    is neither CSV nor Excel, for a parser that failed, or for a file
    without rows. *)
Definition uploadFailure (file : @File Num) : option string :=
  if endsWith (name file) ".csv" then
    match papa file with
    | PapaComplete data _ =>
        if bool_decide (length data = 0) then Some "CSV file is empty"
        else None
    | PapaError errorMessage => Some ("Error parsing CSV: " ++ errorMessage)
    end
  else if endsWith (name file) ".xlsx" || endsWith (name file) ".xls" then
    match xlsx file with
    | XlsxRows jsonData _ =>
        if bool_decide (length jsonData = 0) then Some "Excel file is empty"
        else None
    | XlsxThrows errorMessage =>
        Some ("Error parsing Excel file: " ++ errorMessage)
    | ReaderError => Some "Error reading file"
    end
  else Some "Invalid file type. Please upload a CSV or Excel file.".

(** X4. An upload ends in one of two ways, and in both the preview is
    closed and the bulk toggle is off. Either the parser chosen by the name
    of the file delivered rows, at least one: then the state holds exactly
    these rows and the keys of the first, the mappings are those the
    matcher proposes for these keys, the mapper is shown, and the rows are
    validated under the mappings the state held before the upload. Or
    nothing was loaded, because the name is neither CSV nor Excel, the
    parser failed or the file has no rows: then there is exactly one error,
    of type ['format'] and with the message of that cause, in one open
    section, the mapper is hidden, and the mappings, columns, rows and row
    validations are those of before. A file whose name ends in none of
    [.csv], [.xlsx], [.xls] is rejected whatever the parsers would make of
    it, and an event without a file changes nothing. *)
Theorem handleFileUpload_loads_or_reports_one_error (file : File) (st : State) :
  let st' := handleFileUpload (Some file) st in
  showPreview st' = false
  ∧ excludeAllInvalid st' = false
  ∧ ((∃ data columns,
        parserRows file = Some (data, columns)
        ∧ uploadFailure file = None
        ∧ data ≠ []
        ∧ showMappings st' = true
        ∧ csvData st' = data
        ∧ csvColumns st' = columns
        ∧ columnMappings st' = findBestColumnMatches columns availableColumns
        ∧ stateErrors st' = (validateData (columnMappings st) data).1
        ∧ rowValidations st' = (validateData (columnMappings st) data).2
        ∧ originalRowValidations st' = rowValidations st')
     ∨ (∃ msg,
          uploadFailure file = Some msg
          ∧ (parserRows file = None
             ∨ ∃ columns, parserRows file = Some ([], columns))
          ∧ stateErrors st' = [uploadError msg]
          ∧ errorSections st'
            = [{| sectionType := format; title := "Format Validation Errors";
                  sectionErrors := [uploadError msg]; isOpen := true |}]
          ∧ showMappings st' = false
          ∧ columnMappings st' = columnMappings st
          ∧ csvColumns st' = csvColumns st
          ∧ csvData st' = csvData st
          ∧ rowValidations st' = rowValidations st
          ∧ originalRowValidations st' = originalRowValidations st))
  ∧ (endsWith (name file) ".csv" = false →
     endsWith (name file) ".xlsx" = false →
     endsWith (name file) ".xls" = false →
     stateErrors st'
     = [uploadError "Invalid file type. Please upload a CSV or Excel file."])
  ∧ handleFileUpload None st = st.
Proof.
  assert (∀ data columns p,
    showPreview (loadRows st data columns p) = showPreview p
    ∧ excludeAllInvalid (loadRows st data columns p) = excludeAllInvalid p
    ∧ showMappings (loadRows st data columns p) = true) as Hload.
  { intros data columns p. unfold BulkImport.loadRows.
    by destruct (validateData (columnMappings st) data). }
  assert (∀ (data : list Row), bool_decide (length data = 0) = false →
            data ≠ []) as Hne.
  { intros data Hlen ->. by rewrite bool_decide_eq_true_2 in Hlen. }
  assert (∀ (data : list Row), bool_decide (length data = 0) = true →
            data = []) as Hnil.
  { intros data Hlen%bool_decide_eq_true_1. by destruct data. }
  intros st'. subst st'.
  unfold BulkImport.handleFileUpload, parserRows, uploadFailure.
  split_and!; [| | |intros -> -> ->; reflexivity|done].
  - destruct (endsWith (name file) ".csv");
      [destruct (papa file) as [data columns|msg]
      |destruct (_ || _); [destruct (xlsx file) as [data columns|msg|]|]];
      try done; destruct (bool_decide (length data = 0)); try done;
      by destruct (Hload data columns
        (setExcludeAllInvalid false (setShowPreview false
          (setShowMappings false (setErrorSections []
            (setErrors [] st)))))) as (-> & _).
  - destruct (endsWith (name file) ".csv");
      [destruct (papa file) as [data columns|msg]
      |destruct (_ || _); [destruct (xlsx file) as [data columns|msg|]|]];
      try done; destruct (bool_decide (length data = 0)); try done;
      by destruct (Hload data columns
        (setExcludeAllInvalid false (setShowPreview false
          (setShowMappings false (setErrorSections []
            (setErrors [] st)))))) as (_ & -> & _).
  - destruct (endsWith (name file) ".csv");
      [destruct (papa file) as [data columns|msg]
      |destruct (_ || _); [destruct (xlsx file) as [data columns|msg|]|]];
      try (right; eexists; split_and!; [done|by left|done..]);
      (destruct (bool_decide (length data = 0)) eqn:Hlen;
       [right; eexists; split_and!;
          [done|right; exists columns; by rewrite (Hnil data Hlen)|done..]|]);
      left; exists data, columns;
      destruct (loadRows_fields requiredFields template AVAILABLE_COLUMNS
                  COLUMN_TYPES findBestColumnMatches st
                  (setExcludeAllInvalid false (setShowPreview false
                    (setShowMappings false (setErrorSections []
                      (setErrors [] st))))) data columns)
        as (-> & -> & -> & -> & -> & ->);
      destruct (Hload data columns
        (setExcludeAllInvalid false (setShowPreview false
          (setShowMappings false (setErrorSections []
            (setErrors [] st)))))) as (_ & _ & ->);
      split_and!; auto.
Qed.

Lemma concat_imap_nil {A B} (f : nat → A → list B) (l : list A) :
  (∀ i x, f i x = []) → concat (imap f l) = [].
Proof.
  revert f. induction l as [|x l IH]; intros f Hf; [done|].
  simpl. rewrite Hf. simpl. apply IH. intros i y. apply Hf.
Qed.

(** X5. Rows loaded into a session that held no mappings are validated
    under no mapping at all: whatever the cells hold and whatever the
    matcher proposes, no error is reported and no row validation has one. *)
Theorem first_upload_reports_no_validation_error (st p : State)
  (data : list Row) (columns : list string) :
  columnMappings st = [] →
  stateErrors (loadRows st data columns p) = []
  ∧ errorSections (loadRows st data columns p) = []
  ∧ length (rowValidations (loadRows st data columns p)) = length data
  ∧ Forall (λ rv, errors rv = [] ∧ excluded rv = false)
      (rowValidations (loadRows st data columns p)).
Proof.
  intros Hnone.
  assert (errorSections (loadRows st data columns p)
          = errorSections
              (updateErrorSections (validateData (columnMappings st) data).1 p))
    as Hsections.
  { unfold BulkImport.loadRows.
    by destruct (validateData (columnMappings st) data). }
  destruct (loadRows_fields requiredFields template AVAILABLE_COLUMNS
              COLUMN_TYPES findBestColumnMatches st p data columns)
    as (_ & _ & _ & -> & -> & _).
  rewrite Hsections, Hnone, validateData_imap. simpl.
  assert (concat (imap (λ (i : nat) (row : Row), rowErrorsOf [] row i) data)
          = []) as ->.
  { by apply concat_imap_nil. }
  split_and!; [done|done|by rewrite length_imap|].
  apply Forall_forall. intros rv (i & row & -> & _)%elem_of_lookup_imap. done.
Qed.

(** X6. [handleAddMapping] appends one mapping, matched and manual with
    similarity 1, from the first source column to the first allowed target
    (the empty string where there is none), and touches nothing else: the
    rows are not validated again. Deleting the mapping it added gives back
    the state of before. *)
Theorem handleAddMapping_appends_and_delete_undoes (st : State) :
  columnMappings (handleAddMapping st)
  = (columnMappings st
     ++ [{| csvColumn := default "" (head (csvColumns st));
            dbColumn := default "" (head availableColumns);
            similarity := numOfZ 1; matched := true; manual := true |}])%list
  ∧ handleAddMapping st
    = setColumnMappings (columnMappings (handleAddMapping st)) st
  ∧ handleDeleteMapping (length (columnMappings st)) (handleAddMapping st) = st.
Proof.
  unfold BulkImport.handleAddMapping, handleDeleteMapping.
  rewrite ArrayFacts.filteri_delete. simpl.
  rewrite <- !head_lookup. split_and!; [done..|].
  rewrite (delete_middle (columnMappings st) []), app_nil_r.
  by destruct st.
Qed.

Lemma filter_none {A} (P : A → Prop) `{!∀ x, Decision (P x)} (l : list A) :
  (∀ x, x ∈ l → ¬ P x) → filter P l = [].
Proof.
  induction l as [|x l IH]; intros Hno; [done|].
  rewrite filter_cons_False by (apply Hno; left).
  apply IH. intros y Hy. apply Hno. by right.
Qed.

(** The required fields no matched mapping targets, in the order of
    [requiredFields]. *)
Definition missingRequired (mappings : list ColumnMapping) : list string :=
  filter (λ field,
    ¬ Exists (λ m, dbColumn m = field ∧ matched m = true) mappings)
    requiredFields.

(** X7. [handleShowPreview] opens the preview exactly when every required
    field is the target of a matched mapping, and it does not look at the
    row validations. Otherwise it leaves the preview as it was and replaces
    the errors by a single one, of type ['mapping'], that lists the missing
    fields in the order of [requiredFields]. *)
Theorem handleShowPreview_needs_required_mappings (st : State) :
  let missing := missingRequired (columnMappings st) in
  (missing = [] ↔
     ∀ field, field ∈ requiredFields →
       ∃ m, m ∈ columnMappings st ∧ dbColumn m = field ∧ matched m = true)
  ∧ (missing = [] → handleShowPreview st = setShowPreview true st)
  ∧ (missing ≠ [] →
     let error :=
       {| type := mapping; field := None; row := None; value := None;
          message := "Missing required columns: " ++ join ", " missing |} in
     handleShowPreview st
     = setErrorSections
         [{| sectionType := mapping; title := "Column Mapping Errors";
             sectionErrors := [error]; isOpen := true |}]
         (setErrors [error] st)).
Proof.
  intros missing. subst missing. split_and!.
  - unfold missingRequired. split.
    + intros Hnil field Hfield.
      destruct (decide (Exists (λ m, dbColumn m = field ∧ matched m = true)
                          (columnMappings st))) as [Hex|Hno].
      * apply Exists_exists in Hex as (m & Hm & Hd & Hmatched). eauto.
      * assert (field ∈ filter (λ field,
                  ¬ Exists (λ m, dbColumn m = field ∧ matched m = true)
                      (columnMappings st)) requiredFields) as Hin
          by by apply list_elem_of_filter.
        rewrite Hnil in Hin. by apply elem_of_nil in Hin.
    + intros Hall. apply filter_none.
      intros field Hfield Hno. apply Hno, Exists_exists.
      destruct (Hall field Hfield) as (m & ? & ? & ?). eauto.
  - intros Hnil. unfold BulkImport.handleShowPreview,
      BulkImport.validateRequiredColumns.
    fold (missingRequired (columnMappings st)). by rewrite Hnil.
  - intros Hne. unfold BulkImport.handleShowPreview,
      BulkImport.validateRequiredColumns.
    fold (missingRequired (columnMappings st)).
    destruct (missingRequired (columnMappings st)) as [|f fs] eqn:Hm; [done|].
    reflexivity.
Qed.

(** The errors of one type, in the order they were reported. *)
Definition errorsOfType (ty : ErrorType) (errors : list ValidationError)
  : list ValidationError :=
  filter (λ e, type e = ty) errors.

Lemma updateErrorSections_sections (errors : list ValidationError) (p : State) :
  errorSections (updateErrorSections errors p) =
  flat_map (λ ty,
    if bool_decide (0 < length (errorsOfType ty errors))
    then [{| sectionType := ty; title := typeTitles ty;
             sectionErrors := errorsOfType ty errors; isOpen := true |}]
    else []) typeOrder.
Proof.
  unfold updateErrorSections, errorsOfType, push. simpl.
  repeat destruct (bool_decide _); reflexivity.
Qed.

(** X8. [updateErrorSections] files every error under the section of its
    type, and only there. The sections come in the order mapping, required,
    format; a type without errors has no section; a section holds all the
    errors of its type in the order they were reported, has the title of its
    type and is open. No other cell of the state changes. *)
Theorem updateErrorSections_groups_by_type (errors : list ValidationError)
  (p : State) :
  let sections := errorSections (updateErrorSections errors p) in
  sectionType <$> sections
  = filter (λ ty, Exists (λ e, type e = ty) errors) [mapping; required; format]
  ∧ (∀ s, s ∈ sections →
       sectionErrors s = errorsOfType (sectionType s) errors
       ∧ sectionErrors s ≠ []
       ∧ title s = typeTitles (sectionType s)
       ∧ isOpen s = true)
  ∧ (∀ e, e ∈ errors →
       ∃ s, s ∈ sections ∧ sectionType s = type e ∧ e ∈ sectionErrors s)
  ∧ (∀ e s, s ∈ sections → e ∈ sectionErrors s →
       e ∈ errors ∧ type e = sectionType s)
  ∧ updateErrorSections errors p = setErrorSections sections p.
Proof.
  intros sections. subst sections. rewrite updateErrorSections_sections.
  assert (∀ ty, bool_decide (0 < length (errorsOfType ty errors)) = true
                ↔ Exists (λ e, type e = ty) errors) as Hiff.
  { intros ty. rewrite bool_decide_eq_true, Exists_exists. split.
    - destruct (errorsOfType ty errors) as [|e l] eqn:Hf; simpl; [lia|].
      intros _. exists e.
      assert (e ∈ errorsOfType ty errors) as Hin by (rewrite Hf; left).
      apply list_elem_of_filter in Hin as [? ?]. done.
    - intros (e & He & Hty).
      assert (e ∈ errorsOfType ty errors) as Hin
        by by apply list_elem_of_filter.
      destruct (errorsOfType ty errors); [by apply elem_of_nil in Hin|].
      simpl. lia. }
  assert (∀ s, s ∈ flat_map (λ ty,
      if bool_decide (0 < length (errorsOfType ty errors))
      then [{| sectionType := ty; title := typeTitles ty;
               sectionErrors := errorsOfType ty errors; isOpen := true |}]
      else []) typeOrder ↔
    ∃ ty, 0 < length (errorsOfType ty errors)
          ∧ s = {| sectionType := ty; title := typeTitles ty;
                   sectionErrors := errorsOfType ty errors;
                   isOpen := true |}) as Hsec.
  { intros s. rewrite list_elem_of_In, in_flat_map. split.
    - intros (ty & _ & Hs). case_bool_decide; [|done].
      apply list_elem_of_In, list_elem_of_singleton in Hs. eauto.
    - intros (ty & Hlen & ->). exists ty. split.
      + unfold typeOrder. destruct ty; simpl; auto.
      + rewrite bool_decide_eq_true_2 by done. by left. }
  split_and!.
  - unfold typeOrder. simpl. rewrite !filter_cons, filter_nil.
    repeat match goal with
           | |- context [bool_decide (0 < length (errorsOfType ?ty errors))] =>
               let H := fresh in
               destruct (bool_decide (0 < length (errorsOfType ty errors)))
                 eqn:H;
               [apply Hiff in H
               |assert (¬ Exists (λ e, type e = ty) errors)
                  by (intros ?%Hiff; congruence); clear H]
           end;
      repeat (case_decide; try done).
  - intros s (ty & Hlen & ->)%Hsec. simpl. split_and!; try done.
    intros Hnil. rewrite Hnil in Hlen. simpl in Hlen. lia.
  - intros e He. eexists. split.
    + apply Hsec. exists (type e). split; [|done].
      assert (e ∈ errorsOfType (type e) errors) as Hin
        by by apply list_elem_of_filter.
      destruct (errorsOfType (type e) errors);
        [by apply elem_of_nil in Hin|simpl; lia].
    + simpl. split; [done|]. by apply list_elem_of_filter.
  - intros e s (ty & Hlen & ->)%Hsec. simpl.
    intros [? ?]%list_elem_of_filter. done.
  - unfold updateErrorSections at 1. f_equal.
    exact (updateErrorSections_sections errors p).
Qed.

(** X9. [toggleErrorSection] flips whether the section at [index] is open
    and changes nothing else; toggling the same section twice gives back the
    state. *)
Theorem toggleErrorSection_flips_one_section (index : nat) (st : State) :
  toggleErrorSection index (toggleErrorSection index st) = st
  ∧ length (errorSections (toggleErrorSection index st))
    = length (errorSections st)
  ∧ (∀ j s, errorSections st !! j = Some s →
       ∃ s', errorSections (toggleErrorSection index st) !! j = Some s'
             ∧ sectionType s' = sectionType s
             ∧ title s' = title s
             ∧ sectionErrors s' = sectionErrors s
             ∧ isOpen s' = if decide (j = index) then negb (isOpen s)
                           else isOpen s)
  ∧ toggleErrorSection index st
    = setErrorSections (errorSections (toggleErrorSection index st)) st.
Proof.
  unfold toggleErrorSection. simpl. split_and!; [|by rewrite length_imap| |done].
  - destruct st as [e secs cm sm d sp dr cc rv ex orv].
    unfold setErrorSections. simpl. f_equal.
    apply list_eq. intros j. rewrite !list_lookup_imap.
    destruct (secs !! j) as [s|]; [|done]. simpl. f_equal.
    case_bool_decide; [|done]. simpl.
    rewrite negb_involutive. by destruct s.
  - intros j s Hs. rewrite list_lookup_imap, Hs. simpl.
    eexists. split; [done|].
    case_bool_decide; case_decide; try done.
Qed.

(** The row validations sit at the positions their [rowIndex] names, as
    [validateData] leaves them. *)
Definition aligned (st : State) : Prop :=
  rowIndex <$> rowValidations st = seq 0 (length (rowValidations st)).

Lemma toggleRowExclusion_lookup (rowIndex' : nat) (st : State) (i : nat) :
  rowValidations (toggleRowExclusion rowIndex' st) !! i =
  (λ rv, if bool_decide (rowIndex rv = rowIndex')
         then {| rowIndex := rowIndex rv; errors := errors rv;
                 excluded := negb (excluded rv) |}
         else rv) <$> rowValidations st !! i.
Proof. unfold toggleRowExclusion. simpl. apply list_lookup_fmap. Qed.

Lemma aligned_rowIndex (st : State) (i : nat) (rv : RowValidation) :
  aligned st → rowValidations st !! i = Some rv → rowIndex rv = i.
Proof.
  intros Haligned Hrv.
  assert ((rowIndex <$> rowValidations st) !! i = Some (rowIndex rv)) as Hi
    by by rewrite list_lookup_fmap, Hrv.
  rewrite Haligned in Hi. by apply lookup_seq in Hi as [-> _].
Qed.

Lemma filterFrom_ext {A} (keep1 keep2 : nat → bool) (start : nat)
  (l : list A) :
  (∀ i, start ≤ i < start + length l → keep1 i = keep2 i) →
  filterFrom (λ i _, keep1 i) start l = filterFrom (λ i _, keep2 i) start l.
Proof.
  revert start. induction l as [|x l IH]; intros start Heq; [done|].
  simpl in *. rewrite (Heq start) by lia.
  rewrite (IH (S start)) by (intros i Hi; apply Heq; lia). done.
Qed.

Lemma toggleRowExclusion_flips_one_row_aux (st : State) (rowIndex' : nat) :
  aligned st →
  (∀ i, i ≠ rowIndex' →
     keepRow (toggleRowExclusion rowIndex' st) i = keepRow st i)
  ∧ (∀ rv, rowValidations st !! rowIndex' = Some rv →
       excludeAllInvalid st = false →
       keepRow (toggleRowExclusion rowIndex' st) rowIndex'
       = negb (keepRow st rowIndex')).
Proof.
  intros Haligned. split.
  - intros i Hi. unfold keepRow. rewrite toggleRowExclusion_lookup.
    destruct (rowValidations st !! i) as [rv|] eqn:Hrv; [|done]. simpl.
    rewrite (aligned_rowIndex st i rv Haligned Hrv).
    by rewrite bool_decide_eq_false_2.
  - intros rv Hrv Hoff. unfold keepRow.
    rewrite toggleRowExclusion_lookup, Hrv, Hoff. simpl.
    rewrite (aligned_rowIndex st _ rv Haligned Hrv).
    rewrite bool_decide_eq_true_2 by done. simpl. rewrite Hoff.
    by destruct (excluded rv).
Qed.

(** X10. [toggleRowExclusion] flips the exclusion flag of the row
    validations with the given [rowIndex] and changes nothing else; doing it
    twice gives back the state. On row validations as [validateData] leaves
    them, it flips the one at that position: with the bulk toggle off, a row
    shown as included is dropped from the import and the other rows are
    imported as before. *)
Theorem toggleRowExclusion_flips_one_row (rowIndex' : nat) (st : State) :
  toggleRowExclusion rowIndex' (toggleRowExclusion rowIndex' st) = st
  ∧ toggleRowExclusion rowIndex' st
    = setRowValidations (rowValidations (toggleRowExclusion rowIndex' st)) st
  ∧ (∀ i rv, rowValidations st !! i = Some rv →
       ∃ rv', rowValidations (toggleRowExclusion rowIndex' st) !! i = Some rv'
              ∧ rowIndex rv' = rowIndex rv
              ∧ errors rv' = errors rv
              ∧ excluded rv' = if decide (rowIndex rv = rowIndex')
                               then negb (excluded rv) else excluded rv)
  ∧ (aligned st →
     (∀ i, i ≠ rowIndex' →
        keepRow (toggleRowExclusion rowIndex' st) i = keepRow st i)
     ∧ (∀ rv, rowValidations st !! rowIndex' = Some rv →
          excludeAllInvalid st = false →
          keepRow (toggleRowExclusion rowIndex' st) rowIndex'
          = negb (keepRow st rowIndex'))).
Proof.
  split_and!.
  - destruct st as [e secs cm sm d sp dr cc rv ex orv].
    unfold toggleRowExclusion, setRowValidations. simpl. f_equal.
    rewrite <- list_fmap_compose. rewrite <- (list_fmap_id rv) at 2.
    apply list_fmap_ext. intros _ r _. simpl.
    destruct (decide (rowIndex r = rowIndex')) as [Hr|Hr].
    + rewrite (bool_decide_eq_true_2 _ Hr). simpl.
      rewrite (bool_decide_eq_true_2 _ Hr), negb_involutive. by destruct r.
    + by rewrite !(bool_decide_eq_false_2 _ Hr).
  - done.
  - intros i rv Hrv. rewrite toggleRowExclusion_lookup, Hrv. simpl.
    eexists. split; [done|].
    case_bool_decide; case_decide; done.
  - apply toggleRowExclusion_flips_one_row_aux.
Qed.

(** X11. While the bulk toggle is on, a row with errors cannot be brought
    back by hand: on row validations as [validateData] leaves them, toggling
    the exclusion of such a row leaves the imported records as they were. *)
Theorem bulk_exclusion_overrides_row_toggle (st : State) (i : nat)
  (rv : RowValidation) :
  aligned st →
  excludeAllInvalid st = true →
  rowValidations st !! i = Some rv →
  0 < length (errors rv) →
  handleImport (toggleRowExclusion i st) = handleImport st
  ∧ keepRow st i = false
  ∧ keepRow (toggleRowExclusion i st) i = false.
Proof.
  intros Haligned Hon Hrv Herr.
  assert (keepRow st i = false) as Hbefore.
  { unfold keepRow. rewrite Hrv, Hon. simpl.
    rewrite bool_decide_eq_true_2 by done. by rewrite orb_true_r. }
  assert (keepRow (toggleRowExclusion i st) i = false) as Hafter.
  { unfold keepRow. rewrite toggleRowExclusion_lookup, Hrv. simpl.
    rewrite (aligned_rowIndex st i rv Haligned Hrv).
    rewrite bool_decide_eq_true_2 by done. simpl. rewrite Hon.
    rewrite bool_decide_eq_true_2 by done. by rewrite orb_true_r. }
  split_and!; [|done..].
  unfold handleImport. simpl. f_equal. unfold filteri.
  apply (filterFrom_ext (keepRow (toggleRowExclusion i st)) (keepRow st)).
  intros j _. destruct (decide (j = i)) as [->|Hne]; [congruence|].
  destruct (toggleRowExclusion_flips_one_row_aux st i Haligned) as [Hother _].
  by apply Hother.
Qed.

(** X12. The keys of a record built for the import are the target fields of
    the matched mappings, whatever the row holds: all records of one import
    have the same keys. The key of a matched mapping is present whether or
    not the row has the source column, and it holds what reading that
    column from the row gives (when no other matched mapping with another
    source column has the same target). *)
Theorem transformRow_keys (columnMappings : list ColumnMapping) (row : Row) :
  dom (transformRow columnMappings row)
  = list_to_set (dbColumn <$> filter (λ m, matched m = true) columnMappings)
  ∧ (∀ row' : Row,
       dom (transformRow columnMappings row')
       = dom (transformRow columnMappings row))
  ∧ (∀ m, m ∈ columnMappings → matched m = true →
       is_Some (transformRow columnMappings row !! dbColumn m)
       ∧ ((∀ m', m' ∈ columnMappings → matched m' = true →
             dbColumn m' = dbColumn m → csvColumn m' = csvColumn m) →
          transformRow columnMappings row !! dbColumn m
          = Some (prop row (csvColumn m)))).
Proof.
  assert (∀ r : Row,
    dom (transformRow columnMappings r)
    = list_to_set (dbColumn <$> filter (λ m, matched m = true) columnMappings))
    as Hdom.
  { intros r. apply set_eq. intros key.
    rewrite elem_of_dom, transformRow_lookup, fmap_is_Some,
      elem_of_list_to_set, list_elem_of_fmap.
    split.
    - intros [m Hlast]. apply last_Some_elem_of in Hlast.
      apply list_elem_of_filter in Hlast as [[Hmatched Hkey] Hin].
      exists m. split; [done|]. by apply list_elem_of_filter.
    - intros (m & -> & [Hmatched Hin]%list_elem_of_filter).
      assert (m ∈ filter (λ m', matched m' = true ∧ dbColumn m' = dbColumn m)
                columnMappings) as Hf by by apply list_elem_of_filter.
      destruct (filter _ columnMappings) as [|x l] eqn:Heq using rev_ind;
        [by apply elem_of_nil in Hf|].
      rewrite last_snoc. eauto. }
  split_and!; [apply Hdom|intros row'; by rewrite !Hdom|].
  intros m Hin Hmatched.
  rewrite transformRow_lookup.
  assert (m ∈ filter (λ m', matched m' = true ∧ dbColumn m' = dbColumn m)
            columnMappings) as Hf by by apply list_elem_of_filter.
  destruct (last (filter (λ m', matched m' = true ∧ dbColumn m' = dbColumn m)
              columnMappings)) as [m'|] eqn:Hlast.
  - simpl. split; [by eexists|]. intros Hsame.
    apply last_Some_elem_of in Hlast.
    apply list_elem_of_filter in Hlast as [[Hm' Hkey] Hin'].
    by rewrite (Hsame m' Hin' Hm' Hkey).
  - apply last_None in Hlast. rewrite Hlast in Hf.
    by apply elem_of_nil in Hf.
Qed.

(** X13. A row without a row validation at its position is imported: the
    filter of [handleImport] reads a missing validation as neither excluded
    nor invalid. With no row validations at all every parsed row is
    imported, whatever the bulk toggle says; and an import never has more
    records than there are rows. *)
Theorem handleImport_keeps_rows_without_validation (st : State) :
  (∀ i, rowValidations st !! i = None → keepRow st i = true)
  ∧ (rowValidations st = [] →
     handleImport st = transformRow (columnMappings st) <$> csvData st)
  ∧ length (handleImport st) ≤ length (csvData st).
Proof.
  split_and!.
  - intros i Hnone. unfold keepRow. rewrite Hnone. simpl.
    by rewrite andb_false_r.
  - intros Hnil. unfold handleImport. f_equal.
    apply (ArrayFacts.filterFrom_all (keepRow st)).
    intros i _. unfold keepRow. rewrite Hnil, lookup_nil. simpl.
    by rewrite andb_false_r.
  - destruct (handleImport_rows st) as (rows & Hrows & ->).
    rewrite length_fmap, <- (Forall2_length _ _ _ Hrows).
    unfold includedIndices.
    etrans; [apply length_filter|]. by rewrite length_seq.
Qed.
End Component.

End BulkImportMore.

(** ** The mapping editor *)

Module ColumnMapperFacts.
Import Js.

Section Component.
Context {Num : Type} `{!Runtime Num}.

Local Abbreviation Row := (gmap string (Value Num)).
Local Abbreviation ColumnMapping := (@BulkImport.ColumnMapping Num).
Local Abbreviation Page := (@ColumnMapper.Page Num).

Context (requiredFields : list string).
Context (template : Row).
Context (AVAILABLE_COLUMNS : gmap string (list string)).
Context (COLUMN_TYPES : gmap string string).

Local Abbreviation availableColumns :=
  (BulkImport.availableColumns template AVAILABLE_COLUMNS).
Local Abbreviation handleSaveMapping :=
  (ColumnMapper.handleSaveMapping requiredFields template AVAILABLE_COLUMNS
     COLUMN_TYPES).
Local Abbreviation validateData :=
  (BulkImport.validateData requiredFields COLUMN_TYPES).

(** The mapping a save writes: the chosen columns, accepted by hand. *)
Definition saved (csvColumn' dbColumn' : string) : ColumnMapping :=
  {| BulkImport.csvColumn := csvColumn'; BulkImport.dbColumn := dbColumn';
     BulkImport.similarity := numOfZ 1; BulkImport.matched := true;
     BulkImport.manual := true |}.

Lemma imap_replace {A} (index : nat) (x : A) (l : list A) :
  imap (λ i y, if bool_decide (i = index) then x else y) l = <[index := x]> l.
Proof.
  revert index. induction l as [|y l IH]; intros index; [done|].
  destruct index as [|index]; simpl.
  - f_equal. rewrite <- (list_fmap_id l) at 2. rewrite <- imap_const.
    apply imap_ext. intros i z _. simpl. done.
  - f_equal. rewrite <- IH. apply imap_ext. intros i z _. simpl.
    by destruct (decide (i = index));
      [rewrite !bool_decide_eq_true_2 by lia
      |rewrite !bool_decide_eq_false_2 by lia].
Qed.

Lemma handleSaveMapping_mappings (index : nat) (page : Page) :
  ColumnMapper.editDbColumn (ColumnMapper.editor page) ∈ availableColumns →
  BulkImport.columnMappings (ColumnMapper.parent (handleSaveMapping index page))
  = <[index := saved (ColumnMapper.editCsvColumn (ColumnMapper.editor page))
                 (ColumnMapper.editDbColumn (ColumnMapper.editor page))]>
      (BulkImport.columnMappings (ColumnMapper.parent page))
  ∧ BulkImport.rowValidations
      (ColumnMapper.parent (handleSaveMapping index page))
    = (validateData (BulkImport.columnMappings (ColumnMapper.parent page))
         (BulkImport.csvData (ColumnMapper.parent page))).2
  ∧ ColumnMapper.editor (handleSaveMapping index page)
    = ColumnMapper.closeEditor (ColumnMapper.editor page).
Proof.
  intros Hin. unfold ColumnMapper.handleSaveMapping.
  rewrite bool_decide_eq_true_2 by done. simpl.
  destruct (BulkImportFacts.handleSaveMapping_accepted requiredFields template
              AVAILABLE_COLUMNS COLUMN_TYPES index
              (ColumnMapper.editCsvColumn (ColumnMapper.editor page))
              (ColumnMapper.editDbColumn (ColumnMapper.editor page))
              (ColumnMapper.parent page) Hin) as (-> & _ & _ & -> & _).
  split_and!; [|done..]. apply imap_replace.
Qed.

(** X14. Saving in the editor with a target outside the allowed columns
    does nothing at all: the parent is not called, so no error is shown, and
    the row stays in edit mode. With an allowed target the mapping at the
    index is replaced by the chosen columns, matched and manual with
    similarity 1, and the editor closes. *)
Theorem editor_save_ignores_disallowed_target (index : nat) (page : Page) :
  (ColumnMapper.editDbColumn (ColumnMapper.editor page) ∉ availableColumns →
     handleSaveMapping index page = page)
  ∧ (ColumnMapper.editDbColumn (ColumnMapper.editor page) ∈ availableColumns →
     BulkImport.columnMappings
       (ColumnMapper.parent (handleSaveMapping index page))
     = <[index := saved (ColumnMapper.editCsvColumn (ColumnMapper.editor page))
                    (ColumnMapper.editDbColumn (ColumnMapper.editor page))]>
         (BulkImport.columnMappings (ColumnMapper.parent page))
     ∧ ColumnMapper.editingMapping
         (ColumnMapper.editor (handleSaveMapping index page)) = None).
Proof.
  split.
  - intros Hout. unfold ColumnMapper.handleSaveMapping.
    by rewrite bool_decide_eq_false_2.
  - intros Hin.
    destruct (handleSaveMapping_mappings index page Hin) as (-> & _ & ->).
    done.
Qed.

(** X15. Opening a mapping in the editor and saving it unchanged accepts
    it: the mapping keeps its columns and becomes matched and manual with
    similarity 1, also when the matcher had left it unmatched. This needs
    the target to be an allowed column; past the end of the list, opening
    the editor throws. *)
Theorem editor_save_unchanged_accepts_suggestion (index : nat) (page : Page) :
  (∀ m, BulkImport.columnMappings (ColumnMapper.parent page) !! index = Some m →
     BulkImport.dbColumn m ∈ availableColumns →
     ∃ opened,
       ColumnMapper.handleEditMapping index page = inr opened
       ∧ ColumnMapper.parent opened = ColumnMapper.parent page
       ∧ ColumnMapper.editingMapping (ColumnMapper.editor opened) = Some index
       ∧ BulkImport.columnMappings
           (ColumnMapper.parent (handleSaveMapping index opened))
         = <[index := saved (BulkImport.csvColumn m) (BulkImport.dbColumn m)]>
             (BulkImport.columnMappings (ColumnMapper.parent page)))
  ∧ (BulkImport.columnMappings (ColumnMapper.parent page) !! index = None →
     ∃ left, ColumnMapper.handleEditMapping index page = inl left).
Proof.
  split.
  - intros m Hm Hin. unfold ColumnMapper.handleEditMapping. rewrite Hm.
    eexists. split; [done|]. split_and!; [done..|].
    by destruct (handleSaveMapping_mappings index
      {| ColumnMapper.parent :=
           ColumnMapper.onEditMapping index (ColumnMapper.parent page);
         ColumnMapper.editor :=
           {| ColumnMapper.editingMapping := Some index;
              ColumnMapper.editCsvColumn := BulkImport.csvColumn m;
              ColumnMapper.editDbColumn := BulkImport.dbColumn m;
              ColumnMapper.showMappings :=
                ColumnMapper.showMappings (ColumnMapper.editor page);
              ColumnMapper.hoveredColumn :=
                ColumnMapper.hoveredColumn (ColumnMapper.editor page) |} |}
      Hin) as (-> & _).
  - intros Hnone. unfold ColumnMapper.handleEditMapping. rewrite Hnone. eauto.
Qed.

(** X16. The editor remembers the position it was opened on, not the
    mapping. When a mapping above the one being edited is deleted before
    the save, the save lands one mapping further down: the mapping that was
    opened stays as it was, one position up, and the mapping that followed
    it is overwritten with the columns of the one that was opened. *)
Theorem editor_save_after_delete_hits_next_mapping (i j : nat) (page : Page)
  (m next : ColumnMapping) :
  BulkImport.columnMappings (ColumnMapper.parent page) !! i = Some m →
  BulkImport.columnMappings (ColumnMapper.parent page) !! (S i) = Some next →
  BulkImport.dbColumn m ∈ availableColumns →
  j < i →
  ∃ opened,
    ColumnMapper.handleEditMapping i page = inr opened
    ∧ let after :=
        BulkImport.columnMappings
          (ColumnMapper.parent
             (handleSaveMapping i (ColumnMapper.deleteMapping j opened))) in
      after !! (i - 1) = Some m
      ∧ after !! i = Some (saved (BulkImport.csvColumn m) (BulkImport.dbColumn m))
      ∧ length after + 1
        = length (BulkImport.columnMappings (ColumnMapper.parent page))
      ∧ (∀ k, k ≠ i →
           after !! k
           = delete j (BulkImport.columnMappings (ColumnMapper.parent page))
               !! k).
Proof.
  intros Hm Hnext Hin Hj. unfold ColumnMapper.handleEditMapping. rewrite Hm.
  eexists. split; [done|]. simpl.
  set (opened := ColumnMapper.deleteMapping j _).
  assert (ColumnMapper.editDbColumn (ColumnMapper.editor opened)
          ∈ availableColumns) as Hin' by done.
  destruct (handleSaveMapping_mappings i opened Hin') as (-> & _).
  subst opened. simpl. unfold ColumnMapper.onEditMapping.
  unfold BulkImport.handleDeleteMapping. simpl.
  rewrite ArrayFacts.filteri_delete.
  set (cm := BulkImport.columnMappings (ColumnMapper.parent page)) in *.
  assert (S i < length cm) as Hlen by by eapply lookup_lt_Some.
  split_and!.
  - rewrite list_lookup_insert_ne by lia.
    rewrite list_lookup_delete_ge by lia.
    by replace (S (i - 1)) with i by lia.
  - apply list_lookup_insert_eq. rewrite length_delete; [lia|]. 
    apply lookup_lt_is_Some. lia.
  - rewrite length_insert, length_delete; [lia|].
    apply lookup_lt_is_Some. lia.
  - intros k Hk. by rewrite list_lookup_insert_ne.
Qed.
End Component.

End ColumnMapperFacts.

(** ** More on the attendance importer *)

Module AttendanceMore.
Import Js AttendanceStep AttendanceFacts.

(** *** Splitting a string at separators *)

Fixpoint countChars (p : ascii → bool) (s : string) : nat :=
  match s with
  | EmptyString => 0
  | String c s' => (if p c then 1 else 0) + countChars p s'
  end.

Lemma splitClass_length (sep : ascii → bool) (cur s : string) :
  length (splitClass sep cur s) = S (countChars sep s).
Proof.
  revert cur. induction s as [|c s IH]; intros cur; simpl; [done|].
  destruct (sep c); simpl; by rewrite IH.
Qed.

Lemma append_assoc (a b c : string) :
  ((a ++ b) ++ c = a ++ (b ++ c))%string.
Proof.
  induction a as [|x a IH]; [done|].
  change (String x ((a ++ b) ++ c) = String x (a ++ (b ++ c)))%string.
  by rewrite IH.
Qed.

Lemma append_nil_r (a : string) : (a ++ "" = a)%string.
Proof.
  induction a as [|x a IH]; [done|].
  change (String x (a ++ "") = String x a)%string. by rewrite IH.
Qed.

Lemma rev_string_app (acc s : string) :
  rev_string acc s = (rev_string "" s ++ acc)%string.
Proof.
  revert acc. induction s as [|c s IH]; intros acc; simpl; [done|].
  rewrite (IH (String c acc)), (IH (String c "")).
  rewrite append_assoc. done.
Qed.

Lemma rev_string_involutive (s : string) :
  rev_string "" (rev_string "" s) = s.
Proof.
  assert (∀ a b, rev_string b (rev_string a s)
                 = (rev_string "" a ++ s ++ b)%string) as Hgen.
  { induction s as [|c s IH]; intros a b; simpl.
    - rewrite rev_string_app. done.
    - rewrite IH. simpl. rewrite (rev_string_app (String c "") a).
      rewrite append_assoc. done. }
  rewrite Hgen. simpl. apply append_nil_r.
Qed.

(** Reading a part without separators moves it to the part being read. *)
Lemma splitClass_part (sep : ascii → bool) (cur part rest : string) :
  countChars sep part = 0 →
  splitClass sep cur (part ++ rest) = splitClass sep (rev_string cur part) rest.
Proof.
  revert cur. induction part as [|c part IH]; intros cur Hfree; simpl; [done|].
  simpl in Hfree. destruct (sep c); [lia|]. by apply IH.
Qed.

Lemma splitClass_last (sep : ascii → bool) (part : string) :
  countChars sep part = 0 → splitClass sep "" part = [part].
Proof.
  intros Hfree.
  rewrite <- (append_nil_r part) at 1.
  rewrite splitClass_part by done. simpl.
  by rewrite rev_string_involutive.
Qed.

Lemma splitClass_cons (sep : ascii → bool) (part rest : string) (c : ascii) :
  countChars sep part = 0 → sep c = true →
  splitClass sep "" (part ++ String c rest) = part :: splitClass sep "" rest.
Proof.
  intros Hfree Hsep. rewrite splitClass_part by done. simpl.
  by rewrite Hsep, rev_string_involutive.
Qed.

Section Component.
Context {Num : Type} `{!Runtime Num}.

Local Abbreviation AttendanceRecord := (@AttendanceRecord Num).
Local Abbreviation RawRow := (@RawRow Num).
Local Abbreviation State := (@State Num).
Local Abbreviation Acc := (list AttendanceRecord * list string)%type.

Context (students : list Student.t).
Context (schoolId : option string).
Context (watchedAttendanceYear : option string).

Local Abbreviation handleBulkImport :=
  (handleBulkImport students schoolId watchedAttendanceYear).
Local Abbreviation rowResult :=
  (rowResult students schoolId watchedAttendanceYear).
Local Abbreviation importErrors :=
  (importErrors students schoolId watchedAttendanceYear).
Local Abbreviation loopOf := (loopOf students schoolId watchedAttendanceYear).

(** [/] and [-], the separators of the fallback of [parseDate]. *)
Definition separator (c : ascii) : bool :=
  bool_decide (c = "/"%char) || bool_decide (c = "-"%char).

(** X17. When the native parser rejects a value, [parseDate] fails exactly
    when the text of the value does not hold two separators ([/] or [-]).
    With two, the three parts are taken as year, month, day if the first has
    four characters and as month, day, year otherwise, month and day padded
    to two characters with zeros; the parts are not checked to be digits. *)
Theorem parseDate_fallback (resultDate : Value Num) :
  nativeDate resultDate = None →
  (parseDate resultDate = None ↔
     countChars separator (toString resultDate) ≠ 2)
  ∧ (∀ p0 p1 p2 (s1 s2 : ascii),
       toString resultDate
       = (p0 ++ String s1 (p1 ++ String s2 p2))%string →
       separator s1 = true → separator s2 = true →
       countChars separator p0 = 0 → countChars separator p1 = 0 →
       countChars separator p2 = 0 →
       parseDate resultDate =
       Some (if bool_decide (String.length p0 = 4)
             then p0 ++ "-" ++ padStart 2 "0" p1 ++ "-" ++ padStart 2 "0" p2
             else p2 ++ "-" ++ padStart 2 "0" p0 ++ "-" ++ padStart 2 "0" p1)%string).
Proof.
  intros Hnative. unfold parseDate. rewrite Hnative.
  fold separator. split.
  - pose proof (splitClass_length separator "" (toString resultDate)) as Hlen.
    destruct (splitClass separator "" (toString resultDate))
      as [|a [|b [|c [|d l]]]]; simpl in Hlen.
    + lia.
    + split; [intros _; lia|done].
    + split; [intros _; lia|done].
    + split; [|intros ?; lia]. by destruct (bool_decide _).
    + split; [intros _; lia|done].
  - intros p0 p1 p2 s1 s2 -> Hs1 Hs2 H0 H1 H2.
    rewrite splitClass_cons, splitClass_cons, splitClass_last by done.
    by destruct (bool_decide _).
Qed.

(** The match a string header gets: the first entry of the table that
    lists its lower-cased, trimmed text. *)
Definition matchOf (table : list AliasEntry) (header : Value Num)
  : option ColumnMatch :=
  match header with
  | VStr csvHeader =>
      (λ ac, {| matchDbColumn := dbColumn ac; matchCsvColumn := csvHeader |})
        <$> List.find (λ ac, bool_decide (trim (toLowerCase csvHeader)
                                          ∈ csvColumn ac)) table
  | _ => None
  end.

Definition isString (v : Value Num) : Prop := ∃ s, v = VStr s.

Lemma findBestColumnMatches_strings (headers : list (Value Num))
  (table : list AliasEntry) (matches : list ColumnMatch) :
  Forall isString headers →
  findBestColumnMatches headers table matches
  = inr (matches ++ omap (matchOf table) headers)%list.
Proof.
  intros Hall. revert matches.
  induction Hall as [|h headers [s ->] _ IH]; intros matches; simpl.
  { by rewrite app_nil_r. }
  rewrite IH. unfold push.
  destruct (List.find _ table); simpl; [|done].
  by rewrite <- app_assoc.
Qed.

Lemma findBestColumnMatches_throws (headers : list (Value Num))
  (table : list AliasEntry) (matches : list ColumnMatch) :
  ¬ Forall isString headers →
  ∃ v, v ∈ headers ∧ ¬ isString v
       ∧ findBestColumnMatches headers table matches
         = inl (typeErrorMessage (toString v) "toLowerCase").
Proof.
  revert matches. induction headers as [|h headers IH]; intros matches Hnot.
  { destruct Hnot. constructor. }
  destruct h as [| | b | x | s];
    try (eexists; split; [left|split; [by intros [? ?]|done]]).
  assert (¬ Forall isString headers) as Hnot'.
  { intros Hall. apply Hnot. constructor; [by exists s|done]. }
  simpl.
  match goal with
  | |- context [findBestColumnMatches headers table ?ms] =>
      destruct (IH ms Hnot') as (v & Hv & Hns & ->)
  end.
  exists v. split; [by right|done].
Qed.

(** X18. The matcher of the attendance importer returns matches only when
    every header is a string: a header cell of any other kind (a blank or
    a number) makes it throw on that cell's missing [toLowerCase]. When it
    returns, there is at most one match per header, in header order; a
    match pairs a header as written with the first table entry that lists
    the header's lower-cased, trimmed text, and every header with such an
    entry is matched. *)
Theorem findBestColumnMatches_needs_string_headers
  (headers : list (Value Num)) (table : list AliasEntry) :
  (Forall isString headers →
     ∃ matches,
       findBestColumnMatches headers table [] = inr matches
       ∧ matches = omap (matchOf table) headers
       ∧ length matches ≤ length headers
       ∧ (∀ m, m ∈ matches →
            ∃ ac, ac ∈ table
                  ∧ matchDbColumn m = dbColumn ac
                  ∧ trim (toLowerCase (matchCsvColumn m)) ∈ csvColumn ac
                  ∧ VStr (matchCsvColumn m) ∈ headers)
       ∧ (∀ s ac, VStr s ∈ headers → ac ∈ table →
            trim (toLowerCase s) ∈ csvColumn ac →
            ∃ m, m ∈ matches ∧ matchCsvColumn m = s))
  ∧ (¬ Forall isString headers →
     ∃ v, v ∈ headers ∧ ¬ isString v
          ∧ findBestColumnMatches headers table []
            = inl (typeErrorMessage (toString v) "toLowerCase")).
Proof.
  split; [|apply findBestColumnMatches_throws].
  intros Hall. rewrite findBestColumnMatches_strings by done. simpl.
  eexists. split_and!; [done|done|..].
  - clear Hall. induction headers as [|h headers IH]; [done|].
    change (omap (matchOf table) (h :: headers))
      with (match matchOf table h with
            | Some m => m :: omap (matchOf table) headers
            | None => omap (matchOf table) headers
            end).
    destruct (matchOf table h); simpl; lia.
  - intros m (h & Hh & Hm)%list_elem_of_omap.
    destruct h as [| | | |s]; try done. simpl in Hm.
    destruct (List.find _ table) as [ac|] eqn:Hfind; simplify_eq/=.
    apply find_some in Hfind as [Hac Halias].
    exists ac. split_and!; [by apply list_elem_of_In|done| |done].
    by apply bool_decide_eq_true_1 in Halias.
  - intros s ac Hs Hac Halias.
    destruct (List.find (λ ac, bool_decide (trim (toLowerCase s)
                                           ∈ csvColumn ac)) table)
      as [ac'|] eqn:Hfind.
    + exists {| matchDbColumn := dbColumn ac'; matchCsvColumn := s |}.
      split; [|done].
      apply list_elem_of_omap. exists (VStr s). split; [done|].
      simpl. by rewrite Hfind.
    + exfalso. apply list_elem_of_In in Hac.
      pose proof (find_none _ _ Hfind ac Hac) as Hno. simpl in Hno.
      by rewrite bool_decide_eq_true_2 in Hno.
Qed.

(** The records of all rows, in row order. *)
Definition importedRecords (raw : list RawRow) : list AttendanceRecord :=
  concat (imap (λ i _, (rowResult raw i).1) raw).

Lemma loop_importedRecords (raw : list RawRow) start body :
  loopOf raw = Some (start, body) →
  (forEachFrom body start ([], []) (drop start raw)).1 = importedRecords raw.
Proof.
  intros Hloop. destruct (loopOf_body _ _ _ _ _ _ Hloop) as [Hpushes _].
  rewrite forEachFrom_pushes by done. simpl.
  unfold importedRecords.
  trans (concat (imap (λ i (_ : RawRow), (rowResult raw i).1)
                   (take start raw ++ drop start raw)));
    [|by rewrite take_drop].
  rewrite imap_app, concat_app.
  rewrite (concat_nil_all (imap _ (take start raw))).
  2:{ apply Forall_forall. intros l [i [x [-> Hi]]]%elem_of_lookup_imap.
      unfold AttendanceFacts.rowResult. rewrite Hloop.
      apply lookup_lt_Some in Hi. rewrite length_take in Hi.
      destruct (raw !! i); [|done].
      by rewrite bool_decide_eq_false_2 by lia. }
  simpl. f_equal. apply imap_ext. intros k row Hk. simpl.
  rewrite lookup_drop in Hk.
  assert (start ≤ length raw) as Hle.
  { apply lookup_lt_Some in Hk. lia. }
  rewrite length_take, Nat.min_l by done.
  unfold AttendanceFacts.rowResult. rewrite Hloop, Hk.
  by rewrite bool_decide_eq_true_2 by lia.
Qed.

(** A row that is not an array, or whose first cell is empty, is passed
    over: it gives neither a record nor an error. *)
Definition passedOver (row : RawRow) : Prop :=
  match row with
  | RowObject _ => True
  | RowArray cells => truthy (at_ cells 0) = false
  end.

Lemma rowResult_passedOver (raw : list RawRow) (i : nat) (row : RawRow) :
  raw !! i = Some row → passedOver row → rowResult raw i = ([], []).
Proof.
  intros Hrow Hpass. unfold AttendanceFacts.rowResult.
  rewrite Hrow. destruct (loopOf raw) as [[start body]|] eqn:Hloop; [|done].
  case_bool_decide; [|done].
  unfold AttendanceFacts.loopOf in Hloop.
  destruct (isLinkItFormat raw).
  { injection Hloop as <- <-. destruct row as [cells|]; [|done].
    simpl in *. by rewrite Hpass. }
  destruct (prepareStandard raw); try done.
  injection Hloop as <- <-. destruct row as [cells|]; [|done].
  simpl in *. by rewrite Hpass.
Qed.



Lemma findIndexFrom_None {A} (p : A → bool) (start : nat) (l : list A) :
  findIndexFrom p start l = None ↔ ∀ x, x ∈ l → p x = false.
Proof.
  revert start. induction l as [|x l IH]; intros start; simpl.
  { split; [by intros _ ? ?%elem_of_nil|done]. }
  destruct (p x) eqn:Hx.
  - split; [done|]. intros Hall. rewrite Hall in Hx by left. done.
  - rewrite IH. split.
    + intros Hall y [->|Hy]%elem_of_cons; auto.
    + intros Hall y Hy. apply Hall. by right.
Qed.

Lemma findIndexFrom_Some {A} (p : A → bool) (start : nat) (l : list A)
  (i : nat) :
  findIndexFrom p start l = Some i →
  start ≤ i
  ∧ (∃ x, l !! (i - start) = Some x ∧ p x = true)
  ∧ ∀ j x, j < i - start → l !! j = Some x → p x = false.
Proof.
  revert start. induction l as [|x l IH]; intros start; simpl; [done|].
  destruct (p x) eqn:Hx.
  - intros [= <-]. rewrite Nat.sub_diag. split_and!; [lia|eauto|].
    intros j y Hj. lia.
  - intros (Hle & (y & Hy & Hpy) & Hbefore)%IH. split_and!; [lia| |].
    + exists y. replace (i - start) with (S (i - S start)) by lia. done.
    + intros j z Hj Hz. destruct j as [|j]; simplify_eq/=; [done|].
      apply (Hbefore j z); [lia|done].
Qed.

(** A row the standard path takes for the header row. *)
Definition headerLike (row : RawRow) : bool :=
  strictEqStr (cell row 0) "#"
  || (lengthAbove row 20
      && includes (toLowerCase (toString (cell row 2))) "id"
      && includes (toLowerCase (toString (cell row 19))) "result date").

Definition noHeaderBanner : string :=
  "Could not locate header row (looking for column " ++ dq ++ "#" ++ dq
  ++ " or attendance format)".

Lemma handleBulkImport_no_header (raw : list RawRow) (st : State) :
  isLinkItFormat raw = false →
  (∀ row, row ∈ take 10 raw → headerLike row = false) →
  handleBulkImport raw st = setError noHeaderBanner st.
Proof.
  intros Hlinkit Hnone.
  unfold AttendanceStep.handleBulkImport, processStandardFormat,
    prepareStandard, headerRowIndex.
  rewrite Hlinkit.
  rewrite (proj2 (findIndexFrom_None _ 0 (take 10 raw))).
  2:{ intros row Hrow. specialize (Hnone row Hrow). unfold headerLike in Hnone.
      by apply orb_false_elim in Hnone as [? _]. }
  rewrite (proj2 (findIndexFrom_None _ 0 (take 10 raw))).
  2:{ intros row Hrow. specialize (Hnone row Hrow). unfold headerLike in Hnone.
      by apply orb_false_elim in Hnone as [_ ?]. }
  done.
Qed.

(** X20. The standard path looks for its header row among the first ten
    rows only. If none of them starts with ["#"] or looks like the header of
    an attendance report, the import stops with the banner "Could not locate
    header row ..." and appends nothing, whatever the rows from the eleventh
    on hold. A header row that is found lies among the first ten and is
    such a row. *)
Theorem standard_header_is_among_first_ten_rows (raw : list RawRow)
  (st : State) :
  (isLinkItFormat raw = false →
   (∀ i row, i < 10 → raw !! i = Some row → headerLike row = false) →
   handleBulkImport raw st = setError noHeaderBanner st
   ∧ cachedData (handleBulkImport raw st) = cachedData st
   ∧ onUpdateCalls (handleBulkImport raw st) = onUpdateCalls st)
  ∧ (∀ h, headerRowIndex raw = Some h →
       h < 10 ∧ ∃ row, raw !! h = Some row ∧ headerLike row = true).
Proof.
  split.
  - intros Hlinkit Hnone.
    rewrite handleBulkImport_no_header; [done..|].
    intros row [i Hi]%list_elem_of_lookup.
    rewrite lookup_take_Some in Hi. destruct Hi as [Hi Hlt].
    by apply (Hnone i).
  - intros h. unfold headerRowIndex.
    destruct (findIndexFrom (λ row, strictEqStr (cell row 0) "#") 0
                (take 10 raw)) as [i|] eqn:Hfirst.
    + intros [= <-].
      apply findIndexFrom_Some in Hfirst as (_ & (row & Hrow & Hp) & _).
      rewrite Nat.sub_0_r, lookup_take_Some in Hrow.
      destruct Hrow as [Hrow Hlt]. split; [done|].
      exists row. split; [done|]. unfold headerLike. by rewrite Hp.
    + intros (_ & (row & Hrow & Hp) & _)%findIndexFrom_Some.
      rewrite Nat.sub_0_r, lookup_take_Some in Hrow.
      destruct Hrow as [Hrow Hlt]. split; [done|].
      exists row. split; [done|]. unfold headerLike. rewrite Hp.
      by rewrite orb_true_r.
Qed.

Lemma handleBulkImport_no_loop (raw : list RawRow) (st : State) :
  loopOf raw = None →
  cachedData (handleBulkImport raw st) = cachedData st
  ∧ onUpdateCalls (handleBulkImport raw st) = onUpdateCalls st
  ∧ is_Some (error (handleBulkImport raw st)).
Proof.
  unfold AttendanceFacts.loopOf, AttendanceStep.handleBulkImport,
    processStandardFormat.
  destruct (isLinkItFormat raw); [done|].
  destruct (prepareStandard raw); [| |done]; intros _; simpl; eauto.
Qed.

(** X21. The records [BulkImport] hands over are plain objects, and
    [handleBulkImport] reads rows as arrays: whatever the objects hold, it
    appends no attendance record. When no object has a property named [0]
    or [2], as is the case for records keyed by column names, the outcome is
    the banner "Could not locate header row ...". *)
Theorem handleBulkImport_reads_no_object_rows
  (records : list (gmap string (Value Num))) (st : State) :
  cachedData (handleBulkImport (RowObject <$> records) st) = cachedData st
  ∧ ((∀ record, record ∈ records →
        record !! "0" = None ∧ record !! "2" = None) →
     handleBulkImport (RowObject <$> records) st
     = setError noHeaderBanner st).
Proof.
  set (raw := RowObject <$> records).
  assert (∀ i row, raw !! i = Some row → passedOver row) as Hpass.
  { intros i row. unfold raw. rewrite list_lookup_fmap.
    destruct (records !! i); intros [= <-]. done. }
  split.
  - destruct (loopOf raw) as [[start body]|] eqn:Hloop.
    2:{ by destruct (handleBulkImport_no_loop raw st Hloop) as (-> & _). }
    rewrite (AttendanceFacts.handleBulkImport_loop students schoolId
               watchedAttendanceYear raw st start body Hloop).
    pose proof (loop_importedRecords raw start body Hloop) as Hrecords.
    destruct (forEachFrom body start ([], []) (drop start raw))
      as [processed errors]. simpl in Hrecords. subst processed.
    unfold commit. case_bool_decide; simpl; [done|].
    rewrite <- (app_nil_r (cachedData st)) at 2. f_equal.
    unfold importedRecords.
    assert (∀ l : list RawRow, (∀ i row, l !! i = Some row → raw !! i = Some row)
              → concat (imap (λ i _, (rowResult raw i).1) l) = []) as Hnil.
    { intros l Hl. apply concat_nil_all, Forall_forall.
      intros x (i & row & -> & Hi)%elem_of_lookup_imap.
      rewrite (rowResult_passedOver raw i row); eauto. }
    by apply Hnil.
  - intros Hkeys. apply handleBulkImport_no_header.
    + unfold isLinkItFormat, rawCell, raw.
      rewrite list_lookup_fmap.
      destruct (records !! 0) as [record|] eqn:Hrecord; simpl.
      * assert (record ∈ records) as Hin
          by (apply list_elem_of_lookup; eauto).
        destruct (Hkeys record Hin) as [H0 _].
        unfold prop. change (pretty 0) with "0". rewrite H0. simpl.
        by rewrite andb_false_r.
      * by rewrite andb_false_r.
    + intros row Hrow.
      assert (row ∈ raw) as Hin.
      { apply list_elem_of_lookup in Hrow as [i Hi].
        rewrite lookup_take_Some in Hi. destruct Hi as [Hi _].
        apply list_elem_of_lookup. eauto. }
      apply list_elem_of_fmap in Hin as (record & -> & Hrecord).
      destruct (Hkeys record Hrecord) as [H0 H2].
      unfold headerLike. simpl. unfold prop.
      change (pretty 0) with "0". change (pretty 2) with "2".
      rewrite H0, H2. simpl.
      by rewrite andb_false_r.
Qed.
End Component.

End AttendanceMore.

(** ** The attendance form and list *)

Module AttendanceFormFacts.
Import Js AttendanceStep AttendanceForm.

Section Component.
Context {Num : Type} `{!Runtime Num}.

Local Abbreviation AttendanceRecord := (@AttendanceRecord Num).
Local Abbreviation RawRow := (@RawRow Num).
Local Abbreviation State := (@State Num).
Local Abbreviation AttendanceFormData := (@AttendanceFormData Num).

Context (students : list Student.t).
Context (schoolId : option string).
Context (watchedAttendanceYear : option string).

Local Abbreviation onSubmit := (onSubmit students schoolId).
Local Abbreviation handleBulkImport :=
  (handleBulkImport students schoolId watchedAttendanceYear).
Local Abbreviation rowResult :=
  (AttendanceFacts.rowResult students schoolId watchedAttendanceYear).

(** The student with the school's id for them, as [onSubmit] looks them
    up. *)
Definition studentOf (formData : AttendanceFormData) : option Student.t :=
  List.find (λ s, bool_decide (Student.school_student_id s
                               = Some (form_school_student_id formData)))
    students.

(** A record for the same student and date is in the list. *)
Definition recorded (studentId date : string) (records : list AttendanceRecord)
  : Prop :=
  ∃ r, r ∈ records ∧ student_id r = studentId ∧ record_date r = date.

Lemma existsb_recorded (studentId date : string)
  (records : list AttendanceRecord) :
  existsb (λ record,
    bool_decide (student_id record = studentId)
    && bool_decide (record_date record = date)) records = true
  ↔ recorded studentId date records.
Proof.
  rewrite existsb_exists. unfold recorded. split.
  - intros (r & Hr & [H1 H2]%andb_prop).
    apply bool_decide_eq_true_1 in H1. apply bool_decide_eq_true_1 in H2.
    exists r. split_and!; [by apply list_elem_of_In|done..].
  - intros (r & Hr & H1 & H2). exists r.
    split; [by apply list_elem_of_In|].
    by rewrite !bool_decide_eq_true_2.
Qed.

(** X22. [onSubmit] either adds exactly one record or changes nothing but
    the error. It refuses, in this order: a student id no student has; a
    student and date already in the list; a count for which [value < 0]
    holds, naming the first such field; a given rate for which
    [value < 0 || value > 100] holds, naming the first such field. A
    refusal leaves the list as it was, does not call [onUpdate] and does
    not reset the form. In every other case, so also for a count or a rate
    on which these comparisons are false without the value being in range,
    as they are on [NaN], the record of the student found is appended with
    the date and year of the form, the new list is handed to [onUpdate],
    the error is cleared and the form is reset to the date of the day and
    the submitted year. *)
Theorem onSubmit_adds_one_record_or_nothing (today : string)
  (formData : AttendanceFormData) (st : State) :
  let result := onSubmit today formData st in
  (studentOf formData = None →
     result
     = (setError "Student not found with the provided School Student ID" st,
        None))
  ∧ (∀ student, studentOf formData = Some student →
       recorded (Student.student_id student) (form_record_date formData)
         (cachedData st) →
       result
       = (setError
            "An attendance record for this student and date already exists"
            st, None))
  ∧ (∀ student field' v, studentOf formData = Some student →
       ¬ recorded (Student.student_id student) (form_record_date formData)
           (cachedData st) →
       List.find (λ fv, negative fv.2) (numericFields formData)
       = Some (field', v) →
       result
       = (setError (underscoresToSpaces field' ++ " cannot be negative") st,
          None))
  ∧ (∀ student field' v, studentOf formData = Some student →
       ¬ recorded (Student.student_id student) (form_record_date formData)
           (cachedData st) →
       Forall (λ fv, negative fv.2 = false) (numericFields formData) →
       List.find (λ fv, outOfRange fv.2) (rateFields formData)
       = Some (field', v) →
       result
       = (setError
            (underscoresToSpaces field' ++ " must be between 0 and 100") st,
          None))
  ∧ (is_Some result.2 ↔
       ∃ student,
         studentOf formData = Some student
         ∧ ¬ recorded (Student.student_id student)
               (form_record_date formData) (cachedData st)
         ∧ Forall (λ fv, numLtb fv.2 (numOfZ 0) = false)
             (numericFields formData)
         ∧ Forall (λ fv, ∀ v, fv.2 = Some v →
                      numLtb v (numOfZ 0) = false
                      ∧ numLtb (numOfZ 100) v = false)
             (rateFields formData))
  ∧ ((result.2 = None
      ∧ cachedData result.1 = cachedData st
      ∧ onUpdateCalls result.1 = onUpdateCalls st
      ∧ is_Some (error result.1))
     ∨ (∃ student r defaults,
          result.2 = Some defaults
          ∧ studentOf formData = Some student
          ∧ student ∈ students
          ∧ cachedData result.1 = (cachedData st ++ [r])%list
          ∧ onUpdateCalls result.1
            = (onUpdateCalls st ++ [cachedData result.1])%list
          ∧ error result.1 = None
          ∧ student_id r = Student.student_id student
          ∧ school_id r = default "" schoolId
          ∧ record_date r = form_record_date formData
          ∧ attendance_year r = form_attendance_year formData
          ∧ total_days_present r = form_total_days_present formData
          ∧ total_days_possible r = form_total_days_possible formData
          ∧ fy_absences_total r = form_fy_absences_total formData
          ∧ fy_absences_excused r = form_fy_absences_excused formData
          ∧ fy_absences_unexcused r = form_fy_absences_unexcused formData
          ∧ fy_tardies_total r = form_fy_tardies_total formData
          ∧ ¬ recorded (student_id r) (record_date r) (cachedData st)
          ∧ default_record_date defaults = today
          ∧ default_attendance_year defaults
            = form_attendance_year formData)).
Proof.
  assert (∀ l : list (string * Num),
            List.find (λ fv, negative fv.2) l = None
            ↔ Forall (λ fv, numLtb fv.2 (numOfZ 0) = false) l) as Hcounts.
  { intros l. induction l as [|fv l IH]; simpl.
    - split; [constructor|done].
    - unfold negative at 1. destruct (numLtb fv.2 (numOfZ 0)) eqn:Hlt.
      + split; [done|]. intros Hall. apply Forall_cons in Hall as [? _].
        congruence.
      + rewrite IH. split; [by constructor|].
        by intros [_ ?]%Forall_cons. }
  assert (∀ l : list (string * option Num),
            List.find (λ fv, outOfRange fv.2) l = None
            ↔ Forall (λ fv, ∀ v, fv.2 = Some v →
                         numLtb v (numOfZ 0) = false
                         ∧ numLtb (numOfZ 100) v = false) l) as Hrates.
  { intros l. induction l as [|fv l IH]; simpl.
    - split; [constructor|done].
    - destruct (outOfRange fv.2) eqn:Hout.
      + split; [done|]. intros Hall. apply Forall_cons in Hall as [Hfv _].
        unfold outOfRange in Hout. destruct fv.2 as [v|]; [|done].
        destruct (Hfv v eq_refl) as [H1 H2]. by rewrite H1, H2 in Hout.
      + rewrite IH. split.
        * intros Hall. constructor; [|done]. intros v Hv.
          unfold outOfRange in Hout. rewrite Hv in Hout.
          by apply orb_false_elim in Hout.
        * by intros [_ ?]%Forall_cons. }
  intros result. subst result. unfold AttendanceForm.onSubmit.
  fold (studentOf formData).
  destruct (studentOf formData) as [student|] eqn:Hstudent.
  2:{ split_and!.
      - done.
      - done.
      - done.
      - done.
      - split; [by intros [? ?]|by intros (? & ? & _)].
      - left. simpl. eauto. }
  destruct (existsb _ (cachedData st)) eqn:Hdup.
  { apply existsb_recorded in Hdup.
    split_and!.
    - done.
    - done.
    - by intros ? ? ? [= <-] ?.
    - by intros ? ? ? [= <-] ?.
    - split; [by intros [? ?]|]. by intros (? & [= <-] & ? & _).
    - left. simpl. eauto. }
  assert (¬ recorded (Student.student_id student) (form_record_date formData)
            (cachedData st)) as Hnew.
  { intros Hrec%existsb_recorded. congruence. }
  destruct (List.find (λ fv, negative fv.2) (numericFields formData))
    as [[field' v]|] eqn:Hneg.
  { assert (¬ Forall (λ fv, numLtb fv.2 (numOfZ 0) = false)
                (numericFields formData)) as Hsome.
    { intros Hall%Hcounts. congruence. }
    split_and!.
    - done.
    - by intros ? [= <-] ?.
    - by intros ? ? ? _ _ [= <- <-].
    - intros ? ? ? _ _ Hall. exfalso. by apply Hsome.
    - split; [by intros [? ?]|]. by intros (? & _ & _ & ? & _).
    - left. simpl. eauto. }
  apply Hcounts in Hneg.
  destruct (List.find (λ fv, outOfRange fv.2) (rateFields formData))
    as [[field' v]|] eqn:Hrate.
  { assert (¬ Forall (λ fv, ∀ v, fv.2 = Some v →
                        numLtb v (numOfZ 0) = false
                        ∧ numLtb (numOfZ 100) v = false)
                (rateFields formData)) as Hsome.
    { intros Hall%Hrates. congruence. }
    split_and!.
    - done.
    - by intros ? [= <-] ?.
    - intros ? ? ? _ _ Hfound. apply Hcounts in Hneg. congruence.
    - by intros ? ? ? _ _ _ [= <- <-].
    - split; [by intros [? ?]|]. by intros (? & _ & _ & _ & ?).
    - left. simpl. eauto. }
  apply Hrates in Hrate.
  split_and!.
  - done.
  - by intros ? [= <-] ?.
  - intros ? ? ? _ _ Hfound. apply Hcounts in Hneg. congruence.
  - intros ? ? ? _ _ _ Hfound. apply Hrates in Hrate. congruence.
  - split; [|by eexists]. intros _. exists student. by split_and!.
  - right. do 3 eexists. simpl.
    split_and!; try done.
    unfold studentOf in Hstudent. apply find_some in Hstudent as [Hin _].
    by apply list_elem_of_In.
Qed.

(** The student and date of a record: what [onSubmit] keeps unique. *)
Definition key (r : AttendanceRecord) : string * string :=
  (student_id r, record_date r).

(** X23. [onSubmit] keeps the list free of two records for the same student
    and date. *)
Theorem onSubmit_keeps_student_dates_unique (today : string)
  (formData : AttendanceFormData) (st : State) :
  NoDup (key <$> cachedData st) →
  NoDup (key <$> cachedData (onSubmit today formData st).1).
Proof.
  intros Hnodup. unfold AttendanceForm.onSubmit.
  destruct (List.find _ students) as [student|]; [|done].
  destruct (existsb _ (cachedData st)) eqn:Hdup; [done|].
  destruct (List.find _ (numericFields formData)) as [[? ?]|]; [done|].
  destruct (List.find _ (rateFields formData)) as [[? ?]|]; [done|].
  simpl. rewrite fmap_app. simpl.
  apply NoDup_app. split_and!; [done| |apply NoDup_singleton].
  intros k (r & -> & Hr)%list_elem_of_fmap Hk.
  apply list_elem_of_singleton in Hk. unfold key in Hk. simpl in Hk.
  injection Hk as H1 H2.
  assert (existsb (λ record,
            bool_decide (student_id record = Student.student_id student)
            && bool_decide (record_date record = form_record_date formData))
            (cachedData st) = true) as Hyes.
  { apply existsb_recorded. exists r. done. }
  congruence.
Qed.

(** X24. [removeAttendanceRecord] takes the record at the index out of the
    list and hands the new list to [onUpdate]; past the end it takes out
    nothing, and the error stays as it is. Removing the record a submission
    has just added gives back the list of before, and a list without two
    records for the same student and date stays so. *)
Theorem removeAttendanceRecord_removes_one (index : nat) (st : State) :
  cachedData (removeAttendanceRecord index st) = delete index (cachedData st)
  ∧ onUpdateCalls (removeAttendanceRecord index st)
    = (onUpdateCalls st ++ [delete index (cachedData st)])%list
  ∧ error (removeAttendanceRecord index st) = error st
  ∧ (length (cachedData st) ≤ index →
     cachedData (removeAttendanceRecord index st) = cachedData st)
  ∧ (index < length (cachedData st) →
     length (cachedData (removeAttendanceRecord index st)) + 1
     = length (cachedData st))
  ∧ (∀ today formData,
       is_Some (onSubmit today formData st).2 →
       cachedData (removeAttendanceRecord (length (cachedData st))
                     (onSubmit today formData st).1)
       = cachedData st)
  ∧ (NoDup (key <$> cachedData st) →
     NoDup (key <$> cachedData (removeAttendanceRecord index st))).
Proof.
  unfold removeAttendanceRecord. simpl. split_and!; try done.
  - intros Hle. rewrite delete_take_drop, take_ge, drop_ge by lia.
    apply app_nil_r.
  - intros Hlt. rewrite length_delete; [lia|]. by apply lookup_lt_is_Some.
  - intros today formData. unfold AttendanceForm.onSubmit.
    destruct (List.find _ students) as [student|]; [|by intros [? ?]].
    destruct (existsb _ (cachedData st)); [by intros [? ?]|].
    destruct (List.find _ (numericFields formData)) as [[? ?]|];
      [by intros [? ?]|].
    destruct (List.find _ (rateFields formData)) as [[? ?]|];
      [by intros [? ?]|].
    intros _. simpl.
    by rewrite (delete_middle (cachedData st) []), app_nil_r.
  - intros Hnodup. eapply sublist_NoDup; [exact Hnodup|].
    apply fmap_sublist, sublist_delete.
Qed.

(** A record of a student of the students step. *)
Definition known (r : AttendanceRecord) : Prop :=
  ∃ s, s ∈ students ∧ Student.student_id s = student_id r.

Lemma buildRecord_known i student yr (a b c d e f g h k l m n : Value Num)
  (r : AttendanceRecord) :
  student ∈ students →
  r ∈ (buildRecord schoolId ([], []) i student yr a b c d e f g h k l m n).1 →
  known r ∧ school_id r = default "" schoolId ∧ attendance_year r = yr.
Proof.
  intros Hstudent. unfold buildRecord, rowError, push.
  destruct (_ || _); simpl; [by intros ?%elem_of_nil|].
  destruct (parseDate a); simpl; [|by intros ?%elem_of_nil].
  intros ->%list_elem_of_singleton. simpl. split; [|done].
  exists student. done.
Qed.

Lemma rowResult_known (raw : list RawRow) (i : nat) (r : AttendanceRecord) :
  r ∈ (rowResult raw i).1 →
  known r ∧ school_id r = default "" schoolId
  ∧ attendance_year r = attendanceYearFromFile watchedAttendanceYear raw.
Proof.
  unfold AttendanceFacts.rowResult.
  destruct (AttendanceFacts.loopOf _ _ _ raw) as [[start body]|] eqn:Hloop;
    [|by intros ?%elem_of_nil].
  destruct (raw !! i) as [row|]; [|by intros ?%elem_of_nil].
  case_bool_decide; [|by intros ?%elem_of_nil].
  unfold AttendanceFacts.loopOf in Hloop.
  destruct (isLinkItFormat raw);
    [|destruct (prepareStandard raw); try done];
    injection Hloop as <- <-; destruct row as [cells|]; simpl;
    try (by intros ?%elem_of_nil);
    destruct (truthy (at_ cells 0)); simpl; try (by intros ?%elem_of_nil);
    destruct (truthy _); simpl; try (by intros ?%elem_of_nil);
    destruct (findStudent _ _) as [student|] eqn:Hfind; simpl;
    try (by intros ?%elem_of_nil);
    apply buildRecord_known;
    unfold findStudent in Hfind; apply find_some in Hfind as [Hin _];
    by apply list_elem_of_In.
Qed.

Lemma handleBulkImport_cachedData (raw : list RawRow) (st : State) :
  cachedData (handleBulkImport raw st) = cachedData st
  ∨ cachedData (handleBulkImport raw st)
    = (cachedData st
       ++ AttendanceMore.importedRecords students schoolId
            watchedAttendanceYear raw)%list.
Proof.
  destruct (AttendanceFacts.loopOf students schoolId watchedAttendanceYear raw)
    as [[start body]|] eqn:Hloop.
  2:{ left. by destruct (AttendanceMore.handleBulkImport_no_loop students
                           schoolId watchedAttendanceYear raw st Hloop). }
  rewrite (AttendanceFacts.handleBulkImport_loop students schoolId
             watchedAttendanceYear raw st start body Hloop).
  pose proof (AttendanceMore.loop_importedRecords students schoolId
                watchedAttendanceYear raw start body Hloop) as Hrecords.
  destruct (forEachFrom body start ([], []) (drop start raw))
    as [processed errors]. simpl in Hrecords. subst processed.
  unfold commit. case_bool_decide; simpl; auto.
Qed.

(** X25. Every record in the list belongs to a student of the students
    step, and the three operations on the list keep it so: a bulk import
    and a submission only add records of students they have looked up, and
    a removal adds none. Such a record is listed under the name of a
    student with its id, never as "Unknown Student" for want of one. A
    record added by a bulk import also carries the step's school id (the
    empty string when there is none) and the year read from the sheet. *)
Theorem attendance_records_belong_to_students (st : State) :
  Forall known (cachedData st) →
  (∀ raw, Forall known (cachedData (handleBulkImport raw st)))
  ∧ (∀ today formData,
       Forall known (cachedData (onSubmit today formData st).1))
  ∧ (∀ index, Forall known (cachedData (removeAttendanceRecord index st)))
  ∧ (∀ r, r ∈ cachedData st →
       ∃ s, s ∈ students ∧ Student.student_id s = student_id r
            ∧ getStudentName students (student_id r)
              = (Student.first_name s ++ " " ++ Student.last_name s)%string)
  ∧ (∀ raw i r, r ∈ (rowResult raw i).1 →
       known r ∧ school_id r = default "" schoolId
       ∧ attendance_year r = attendanceYearFromFile watchedAttendanceYear raw).
Proof.
  intros Hknown. split_and!.
  - intros raw. destruct (handleBulkImport_cachedData raw st) as [->| ->];
      [done|].
    apply Forall_app. split; [done|].
    apply Forall_forall. intros r Hr.
    unfold AttendanceMore.importedRecords in Hr.
    apply AttendanceFacts.elem_of_concat in Hr as (l & Hl & Hr).
    apply elem_of_lookup_imap in Hl as (i & row & -> & _).
    by destruct (rowResult_known raw i r Hr).
  - intros today formData. unfold AttendanceForm.onSubmit.
    destruct (List.find _ students) as [student|] eqn:Hfind; [|done].
    destruct (existsb _ (cachedData st)); [done|].
    destruct (List.find _ (numericFields formData)) as [[? ?]|]; [done|].
    destruct (List.find _ (rateFields formData)) as [[? ?]|]; [done|].
    simpl. apply Forall_app. split; [done|].
    apply Forall_singleton. exists student. split; [|done].
    apply find_some in Hfind as [Hin _]. by apply list_elem_of_In.
  - intros index. unfold removeAttendanceRecord. simpl.
    apply Forall_forall. intros r Hr%list_elem_of_delete_inv.
    by apply (proj1 (Forall_forall _ _) Hknown).
  - intros r Hr. unfold getStudentName.
    destruct (proj1 (Forall_forall _ _) Hknown r Hr) as (s & Hs & Hid).
    destruct (List.find _ students) as [s'|] eqn:Hfind.
    + apply find_some in Hfind as [Hin Heq].
      apply bool_decide_eq_true_1 in Heq.
      exists s'. split_and!; [by apply list_elem_of_In|done|done].
    + apply list_elem_of_In in Hs.
      pose proof (find_none _ _ Hfind s Hs) as Hno. simpl in Hno.
      by rewrite bool_decide_eq_true_2 in Hno.
  - apply rowResult_known.
Qed.
End Component.

End AttendanceFormFacts.

(** ** The wizard page *)

Module SchoolOnboardingFacts.
Import Js AttendanceStep SchoolOnboarding.

Section Page.
Context {Num : Type} `{!Runtime Num}.

Local Abbreviation Obj := (gmap string (Value Num)).
Local Abbreviation State := (@SchoolOnboarding.State Num).
Local Abbreviation Request := (@SchoolOnboarding.Request Num).
Local Abbreviation Backend := (@SchoolOnboarding.Backend Num).
Local Abbreviation Event := (@SchoolOnboarding.Event Num).
Local Abbreviation Session := (@SchoolOnboarding.Session Num).

(** The backend accepted every request of [trace]. *)
Definition accepted (backend : Backend) (trace : list Request) : Prop :=
  ∀ i request, trace !! i = Some request →
    ∃ data, backend (take i trace) request = Returned data.

Lemma accepted_nil backend : accepted backend [].
Proof. intros i request Hi. by rewrite lookup_nil in Hi. Qed.

Lemma accepted_snoc backend trace request data :
  accepted backend trace →
  backend trace request = Returned data →
  accepted backend (trace ++ [request])%list.
Proof.
  intros Hacc Hret i request' Hi.
  destruct (decide (i < length trace)) as [Hlt|Hge].
  - rewrite lookup_app_l in Hi by done.
    rewrite take_app_le by lia. by apply Hacc.
  - rewrite lookup_app_r in Hi by lia.
    apply list_lookup_singleton_Some in Hi as [Hi <-].
    assert (i = length trace) as -> by lia.
    rewrite take_app_length. by exists data.
Qed.

(** A loop of inserts sends a prefix of its requests: all of them when none
    fails, and otherwise up to the first that fails. *)
Lemma insertEach_sent backend requests : ∀ trace,
  accepted backend trace →
  match insertEach backend trace requests with
  | (trace', None) =>
      trace' = (trace ++ requests)%list ∧ accepted backend trace'
  | (trace', Some message) =>
      ∃ before request rest,
        requests = (before ++ request :: rest)%list ∧
        trace' = ((trace ++ before) ++ [request])%list ∧
        accepted backend (trace ++ before)%list ∧
        backend (trace ++ before)%list request = Failed message
  end.
Proof.
  induction requests as [|request rest IH]; intros trace Hacc; simpl.
  - by rewrite app_nil_r.
  - destruct (backend trace request) as [message|data] eqn:Hanswer.
    + exists [], request, rest. by rewrite app_nil_r.
    + specialize (IH (push trace request)
                     (accepted_snoc _ _ _ _ Hacc Hanswer)).
      unfold push in *.
      destruct (insertEach backend (trace ++ [request])%list rest)
        as [trace' [message|]].
      * destruct IH as (before & request' & rest' & -> & -> & Hacc' & Hfail).
        exists (request :: before), request', rest'.
        by rewrite <- !(assoc_L (++)) in *.
      * destruct IH as [-> Hacc']. by rewrite <- app_assoc in *.
Qed.

Definition districtRequest (data : OnboardingData) : Request :=
  {| table := "districts"; payload := InsertObject (district data);
     selected := Some "district_id" |}.

Definition schoolRequest (data : OnboardingData) (districtId : Value Num)
  : Request :=
  {| table := "schools";
     payload := InsertObject (<["district_id" := districtId]> (school data));
     selected := Some "school_id" |}.

(** The district is inserted only when it has no id yet. *)
Definition firstRequests (data : OnboardingData) : list Request :=
  if truthy (prop (district data) "district_id") then []
  else [districtRequest data].

Definition districtIdOf (backend : Backend) (data : OnboardingData)
  : Value Num :=
  if truthy (prop (district data) "district_id")
  then prop (district data) "district_id"
  else match backend [] (districtRequest data) with
       | Returned districtData => prop districtData "district_id"
       | Failed _ => VUndefined
       end.

Definition schoolIdOf (backend : Backend) (data : OnboardingData)
  : Value Num :=
  match backend (firstRequests data)
          (schoolRequest data (districtIdOf backend data)) with
  | Returned schoolData => prop schoolData "school_id"
  | Failed _ => VUndefined
  end.

(** All the requests of a submission that meets no error, in order. *)
Definition plan (backend : Backend) (data : OnboardingData) : list Request :=
  (firstRequests data
   ++ schoolRequest data (districtIdOf backend data)
      :: entityRequests data (schoolIdOf backend data))%list.

Definition succeeded (trace : list Request) : Submitted :=
  {| after := {| currentStep := StepDistrict; isLoading := false;
                 error := None; onboardingData := emptyData |};
     sent := trace; formReset := true |}.

(** [handleFinalSubmit] follows its plan until the first request that the
    backend refuses. *)
Lemma handleFinalSubmit_plan (backend : Backend) (st : State) :
  let requests := plan backend (onboardingData st) in
  (accepted backend requests ∧
   handleFinalSubmit backend st = succeeded requests)
  ∨ (∃ before request rest message,
       requests = (before ++ request :: rest)%list ∧
       accepted backend before ∧
       backend before request = Failed message ∧
       handleFinalSubmit backend st
       = submitFailed st (before ++ [request])%list message).
Proof.
  intros requests. subst requests.
  unfold plan, handleFinalSubmit, schoolIdOf, districtIdOf, firstRequests.
  set (data := onboardingData st).
  fold (districtRequest data).
  destruct (truthy (prop (district data) "district_id")) eqn:Hid; simpl.
  - fold (schoolRequest data (prop (district data) "district_id")).
    set (request := schoolRequest data (prop (district data) "district_id")).
    destruct (backend [] request) as [message|schoolData] eqn:Hschool.
    + right. exists [], request,
        (entityRequests data VUndefined), message.
      split_and!; [done|apply accepted_nil|done|done].
    + pose proof (insertEach_sent backend
        (entityRequests data (prop schoolData "school_id")) [request]
        (accepted_snoc backend [] request schoolData
           (accepted_nil backend) Hschool)) as Hloop.
      unfold push. simpl.
      destruct (insertEach backend [request]
                  (entityRequests data (prop schoolData "school_id")))
        as [trace' [message|]].
      * destruct Hloop as (before & failing & rest & Hsplit & -> & Hacc & Hfail).
        right. exists (request :: before), failing, rest, message.
        rewrite Hsplit. by split_and!.
      * destruct Hloop as [-> Hacc]. by left.
  - destruct (backend [] (districtRequest data))
      as [message|districtData] eqn:Hdistrict.
    + right. exists [], (districtRequest data),
        (schoolRequest data VUndefined
           :: entityRequests data
                match backend [districtRequest data]
                        (schoolRequest data VUndefined) with
                | Returned schoolData => prop schoolData "school_id"
                | Failed _ => VUndefined
                end), message.
      split_and!; [done|apply accepted_nil|done|done].
    + fold (schoolRequest data (prop districtData "district_id")).
      set (request := schoolRequest data (prop districtData "district_id")).
      pose proof (accepted_snoc backend [] (districtRequest data) districtData
                    (accepted_nil backend) Hdistrict) as Hfirst.
      simpl in Hfirst.
      destruct (backend [districtRequest data] request)
        as [message|schoolData] eqn:Hschool.
      * right. exists [districtRequest data], request,
          (entityRequests data VUndefined), message.
        by split_and!.
      * pose proof (insertEach_sent backend
          (entityRequests data (prop schoolData "school_id"))
          [districtRequest data; request]
          (accepted_snoc backend [districtRequest data] request schoolData
             Hfirst Hschool)) as Hloop.
        unfold push. simpl.
        destruct (insertEach backend [districtRequest data; request]
                    (entityRequests data (prop schoolData "school_id")))
          as [trace' [message|]].
        -- destruct Hloop
             as (before & failing & rest & Hsplit & -> & Hacc & Hfail).
           right.
           exists (districtRequest data :: request :: before), failing, rest,
             message.
           rewrite Hsplit. by split_and!.
        -- destruct Hloop as [-> Hacc]. by left.
Qed.

(** What is sent is the beginning of the plan. *)
Lemma handleFinalSubmit_sent_prefix (backend : Backend) (st : State) :
  sent (handleFinalSubmit backend st)
    `prefix_of` plan backend (onboardingData st).
Proof.
  destruct (handleFinalSubmit_plan backend st)
    as [[_ ->]|(before & request & rest & message & -> & _ & _ & ->)]; simpl.
  - done.
  - exists rest. by rewrite <- app_assoc.
Qed.

(** The attendance records among the payloads of [trace] *)
Definition attendanceSent (trace : list Request)
  : list (@AttendanceRecord Num) :=
  omap (λ request,
          match payload request with
          | InsertAttendance r => Some r
          | InsertObject _ => None
          end) trace.

Lemma attendanceSent_objects {A} (f : A → Request) (l : list A) :
  (∀ x, ∃ o, payload (f x) = InsertObject o) →
  attendanceSent (f <$> l) = [].
Proof.
  intros Hf. induction l as [|x l IH]; [done|].
  unfold attendanceSent in *. simpl.
  destruct (Hf x) as [o ->]. exact IH.
Qed.

Lemma attendanceSent_records (records : list (@AttendanceRecord Num)) :
  attendanceSent
    ((λ attendanceRecord,
        {| table := "attendance_records";
           payload := InsertAttendance attendanceRecord;
           selected := None |}) <$> records) = records.
Proof.
  induction records as [|r records IH]; [done|].
  unfold attendanceSent in *. simpl. f_equal. exact IH.
Qed.

Lemma attendanceSent_app (l k : list Request) :
  attendanceSent (l ++ k)%list = (attendanceSent l ++ attendanceSent k)%list.
Proof. apply omap_app. Qed.

Lemma attendanceSent_plan (backend : Backend) (data : OnboardingData) :
  attendanceSent (plan backend data) = attendanceRecords data.
Proof.
  unfold plan, firstRequests, entityRequests.
  rewrite attendanceSent_app.
  assert (attendanceSent
            (if truthy (prop (district data) "district_id")
             then [] else [districtRequest data]) = []) as ->
    by by destruct (truthy _).
  change (attendanceSent (?r :: ?l))
    with (attendanceSent ([r] ++ l)%list).
  rewrite !attendanceSent_app.
  rewrite attendanceSent_records.
  rewrite !attendanceSent_objects by (intros x; by eexists).
  simpl. by rewrite app_nil_r.
Qed.

(** The requests of [entityRequests], by table *)
Lemma elem_of_entityRequests (data : OnboardingData) (schoolId : Value Num)
  (request : Request) :
  request ∈ entityRequests data schoolId →
  (∃ o, o ∈ admins data
        ∧ request = insertInto "admin_users" (<["school_id" := schoolId]> o))
  ∨ (∃ o, o ∈ teachers data ∧ request = insertInto "teachers" o)
  ∨ (∃ o, o ∈ students data
          ∧ request = insertInto "students" (<["school_id" := schoolId]> o))
  ∨ (∃ o, o ∈ classrooms data
          ∧ request
            = insertInto "classrooms" (<["school_id" := schoolId]> o))
  ∨ (∃ o, o ∈ enrollments data
          ∧ request = insertInto "classroom_enrollments" o)
  ∨ (∃ r, r ∈ attendanceRecords data
          ∧ request = {| table := "attendance_records";
                         payload := InsertAttendance r;
                         selected := None |})
  ∨ (∃ o, o ∈ assessmentRecords data
          ∧ request = insertInto "assessment_external_processed" o)
  ∨ (∃ o, o ∈ individualizedNeeds data
          ∧ request = insertInto "individualized_needs" o).
Proof.
  unfold entityRequests.
  rewrite !elem_of_app, !list_elem_of_fmap.
  intros [H|[H|[H|[H|[H|[H|[H|H]]]]]]]; destruct H as (x & -> & Hx);
    eauto 12.
Qed.

(** The requests of the plan, by table *)
Lemma elem_of_plan (backend : Backend) (data : OnboardingData)
  (request : Request) :
  request ∈ plan backend data →
  request = districtRequest data
  ∨ request = schoolRequest data (districtIdOf backend data)
  ∨ request ∈ entityRequests data (schoolIdOf backend data).
Proof.
  unfold plan, firstRequests.
  rewrite elem_of_app, elem_of_cons.
  intros [H|[H|H]]; auto.
  destruct (truthy _); [by apply elem_of_nil in H|].
  apply list_elem_of_singleton in H. auto.
Qed.

(** No step has the id of the case that mounts the step of the
    individualized needs. *)
Lemma renderStepContent_needs (st : State) :
  renderStepContent st ≠ Some IndividualizedNeedsComponent.
Proof.
  unfold renderStepContent. destruct (currentStep st); vm_compute; done.
Qed.

Lemma mount_needs (st : State) (seen : list StepComponent) :
  IndividualizedNeedsComponent ∉ seen →
  IndividualizedNeedsComponent ∉ mount st seen.
Proof.
  intros Hseen. unfold mount.
  pose proof (renderStepContent_needs st) as Hrender.
  destruct (renderStepContent st) as [component|]; [|done].
  intros [<-|Hin]%elem_of_cons; [done|]. by apply Hseen.
Qed.

(** Every handler but the [onUpdate] of the step of the individualized
    needs leaves [individualizedNeeds] as it is, or empties it. *)
Lemma dispatch_individualizedNeeds (event : Event) (st : State) :
  sender event ≠ Some IndividualizedNeedsComponent →
  individualizedNeeds (onboardingData st) = [] →
  individualizedNeeds (onboardingData (dispatch event st)) = [].
Proof.
  intros Hsender Hst. destruct event; simpl; try done.
  - unfold handleNext. by destruct (atZ _ _).
  - unfold handleBack. by destruct (atZ _ _).
  - destruct (handleFinalSubmit_plan backend st)
      as [[_ ->]|(before & request & rest & message & _ & _ & _ & ->)];
      done.
Qed.

(** A session in which the step of the individualized needs was never
    mounted and the list of needs is empty. *)
Definition withoutNeeds (session : Session) : Prop :=
  (IndividualizedNeedsComponent ∉ mounted session)
  ∧ individualizedNeeds (onboardingData (page session)) = [].

Lemma handle_withoutNeeds (session : Session) (event : Event) :
  withoutNeeds session → withoutNeeds (handle session event).
Proof.
  intros [Hmounted Hempty]. unfold handle.
  destruct (sender event) as [component|] eqn:Hsender.
  - case_bool_decide as Hin; [|done]. split; simpl.
    + by apply mount_needs.
    + apply dispatch_individualizedNeeds; [|done].
      rewrite Hsender. intros [= ->]. by apply Hmounted.
  - split; simpl.
    + by apply mount_needs.
    + apply dispatch_individualizedNeeds; [|done]. by rewrite Hsender.
Qed.

Lemma run_withoutNeeds (events : list Event) : ∀ session : Session,
  withoutNeeds session → withoutNeeds (run events session).
Proof.
  unfold run.
  induction events as [|event events IH]; intros session Hsession; simpl;
    [done|].
  by apply IH, handle_withoutNeeds.
Qed.

(** X26 ([SchoolOnboarding.tsx], [handleNext] and [handleBack]): the two
    navigation buttons walk the list of steps and undo each other. Next
    leaves the page as it is exactly on the review step, and Back exactly
    on the district step; anywhere else Back after Next, and Next after
    Back, give the page back unchanged; and neither touches anything but
    the step. *)
Theorem navigation_walks_the_step_list (st : State) :
  (handleNext st = st ↔ currentStep st = StepReview)
  ∧ (handleBack st = st ↔ currentStep st = StepDistrict)
  ∧ (currentStep st ≠ StepReview → handleBack (handleNext st) = st)
  ∧ (currentStep st ≠ StepDistrict → handleNext (handleBack st) = st)
  ∧ onboardingData (handleNext st) = onboardingData st
  ∧ onboardingData (handleBack st) = onboardingData st
  ∧ error (handleNext st) = error st
  ∧ error (handleBack st) = error st.
Proof.
  destruct st as [step loading err data].
  destruct step; vm_compute; split_and!; try split; try done.
Qed.

(** X27 ([SchoolOnboarding.tsx], [handleFinalSubmit]): the final submission
    stops at the first request the backend refuses and undoes nothing.
    Either every request sent was accepted, and then the form is reset and
    the page is back on the district step with empty data and no error; or
    the last request sent is the one refused, every request before it was
    accepted (and stays inserted), the page shows that request's message,
    and its step and its data are what they were. In both cases the
    loading flag is off at the end. *)
Theorem handleFinalSubmit_stops_at_first_error (backend : Backend)
  (st : State) :
  let result := handleFinalSubmit backend st in
  (accepted backend (sent result)
   ∧ formReset result = true
   ∧ after result
     = {| currentStep := StepDistrict; isLoading := false; error := None;
          onboardingData := emptyData |})
  ∨ (∃ before request message,
       sent result = (before ++ [request])%list
       ∧ accepted backend before
       ∧ backend before request = Failed message
       ∧ formReset result = false
       ∧ after result
         = {| currentStep := currentStep st; isLoading := false;
              error := Some message;
              onboardingData := onboardingData st |}).
Proof.
  intros result. subst result.
  destruct (handleFinalSubmit_plan backend st)
    as [[Hacc ->]|(before & request & rest & message & _ & Hacc & Hfail & ->)].
  - by left.
  - right. by exists before, request, message.
Qed.

(** X28 ([SchoolOnboarding.tsx], [handleFinalSubmit]): attendance records
    are inserted as they were collected, in their order and each at most
    once: the records among the payloads sent are a beginning of
    [onboardingData.attendanceRecords], and all of them when the
    submission succeeds. In particular a record keeps the [school_id] it
    was built with; the id the backend returns for the school is not
    written into it. *)
Theorem handleFinalSubmit_inserts_attendance_unchanged (backend : Backend)
  (st : State) :
  let result := handleFinalSubmit backend st in
  attendanceSent (sent result)
    `prefix_of` attendanceRecords (onboardingData st)
  ∧ (formReset result = true →
     attendanceSent (sent result) = attendanceRecords (onboardingData st)).
Proof.
  intros result. subst result. split.
  - destruct (handleFinalSubmit_sent_prefix backend st) as [rest Hplan].
    exists (attendanceSent rest).
    by rewrite <- attendanceSent_app, <- Hplan, attendanceSent_plan.
  - destruct (handleFinalSubmit_plan backend st)
      as [[_ ->]|(before & request & rest & message & _ & _ & _ & ->)];
      [|done].
    intros _. apply attendanceSent_plan.
Qed.

(** X29 ([SchoolOnboarding.tsx], [renderStepContent] and
    [handleFinalSubmit]): the individualized needs are never collected nor
    inserted. The only writer of [individualizedNeeds] is the [onUpdate] of
    the step that [renderStepContent] mounts in its case
    ['individualized_needs']; called, it would store its argument. But no
    step has that id, so whatever the current step is, that case is not
    taken. Hence in any session from the first render, through any
    sequence of navigation, submissions and updates from components that
    were mounted, the component is never mounted, the list stays empty,
    and a submission sends nothing to the [individualized_needs] table. *)
Theorem individualized_needs_are_never_inserted (events : list Event)
  (backend : Backend) :
  let session := run events firstRender in
  (∀ data (st : State),
     individualizedNeeds
       (onboardingData (dispatch (IndividualizedNeedsUpdate data) st)) = data)
  ∧ (∀ st : State,
       renderStepContent st ≠ Some IndividualizedNeedsComponent)
  ∧ (IndividualizedNeedsComponent ∉ mounted session)
  ∧ individualizedNeeds (onboardingData (page session)) = []
  ∧ Forall (λ request, table request ≠ "individualized_needs")
      (sent (handleFinalSubmit backend (page session))).
Proof.
  intros session.
  assert (withoutNeeds session) as [Hmounted Hempty].
  { apply run_withoutNeeds. split; simpl; [|done].
    apply mount_needs, not_elem_of_nil. }
  split_and!; [done|apply renderStepContent_needs|done|done|].
  apply Forall_forall. intros request Hin.
  destruct (handleFinalSubmit_sent_prefix backend (page session))
    as [rest Hplan].
  assert (request ∈ plan backend (onboardingData (page session))) as Hplanned
    by (rewrite Hplan; apply elem_of_app; by left).
  apply elem_of_plan in Hplanned as [->|[->|Hentity]]; [done|done|].
  apply elem_of_entityRequests in Hentity
    as [H|[H|[H|[H|[H|[H|[H|H]]]]]]]; destruct H as (x & Hx & ->);
    try done.
  rewrite Hempty in Hx. by apply elem_of_nil in Hx.
Qed.

(** X30 ([SchoolOnboarding.tsx], [handleFinalSubmit]): admins, students and
    classrooms are linked to the school the backend created. A request
    sent to [admin_users], [students] or [classrooms] comes after an
    accepted insert into [schools], and its [school_id] is the one that
    insert returned, whatever id the entity had. *)
Theorem handleFinalSubmit_links_to_created_school (backend : Backend)
  (st : State) (i : nat) (request : Request) :
  sent (handleFinalSubmit backend st) !! i = Some request →
  table request ∈ ["admin_users"; "students"; "classrooms"] →
  ∃ before schoolRequest' schoolData o,
    table schoolRequest' = "schools"
    ∧ (before ++ [schoolRequest'])%list
      `prefix_of` take i (sent (handleFinalSubmit backend st))
    ∧ backend before schoolRequest' = Returned schoolData
    ∧ payload request = InsertObject o
    ∧ o !! "school_id" = Some (prop schoolData "school_id").
Proof.
  intros Hi Htable.
  set (data := onboardingData st).
  set (first := firstRequests data).
  set (school' := schoolRequest data (districtIdOf backend data)).
  destruct (handleFinalSubmit_sent_prefix backend st) as [rest Hplan].
  fold data in Hplan.
  assert (plan backend data
          = (first ++ school' :: entityRequests data (schoolIdOf backend data))
              %list) as Hshape by done.
  pose proof (lookup_lt_Some _ _ _ Hi) as Hlt.
  pose proof (lookup_app_l_Some _ rest _ _ Hi) as Hplanned.
  rewrite <- Hplan, Hshape in Hplanned.
  assert (table request ≠ "districts" ∧ table request ≠ "schools")
    as [Hnot_district Hnot_school].
  { rewrite !elem_of_cons in Htable.
    destruct Htable as [->|[->|[->|H]]]; [done..|by apply elem_of_nil in H]. }
  apply lookup_app_Some in Hplanned as [Hfirst|[Hge Hplanned]].
  { exfalso. apply list_elem_of_lookup_2 in Hfirst.
    subst first. unfold firstRequests in Hfirst.
    destruct (truthy _); [by apply elem_of_nil in Hfirst|].
    apply list_elem_of_singleton in Hfirst. by subst request. }
  destruct (i - length first) as [|j] eqn:Hj; simpl in Hplanned.
  { exfalso. by simplify_eq. }
  assert (length first < i) as Hpast by lia.
  (* the school's insert was sent, and accepted *)
  assert (sent (handleFinalSubmit backend st) !! length first = Some school')
    as Hschool.
  { assert (plan backend data !! length first = Some school') as Hmid
      by (rewrite Hshape; by apply list_lookup_middle).
    rewrite Hplan, lookup_app_l in Hmid by lia. done. }
  assert (take (length first) (sent (handleFinalSubmit backend st)) = first)
    as Htake.
  { rewrite <- (take_app_le _ rest) by lia.
    rewrite <- Hplan, Hshape. apply take_app_length. }
  assert (∃ schoolData, backend first school' = Returned schoolData)
    as [schoolData Haccepted].
  { rewrite <- Htake.
    destruct (handleFinalSubmit_plan backend st)
      as [[Hacc Heq]|(before & failing & rest' & message & _ & Hacc & _ & Heq)].
    - rewrite Heq in *. simpl in *. by apply Hacc.
    - rewrite Heq in *. simpl in *.
      rewrite length_app in Hlt. simpl in Hlt.
      rewrite lookup_app_l in Hschool by lia.
      rewrite take_app_le by lia. by apply Hacc. }
  assert (schoolIdOf backend data = prop schoolData "school_id") as Hid.
  { unfold schoolIdOf. fold first. fold school'. by rewrite Haccepted. }
  (* the request is one of the loops' *)
  apply list_elem_of_lookup_2, elem_of_entityRequests in Hplanned.
  rewrite Hid in Hplanned.
  assert ((first ++ [school'])%list
          `prefix_of` take i (sent (handleFinalSubmit backend st)))
    as Hbefore.
  { assert ((first ++ [school'])%list
            = take (S (length first)) (sent (handleFinalSubmit backend st)))
      as ->.
    { rewrite (take_S_r _ _ school') by done. by rewrite Htake. }
    replace (S (length first)) with (S (length first) `min` i) by lia.
    rewrite <- take_take. apply prefix_take. }
  destruct Hplanned as [H|[H|[H|[H|[H|[H|[H|H]]]]]]];
    destruct H as (x & Hx & ->); simpl in *;
    try (exfalso; rewrite !elem_of_cons in Htable;
         destruct Htable as [?|[?|[?|Hnil]]];
         [done..|by apply elem_of_nil in Hnil]).
  all: exists first, school', schoolData,
         (<["school_id" := prop schoolData "school_id"]> x).
  all: split_and!; [done|done|done|done|by rewrite lookup_insert_eq].
Qed.
End Page.

End SchoolOnboardingFacts.

(** ** Runs of the added properties *)

Module MoreExamples.
Import Js.

#[local] Existing Instance Examples.integerRuntime.

Local Abbreviation Num := (option Z).

(** A one-row file whose [Contact] column is mapped to the guardian's email
    address. *)
Definition contactMappings : list (@BulkImport.ColumnMapping Num) :=
  [Examples.mappingOf "ID" "school_student_id" false;
   Examples.mappingOf "Contact" "guardian1_email" true].

Definition contactError : @BulkImport.ValidationError Num :=
  {| BulkImport.type := BulkImport.format;
     BulkImport.field := Some "guardian1_email";
     BulkImport.row := Some 1;
     BulkImport.value := Some (VStr "not-an-email");
     BulkImport.message :=
       "Invalid email format in row 1: " ++ dq ++ "not-an-email" ++ dq |}.

Lemma validateData_errors_name_row_and_field_witness :
  ∃ row m,
    BulkImport.csvData Examples.loaded !! 0 = Some row
    ∧ m ∈ contactMappings
    ∧ BulkImport.matched m = true
    ∧ BulkImport.row contactError = Some (0 + 1)
    ∧ BulkImport.field contactError = Some (BulkImport.dbColumn m)
    ∧ BulkImport.type contactError ≠ BulkImport.mapping
    ∧ ((BulkImport.type contactError = BulkImport.required
        ∧ BulkImport.value contactError = None
        ∧ BulkImport.dbColumn m ∈ Examples.requiredFields)
       ∨ (BulkImport.type contactError = BulkImport.format
          ∧ BulkImport.value contactError
            = Some (prop row (BulkImport.csvColumn m))
          ∧ truthy (prop row (BulkImport.csvColumn m)) = true)).
Proof.
  apply (BulkImportMore.validateData_errors_name_row_and_field
           Examples.requiredFields Examples.COLUMN_TYPES contactMappings
           (BulkImport.csvData Examples.loaded) 0
           {| BulkImport.rowIndex := 0; BulkImport.errors := [contactError];
              BulkImport.excluded := false |} contactError).
  - vm_compute. reflexivity.
  - apply list_elem_of_here.
Defined.

(** The first upload: the state holds no mapping yet. *)
Lemma first_upload_reports_no_validation_error_witness :
  let st' :=
    BulkImport.loadRows Examples.requiredFields Examples.template
      Examples.AVAILABLE_COLUMNS Examples.COLUMN_TYPES
      (λ _ _, contactMappings) BulkImport.initialState
      (BulkImport.csvData Examples.loaded) ["ID"; "Contact"]
      BulkImport.initialState in
  BulkImport.columnMappings (Num := Num) BulkImport.initialState = []
  ∧ BulkImport.stateErrors st' = []
  ∧ BulkImport.columnMappings st' = contactMappings.
Proof.
  intros st'. subst st'.
  destruct (BulkImportMore.first_upload_reports_no_validation_error
              Examples.requiredFields Examples.template
              Examples.AVAILABLE_COLUMNS Examples.COLUMN_TYPES
              (λ _ _, contactMappings) BulkImport.initialState
              BulkImport.initialState
              (BulkImport.csvData Examples.loaded) ["ID"; "Contact"])
    as (Herrors & _).
  - reflexivity.
  - split_and!; [reflexivity|exact Herrors|reflexivity].
Defined.

(** The rows of [Examples.reviewed], validated in order, with the
    exclusion of all invalid rows switched on. *)
Definition bulkExcluded : @BulkImport.State Num :=
  BulkImport.toggleExcludeAllInvalid
    {| BulkImport.stateErrors := [];
       BulkImport.errorSections := [];
       BulkImport.columnMappings :=
         BulkImport.columnMappings Examples.reviewed;
       BulkImport.showMappings := true;
       BulkImport.csvData := BulkImport.csvData Examples.reviewed;
       BulkImport.showPreview := true;
       BulkImport.isDragging := false;
       BulkImport.csvColumns := ["ID"];
       BulkImport.rowValidations :=
         (BulkImport.validateData Examples.requiredFields
            Examples.COLUMN_TYPES
            (BulkImport.columnMappings Examples.reviewed)
            (BulkImport.csvData Examples.reviewed)).2;
       BulkImport.excludeAllInvalid := false;
       BulkImport.originalRowValidations := [] |}.

Lemma bulk_exclusion_overrides_row_toggle_witness :
  BulkImport.handleImport (BulkImport.toggleRowExclusion 1 bulkExcluded)
  = [{[ "school_student_id" := VStr "S1" ]}]
  ∧ BulkImport.keepRow (BulkImport.toggleRowExclusion 1 bulkExcluded) 1
    = false.
Proof.
  destruct (BulkImportMore.bulk_exclusion_overrides_row_toggle bulkExcluded 1
              {| BulkImport.rowIndex := 1;
                 BulkImport.errors :=
                   [{| BulkImport.type := BulkImport.required;
                       BulkImport.field := Some "school_student_id";
                       BulkImport.row := Some 2;
                       BulkImport.value := None;
                       BulkImport.message :=
                         "Missing required value for " ++ dq
                         ++ "school_student_id" ++ dq ++ " in row 2" |}];
                 BulkImport.excluded := true |})
    as (Himport & _ & Hkeep).
  - vm_compute. reflexivity.
  - vm_compute. reflexivity.
  - vm_compute. reflexivity.
  - simpl. lia.
  - split; [|exact Hkeep].
    rewrite Himport. vm_compute. reflexivity.
Defined.

(** The mapping editor over three mappings. *)
Definition threeMappings : @ColumnMapper.Page Num :=
  {| ColumnMapper.parent :=
       BulkImport.setColumnMappings
         [Examples.mappingOf "ID" "school_student_id" false;
          Examples.mappingOf "First" "first_name" false;
          Examples.mappingOf "Last" "last_name" false]
         Examples.loaded;
     ColumnMapper.editor := ColumnMapper.initialEditor |}.

Lemma editor_save_after_delete_hits_next_mapping_witness :
  ∃ opened,
    ColumnMapper.handleEditMapping 1 threeMappings = inr opened
    ∧ BulkImport.columnMappings
        (ColumnMapper.parent
           (ColumnMapper.handleSaveMapping Examples.requiredFields
              Examples.template Examples.AVAILABLE_COLUMNS
              Examples.COLUMN_TYPES 1
              (ColumnMapper.deleteMapping 0 opened))) !! 1
      = Some (Examples.mappingOf "First" "first_name" true).
Proof.
  destruct (ColumnMapperFacts.editor_save_after_delete_hits_next_mapping
              Examples.requiredFields Examples.template
              Examples.AVAILABLE_COLUMNS Examples.COLUMN_TYPES 1 0
              threeMappings
              (Examples.mappingOf "First" "first_name" false)
              (Examples.mappingOf "Last" "last_name" false))
    as (opened & Hopened & _ & Hsaved & _).
  - reflexivity.
  - reflexivity.
  - vm_compute. apply list_elem_of_further, list_elem_of_here.
  - lia.
  - exists opened. split; [exact Hopened|exact Hsaved].
Defined.

Lemma parseDate_fallback_witness :
  nativeDate (VStr "1/5/2024") = None
  ∧ AttendanceStep.parseDate (Num := Num) (VStr "1/5/2024")
    = Some "2024-01-05".
Proof.
  split; [reflexivity|].
  destruct (AttendanceMore.parseDate_fallback (Num := Num) (VStr "1/5/2024"))
    as [_ Hparts]; [reflexivity|].
  rewrite (Hparts "1" "5" "2024" "/"%char "/"%char); reflexivity.
Defined.



(** The form filled in for the student [S1]. *)
Definition filled : @AttendanceForm.AttendanceFormData Num :=
  {| AttendanceForm.form_school_student_id := "S1";
     AttendanceForm.form_record_date := "2024-01-05";
     AttendanceForm.form_total_days_present := Some 170%Z;
     AttendanceForm.form_total_days_possible := Some 180%Z;
     AttendanceForm.form_fy_absences_total := Some 10%Z;
     AttendanceForm.form_fy_absences_excused := Some 6%Z;
     AttendanceForm.form_fy_absences_unexcused := Some 4%Z;
     AttendanceForm.form_fy_tardies_total := Some 3%Z;
     AttendanceForm.form_attendance_year := Some "2024-2025";
     AttendanceForm.form_daily_attendance_rate := Some (Some 94%Z);
     AttendanceForm.form_mp1_attendance_rate := None;
     AttendanceForm.form_mp2_attendance_rate := None;
     AttendanceForm.form_mp3_attendance_rate := None;
     AttendanceForm.form_mp4_attendance_rate := None |}.

(** The same form with counts and a rate that are [NaN]: the comparisons
    of [onSubmit] are false on them, and the record is added. *)
Definition notNumbers : @AttendanceForm.AttendanceFormData Num :=
  {| AttendanceForm.form_school_student_id := "S1";
     AttendanceForm.form_record_date := "2024-01-05";
     AttendanceForm.form_total_days_present := numNaN;
     AttendanceForm.form_total_days_possible := numNaN;
     AttendanceForm.form_fy_absences_total := numNaN;
     AttendanceForm.form_fy_absences_excused := numNaN;
     AttendanceForm.form_fy_absences_unexcused := numNaN;
     AttendanceForm.form_fy_tardies_total := numNaN;
     AttendanceForm.form_attendance_year := Some "2024-2025";
     AttendanceForm.form_daily_attendance_rate := Some numNaN;
     AttendanceForm.form_mp1_attendance_rate := None;
     AttendanceForm.form_mp2_attendance_rate := None;
     AttendanceForm.form_mp3_attendance_rate := None;
     AttendanceForm.form_mp4_attendance_rate := None |}.

Lemma onSubmit_accepts_NaN_counts :
  let result :=
    AttendanceForm.onSubmit Examples.students (Some "school-1") "2024-02-01"
      notNumbers Examples.attendance in
  is_Some result.2
  ∧ AttendanceStep.total_days_present
      <$> AttendanceStep.cachedData result.1 = [numNaN]
  ∧ AttendanceStep.error result.1 = None.
Proof. vm_compute. split_and!; [by eexists|reflexivity|reflexivity]. Qed.

Definition submittedOnce : @AttendanceStep.State Num :=
  (AttendanceForm.onSubmit Examples.students (Some "school-1") "2024-02-01"
     filled Examples.attendance).1.

Lemma onSubmit_keeps_student_dates_unique_witness :
  length (AttendanceStep.cachedData submittedOnce) = 1
  ∧ NoDup (AttendanceFormFacts.key
             <$> AttendanceStep.cachedData
                   (AttendanceForm.onSubmit Examples.students
                      (Some "school-1") "2024-02-01" filled submittedOnce).1).
Proof.
  split; [reflexivity|].
  apply (AttendanceFormFacts.onSubmit_keeps_student_dates_unique
           Examples.students (Some "school-1") "2024-02-01" filled
           submittedOnce).
  vm_compute. apply NoDup_singleton.
Defined.

Lemma attendance_records_belong_to_students_witness :
  Forall (AttendanceFormFacts.known Examples.students)
    (AttendanceStep.cachedData submittedOnce).
Proof.
  destruct (AttendanceFormFacts.attendance_records_belong_to_students
              Examples.students (Some "school-1") (Some "2024-2025")
              Examples.attendance) as (_ & Hform & _).
  - apply Forall_nil_2.
  - apply (Hform "2024-02-01" filled).
Defined.

(** A backend that accepts every insert and answers with fresh ids. *)
Definition accepting : @SchoolOnboarding.Backend Num :=
  λ _ _, SchoolOnboarding.Returned
           {[ "district_id" := VStr "d-1"; "school_id" := VStr "s-1" ]}.

(** The wizard at the review step, with one student collected. *)
Definition collected : @SchoolOnboarding.State Num :=
  {| SchoolOnboarding.currentStep := SchoolOnboarding.StepReview;
     SchoolOnboarding.isLoading := false;
     SchoolOnboarding.error := None;
     SchoolOnboarding.onboardingData :=
       {| SchoolOnboarding.district := {[ "district_name" := VStr "North" ]};
          SchoolOnboarding.school := {[ "name" := VStr "Elm Street" ]};
          SchoolOnboarding.admins := [];
          SchoolOnboarding.teachers := [];
          SchoolOnboarding.students :=
            [{[ "school_student_id" := VStr "S1";
                "school_id" := VStr "typed-in" ]}];
          SchoolOnboarding.classrooms := [];
          SchoolOnboarding.enrollments := [];
          SchoolOnboarding.attendanceRecords :=
            AttendanceStep.cachedData submittedOnce;
          SchoolOnboarding.assessmentRecords := [];
          SchoolOnboarding.individualizedNeeds := [] |} |}.

Lemma handleFinalSubmit_links_to_created_school_witness :
  ∃ before schoolRequest' schoolData o,
    SchoolOnboarding.table schoolRequest' = "schools"
    ∧ (before ++ [schoolRequest'])%list
      `prefix_of` take 2
        (SchoolOnboarding.sent
           (SchoolOnboarding.handleFinalSubmit accepting collected))
    ∧ accepting before schoolRequest'
      = SchoolOnboarding.Returned schoolData
    ∧ SchoolOnboarding.InsertObject
        (<["school_id" := VStr "s-1"]>
           {[ "school_student_id" := VStr "S1";
              "school_id" := VStr "typed-in" ]})
      = SchoolOnboarding.InsertObject o
    ∧ o !! "school_id" = Some (prop schoolData "school_id").
Proof.
  apply (SchoolOnboardingFacts.handleFinalSubmit_links_to_created_school
           accepting collected 2
           {| SchoolOnboarding.table := "students";
              SchoolOnboarding.payload :=
                SchoolOnboarding.InsertObject
                  (<["school_id" := VStr "s-1"]>
                     {[ "school_student_id" := VStr "S1";
                        "school_id" := VStr "typed-in" ]});
              SchoolOnboarding.selected := None |}).
  - vm_compute. reflexivity.
  - apply list_elem_of_further, list_elem_of_here.
Defined.
End MoreExamples.
